(** * jupyterhub_config.py: a shallow embedding and its checked properties

    The program is the hub's start-up script
    [jupyterhub/files/hub/jupyterhub_config.py]: straight-line Python that
    reads a configuration tree (the chart's values), the process environment
    and mounted secrets, and assigns attributes of the traitlets
    configuration object [c]; it also defines the pre-spawn hook
    [spawner_config].

    Layout: Python data and builtins ([Py]), the traitlets configuration
    object ([Traitlets]), state and outcomes ([Run]), what the script is
    given ([World]), the chart's helper module ([Z2jh]), the script itself
    top to bottom ([Script]), the hook ([Hook]), then the vocabulary of the
    statements ([Words], [Stated]) and concrete inputs ([Examples]); the
    theorems come after all definitions.

    A string is a sequence of characters with code points below 256, one
    [ascii] each; strings with other characters are outside the embedding.

    Not modelled: [sys.path] and what the imports load (lines 1-23), the
    choice of the HTTP client (line 39), floating-point values of the tree,
    and what an executed fragment prints. An executed fragment runs in the
    script's own namespace: the names it binds anew are part of the state,
    and the script reads them where a fragment can have run before. *)

From Stdlib Require Import ZArith Ascii String List Bool Sorting.Sorted Sorting.Permutation.
From Stdlib Require Import OrderedTypeEx.
From stdpp Require Import base option list strings pretty gmap fin_maps sorting.

Set Warnings "-register-all".
Local Open Scope string_scope.
Local Open Scope list_scope.

(* ===================================================================== *)
(** ** Python data and the builtins the script uses *)
(* ===================================================================== *)

Module Py.

(** Keys of a Python dict as they occur here: strings (YAML mappings) and
    integers (the numeric group ids of the directory profile). *)
Inductive key :=
| KStr (s : string)
| KInt (z : Z).

(** Values: what YAML gives ([None], booleans, integers, strings, lists,
    insertion-ordered dicts) and instances of library classes, which the
    script only builds and stores ([client.V1Container], callables, bytes). *)
Inductive value :=
| VNone
| VBool (b : bool)
| VInt (z : Z)
| VStr (s : string)
| VList (l : list value)
| VDict (d : list (key * value))
| VObj (cls : string) (fields : list (string * value)).

Definition dict := list (key * value).

Global Instance key_eq_dec : EqDecision key.
Proof. solve_decision. Defined.

Global Instance key_countable : Countable key :=
  inj_countable'
    (fun k => match k with KStr s => inl s | KInt z => inr z end)
    (fun x => match x with inl s => KStr s | inr z => KInt z end)
    (fun k => match k with KStr _ => eq_refl | KInt _ => eq_refl end).

(** Exceptions, by class; the message where the script writes one.
    [Unmodelled] is no Python exception: it marks an ill-typed input on which
    Python does something this embedding has no value for ([dict.update]
    from a sequence of pairs, a method of an instance of a library class),
    and the use of a name that an executed fragment has bound to something
    the embedding does not follow. *)
Inductive exn :=
| ValueError (msg : string)
| KeyError (k : string)
| TypeError
| AttributeError
| Exception (msg : string)
| Unmodelled.

(** A result or the exception raised instead. *)
Definition res (A : Type) : Type := (exn + A)%type.

Global Instance res_ret : MRet res := fun A a => inr a.

Global Instance res_bind : MBind res := fun A B f r =>
  match r with
  | inl e => inl e
  | inr a => f a
  end.

(** [[f(x) for x in l]], stopping at the first exception. *)
Fixpoint map_res {A B} (f : A -> res B) (l : list A) : res (list B) :=
  match l with
  | [] => inr []
  | x :: l' =>
    match f x with
    | inl e => inl e
    | inr y =>
      match map_res f l' with
      | inl e => inl e
      | inr ys => inr (y :: ys)
      end
    end
  end.

(** [bool(v)]. *)
Definition truthy (v : value) : bool :=
  match v with
  | VNone => false
  | VBool b => b
  | VInt z => negb (z =? 0)%Z
  | VStr s => negb (String.eqb s "")
  | VList l => match l with [] => false | _ => true end
  | VDict d => match d with [] => false | _ => true end
  | VObj _ _ => true
  end.

(** [v == "literal"]: only a string equal to the literal compares equal. *)
Definition eq_str (v : value) (s : string) : bool :=
  match v with
  | VStr t => String.eqb t s
  | _ => false
  end.

(** [v == True]: [True] itself, and the integer 1, which Python equates
    with it. *)
Definition eq_True (v : value) : bool :=
  match v with
  | VBool b => b
  | VInt z => (z =? 1)%Z
  | _ => false
  end.

(** [sep.join(parts)]. *)
Fixpoint join (sep : string) (parts : list string) : string :=
  match parts with
  | [] => ""
  | [p] => p
  | p :: ps => p +:+ sep +:+ join sep ps
  end.

(** [s.split(sep)] for a one-character separator: never an empty list, an
    empty field between two separators or at either end. *)
Fixpoint split (sep : ascii) (s : string) : list string :=
  match s with
  | EmptyString => [""]
  | String a rest =>
    if Ascii.eqb a sep then "" :: split sep rest
    else match split sep rest with
         | [] => [String a ""]
         | w :: ws => String a w :: ws
         end
  end.

(** [s.replace(old, new)] for a one-character [old]. *)
Fixpoint replace_char (old : ascii) (new : string) (s : string) : string :=
  match s with
  | EmptyString => ""
  | String a rest =>
    (if Ascii.eqb a old then new else String a "") +:+ replace_char old new rest
  end.

Definition hex_digit (n : nat) : ascii :=
  ascii_of_nat (if Nat.ltb n 10 then 48 + n else 87 + n).

Definition mem_char (a : ascii) (s : string) : bool :=
  existsb (Ascii.eqb a) (list_ascii_of_string s).

(** [repr(s)] of a string: single quotes unless the string holds a single
    quote and no double quote; the quote and the backslash escaped, tab,
    newline and return by letter, and every other character that is not
    printable as [\xNN]: below 256 these are the control characters (0-31
    and 127-159), the no-break space (160) and the soft hyphen (173). *)
Definition printable (n : nat) : bool :=
  negb (Nat.ltb n 32 || (Nat.leb 127 n && Nat.leb n 160) || Nat.eqb n 173).

Definition repr_char (quote a : ascii) : string :=
  let n := nat_of_ascii a in
  if Ascii.eqb a quote || Ascii.eqb a "\"%char then String "\"%char (String a "")
  else if Nat.eqb n 9 then "\t"
  else if Nat.eqb n 10 then "\n"
  else if Nat.eqb n 13 then "\r"
  else if printable n then String a ""
  else "\x" +:+ String (hex_digit (n / 16)) (String (hex_digit (n mod 16)) "").

Definition repr_str (s : string) : string :=
  let quote : ascii :=
    if mem_char "'"%char s && negb (mem_char "034"%char s)
    then "034"%char else "'"%char in
  String quote
    (String.concat "" (List.map (repr_char quote) (list_ascii_of_string s))
     +:+ String quote "").

Definition repr_key (k : key) : string :=
  match k with
  | KStr s => repr_str s
  | KInt z => pretty z
  end.

(** [repr(v)]. An instance of a library class is rendered by its class and
    fields; no such value reaches a formatted string of the script. *)
Fixpoint repr (v : value) : string :=
  match v with
  | VNone => "None"
  | VBool true => "True"
  | VBool false => "False"
  | VInt z => pretty z
  | VStr s => repr_str s
  | VList l => "[" +:+ join ", " (List.map repr l) +:+ "]"
  | VDict d =>
    "{" +:+ join ", " (List.map (fun kv => repr_key (fst kv) +:+ ": " +:+ repr (snd kv)) d) +:+ "}"
  | VObj cls fields =>
    cls +:+ "(" +:+ join ", " (List.map (fun kv => fst kv +:+ "=" +:+ repr (snd kv)) fields) +:+ ")"
  end.

(** [str(v)], also what an f-string or [str.format] puts for [{v}]. *)
Definition str (v : value) : string :=
  match v with
  | VStr s => s
  | _ => repr v
  end.

(** Dict operations, on the insertion-ordered list of items. *)
Fixpoint dict_get (k : key) (d : dict) : option value :=
  match d with
  | [] => None
  | (k', v) :: d' => if decide (k = k') then Some v else dict_get k d'
  end.

Fixpoint dict_set (k : key) (v : value) (d : dict) : dict :=
  match d with
  | [] => [(k, v)]
  | (k', v') :: d' =>
    if decide (k = k') then (k', v) :: d' else (k', v') :: dict_set k v d'
  end.

(** [d.pop(k, None)], the dict that is left. *)
Fixpoint dict_pop (k : key) (d : dict) : dict :=
  match d with
  | [] => []
  | (k', v') :: d' =>
    if decide (k = k') then dict_pop k d' else (k', v') :: dict_pop k d'
  end.

(** [d.setdefault(k, v)], the dict that results. *)
Definition dict_setdefault (k : key) (v : value) (d : dict) : dict :=
  match dict_get k d with
  | Some _ => d
  | None => d ++ [(k, v)]
  end.

Definition key_value (k : key) : value :=
  match k with
  | KStr s => VStr s
  | KInt z => VInt z
  end.

(** The one-character strings of a string, as iterating it yields them. *)
Definition chars (s : string) : list value :=
  List.map (fun a => VStr (String a "")) (list_ascii_of_string s).

(** [for x in v] / [list(v)]: the items of a list, the characters of a
    string, the keys of a dict; anything else is not iterable. *)
Definition iter (v : value) : res (list value) :=
  match v with
  | VList l => inr l
  | VStr s => inr (chars s)
  | VDict d => inr (List.map (fun kv => key_value (fst kv)) d)
  | _ => inl TypeError
  end.

(** [v[k]] for a string key [k]: a dict is looked up ([KeyError] when the key
    is missing); strings and lists take integer indices only, the rest
    is not subscriptable. *)
Definition subscript (v : value) (k : string) : res value :=
  match v with
  | VDict d =>
    match dict_get (KStr k) d with
    | Some x => inr x
    | None => inl (KeyError k)
    end
  | _ => inl TypeError
  end.

(** [v.get(k, default)]: a dict method; other values have no [get].
    An instance of a library class is outside what the script calls it on. *)
Definition get (v : value) (k : string) (default : value) : res value :=
  match v with
  | VDict d =>
    match dict_get (KStr k) d with
    | Some x => inr x
    | None => inr default
    end
  | VObj _ _ => inl Unmodelled
  | _ => inl AttributeError
  end.

(** [v.items()], and the dict behind [v.setdefault]: dict methods. *)
Definition items (v : value) : res dict :=
  match v with
  | VDict d => inr d
  | VObj _ _ => inl Unmodelled
  | _ => inl AttributeError
  end.

(** The dict behind [v.pop(k, None)]: a list has [pop], with one argument
    only. *)
Definition popped (k : string) (v : value) : res dict :=
  match v with
  | VDict d => inr (dict_pop (KStr k) d)
  | VList _ => inl TypeError
  | VObj _ _ => inl Unmodelled
  | _ => inl AttributeError
  end.

(** [sorted(l)]: a stable insertion sort by [leb]. *)
Fixpoint insert_by {A} (leb : A -> A -> bool) (x : A) (l : list A) : list A :=
  match l with
  | [] => [x]
  | y :: l' => if leb x y then x :: y :: l' else y :: insert_by leb x l'
  end.

Definition sorted_by {A} (leb : A -> A -> bool) (l : list A) : list A :=
  fold_right (insert_by leb) [] l.

(** [sorted(d.items())]: by key, strings among strings and integers among
    integers (keys are distinct, so the values are never compared); a dict
    with keys of both kinds cannot be ordered. *)
Definition str_keys (d : dict) : option (list (string * value)) :=
  mapM (fun kv => match fst kv with KStr s => Some (s, snd kv) | KInt _ => None end) d.

Definition int_keys (d : dict) : option (list (Z * value)) :=
  mapM (fun kv => match fst kv with KInt z => Some (z, snd kv) | KStr _ => None end) d.

Definition sorted_items (d : dict) : res dict :=
  match str_keys d, int_keys d with
  | Some l, _ =>
    inr (List.map (fun kv => (KStr (fst kv), snd kv))
           (sorted_by (fun a b => String.leb (fst a) (fst b)) l))
  | None, Some l =>
    inr (List.map (fun kv => (KInt (fst kv), snd kv))
           (sorted_by (fun a b => (fst a <=? fst b)%Z) l))
  | None, None => inl TypeError
  end.

(** [os.path.basename(path)]: what follows the last slash. *)
Definition basename (path : string) : string :=
  List.last (split "/"%char path) "".

(** ["literal" in v]: key of a dict, substring of a string, item of a list. *)
Definition contains (k : string) (v : value) : res bool :=
  match v with
  | VDict d => inr (bool_decide (is_Some (dict_get (KStr k) d)))
  | VStr s => inr (bool_decide (is_Some (String.index 0 k s)))
  | VList l => inr (existsb (fun x => eq_str x k) l)
  | _ => inl TypeError
  end.

(** [a + b]: integers (booleans count as 0 and 1), strings, lists. *)
Definition as_int (v : value) : option Z :=
  match v with
  | VInt z => Some z
  | VBool b => Some (if b then 1 else 0)%Z
  | _ => None
  end.

Definition add (a b : value) : res value :=
  match a, b with
  | VStr s, VStr t => inr (VStr (s +:+ t))
  | VList l, VList m => inr (VList (l ++ m))
  | _, _ =>
    match as_int a, as_int b with
    | Some x, Some y => inr (VInt (x + y))
    | _, _ => inl TypeError
    end
  end.

End Py.

(* ===================================================================== *)
(** ** The traitlets configuration object *)
(* ===================================================================== *)

Module Traitlets.
Import Py.

(** What a section of [c] holds under a name: a value that was assigned, or
    the [LazyConfigValue] traitlets puts there when a container method is
    called on a name never assigned; it records the items to add to the
    trait's own default ([_extend]). *)
Inductive attr :=
| Val (v : value)
| Lazy (ext : list value).

(** [c], addressed by section (class name) and key. *)
Abbreviation config := (gmap (string * key) attr).

Definition getattr (cls name : string) (c : config) : option attr :=
  c !! (cls, KStr name).

(** [c.Cls.name = v]. *)
Definition setattr (cls name : string) (v : value) (c : config) : config :=
  <[(cls, KStr name) := Val v]> c.

(** [c.Cls.get(name, default)]: the entry as stored, the default when there
    is none. *)
Definition get (cls name : string) (default : value) (c : config) : value :=
  match getattr cls name c with
  | Some (Val v) => v
  | Some (Lazy l) => VObj "LazyConfigValue" [("_extend", VList l)]
  | None => default
  end.

(** The items an entry contributes to a list-valued trait. *)
Definition items_of (a : option attr) : list value :=
  match a with
  | Some (Val (VList l)) => l
  | Some (Lazy l) => l
  | _ => []
  end.

(** An entry a container method works on: a list, or nothing assigned. *)
Definition holds_list (a : option attr) : Prop :=
  match a with
  | None | Some (Lazy _) | Some (Val (VList _)) => True
  | Some (Val _) => False
  end.

(** [entry.extend(xs)] once [xs] is a list of items: in place on a list,
    recorded on a lazy value; other values have no such method. *)
Definition extended (a : attr) (xs : list value) : res attr :=
  match a with
  | Lazy l => inr (Lazy (l ++ xs))
  | Val (VList l) => inr (Val (VList (l ++ xs)))
  | Val (VObj _ _) => inl Unmodelled
  | Val _ => inl AttributeError
  end.

(** [key.startswith('_')]. *)
Definition starts_with_underscore (s : string) : bool :=
  match s with
  | String a _ => Ascii.eqb a "_"%char
  | EmptyString => false
  end.

End Traitlets.

(* ===================================================================== *)
(** ** Running the script: state, outcomes, what lies outside *)
(* ===================================================================== *)

Module Run.
Import Py Traitlets.

(** What the script itself writes to standard output and hands to [exec],
    in order. *)
Inductive event :=
| Printed (line : string)
| Executed (filename : option string) (source : string).

(** The mutable state: the configuration object, [os.environ], the record
    of prints and executions, and the script's namespace as far as executed
    fragments have changed it: the names that no longer mean what the script
    and Python made them mean (bound anew, deleted, or the object behind
    them changed), with what they stand for now. A name that is not there
    means what it meant when the script started. *)
Record state := State {
  c : config;
  environ : gmap string string;
  log : list event;
  names : gmap string value;
}.

(** A statement ends normally with a result or raises; either way it leaves a
    state behind (what was assigned before an exception stays assigned). *)
Inductive outcome (A : Type) :=
| Ok (a : A) (s : state)
| Raise (e : exn) (s : state).
Arguments Ok {A} a s.
Arguments Raise {A} e s.

Definition M (A : Type) : Type := state -> outcome A.

(** The state an outcome leaves, and whether it is a normal end. *)
Definition final {A} (o : outcome A) : state :=
  match o with
  | Ok _ s => s
  | Raise _ s => s
  end.

Definition raised {A} (o : outcome A) : option exn :=
  match o with
  | Ok _ _ => None
  | Raise e _ => Some e
  end.

Definition ok {A} (o : outcome A) : bool :=
  match o with
  | Ok _ _ => true
  | Raise _ _ => false
  end.

Global Instance M_ret : MRet M := fun A a s => Ok a s.

Global Instance M_bind : MBind M := fun A B f m s =>
  match m s with
  | Ok a s' => f a s'
  | Raise e s' => Raise e s'
  end.

Definition raise {A} (e : exn) : M A := fun s => Raise e s.

(** A pure computation that may raise. *)
Definition try {A} (r : res A) : M A := fun s =>
  match r with
  | inl e => Raise e s
  | inr a => Ok a s
  end.

Definition read {A} (f : state -> A) : M A := fun s => Ok (f s) s.

(** The state with its configuration object changed. *)
Definition with_c (f : config -> config) (s : state) : state :=
  State (f (c s)) (environ s) (log s) (names s).

Definition update_c (f : config -> config) : M unit := fun s => Ok tt (with_c f s).

(** [print(line)]. *)
Definition print (line : string) : M unit := fun s =>
  Ok tt (State (c s) (environ s) (log s ++ [Printed line]) (names s)).

(** [os.environ[name] = v]. *)
Definition putenv (name v : string) : M unit := fun s =>
  Ok tt (State (c s) (<[name := v]> (environ s)) (log s) (names s)).

(** [os.environ[name]]. *)
Definition getenv (name : string) : M string := fun s =>
  match environ s !! name with
  | Some v => Ok v s
  | None => Raise (KeyError name) s
  end.

(** The use of a name of the script where a fragment can have run before:
    the script's own binding is meant, and what a fragment has bound to the
    name instead is not followed. *)
Definition own (name : string) : M unit := fun s =>
  match names s !! name with
  | None => Ok tt s
  | Some _ => Raise Unmodelled s
  end.

(** [if cond: body]. *)
Definition when (cond : bool) (body : M unit) : M unit :=
  if cond then body else mret tt.

(** [for x in xs: body(x)]. *)
Fixpoint for_each {A} (xs : list A) (body : A -> M unit) : M unit :=
  match xs with
  | [] => mret tt
  | x :: xs' => body x ;; for_each xs' body
  end.

(** [c.Cls.name = v]. *)
Definition assign (cls name : string) (v : value) : M unit :=
  update_c (setattr cls name v).

(** [c.Cls.name], evaluated for a method call: a name never assigned gets an
    empty lazy value, which stays in [c]. *)
Definition entry (cls name : string) : M attr := fun s =>
  match getattr cls name (c s) with
  | Some a => Ok a s
  | None => Ok (Lazy []) (with_c (<[(cls, KStr name) := Lazy []]>) s)
  end.

Definition store (cls name : string) (a : attr) : M unit :=
  update_c (<[(cls, KStr name) := a]>).

(** [c.Cls.name.append(x)]. *)
Definition append (cls name : string) (x : value) : M unit :=
  a ← entry cls name;
  a' ← try (extended a [x]);
  store cls name a'.

(** [c.Cls.name.extend(xs)]: the method is looked up before [xs] is
    iterated. *)
Definition extend (cls name : string) (xs : value) : M unit :=
  a ← entry cls name;
  _ ← try (extended a []);
  l ← try (iter xs);
  a' ← try (extended a l);
  store cls name a'.

(** [c.Cls.name[k] = v], the entry being a dict. *)
Definition setitem (cls name : string) (k : string) (v : value) : M unit :=
  a ← read (fun s => getattr cls name (c s));
  match a with
  | Some (Val (VDict d)) => store cls name (Val (VDict (dict_set (KStr k) v d)))
  | _ => raise TypeError
  end.

(** [c[app].update(cfg)]. [c[app]] is a section for a section key, a lazy
    value for another name, and a [KeyError] for a name that starts with an
    underscore; either way a dict [cfg] sets (or records) its items under
    [app]. A [cfg] that is not a dict: [None] and numbers are not iterable,
    sequences are outside the model. *)
Definition section_of (app : key) : res string :=
  match app with
  | KStr a => if starts_with_underscore a then inl (KeyError "") else inr a
  | KInt z => if (z =? 0)%Z then inl AttributeError else inl TypeError
  end.

Definition update_section (app : key) (cfg : value) : M unit :=
  a ← try (section_of app);
  match cfg with
  | VDict d =>
    update_c (fun c0 => fold_left (fun acc kv => <[(a, fst kv) := Val (snd kv)]> acc) d c0)
  | VNone | VBool _ | VInt _ => raise TypeError
  | _ => raise Unmodelled
  end.

End Run.

(* ===================================================================== *)
(** ** What the script is given *)
(* ===================================================================== *)

Module World.
Import Py Traitlets.

(** What an executed fragment can change: the configuration object, the
    environment, and the names of the script's namespace. *)
Definition interpreter : Type := config * gmap string string * gmap string value.

(** The surroundings of one evaluation, fixed while it runs: helpers of the
    chart's [z2jh] module that are not among the sources, library functions,
    the mounted secrets and the file system. Each is taken as it comes; a
    [res] is for a call that may raise. *)
Record platform := Platform {
  (** [z2jh.get_name(name)], the name of a chart resource. *)
  get_name : string -> res string;
  (** [z2jh.get_name_env(name, suffix)], what the resource's environment
      variable holds. *)
  get_name_env : string -> string -> res string;
  (** The mounted secret, by dotted key; [None] when there is none. *)
  secret : string -> option string;
  (** [jupyterhub.utils.url_path_join] of two strings. *)
  url_path_join : string -> string -> string;
  (** [bytes.fromhex]. *)
  bytes_fromhex : value -> res value;
  (** [int] of a string. *)
  int_of_str : string -> res Z;
  (** [os.path.isdir]. *)
  isdir : string -> bool;
  (** [glob.glob(pattern)]: the paths that match, in the order the file
      system happens to list them. *)
  glob : string -> list string;
  (** [open(path).read()]. *)
  read_file : string -> res string;
  (** [exec(source)] in the script's namespace: what the fragment leaves
      behind and the exception it raises, if any (what it did before it
      raised stays done). *)
  exec : string -> interpreter -> interpreter * option exn;
}.

End World.

(* ===================================================================== *)
(** ** The chart's helper module *)
(* ===================================================================== *)

Module Z2jh.
Import Py Traitlets Run World.

(** Modelled from the spec: [z2jh.get_config] is imported by the script and
    is not among the sources. The configuration tree is "an ordered mapping
    from dotted path segments to scalars, lists, or nested mappings",
    "dotted-path addressable" and read-only while the script runs: the path
    is followed segment by segment through nested mappings. *)
Fixpoint resolve (path : list string) (v : value) : option value :=
  match path with
  | [] => Some v
  | level :: rest =>
    match v with
    | VDict d =>
      match dict_get (KStr level) d with
      | Some v' => resolve rest v'
      | None => None
      end
    | _ => None
    end
  end.

(** Modelled from the spec: the value at a dotted key, [None] for "absent"
    (no such path), [Some VNone] for a key that is there and null. *)
Definition lookup_key (cfg : value) (key : string) : option value :=
  resolve (split "."%char key) cfg.

(** Modelled from the spec: [get_config(key, default)], the value at the key
    and the default where the key is absent; a key that is present and null
    gives null (the script tells "explicit null" from "unspecified" by a
    sentinel default). *)
Definition get_config (cfg : value) (key : string) (default : value) : value :=
  match lookup_key cfg key with
  | Some v => v
  | None => default
  end.

(** Modelled from the spec: [set_config_if_not_none(cparent, name, key)];
    "if the source key is present and non-null in the configuration tree,
    assign the value to the named attribute on the named settings category;
    absent or null keys are left". *)
Definition set_config_if_not_none (cfg : value) (cls name key : string) : M unit :=
  match get_config cfg key VNone with
  | VNone => mret tt
  | data => assign cls name data
  end.

(** Modelled from the spec: [get_secret_value(key)], "a secrets-fetch
    function returning decoded secret values by dotted key"; a missing
    secret is an error (its text is not specified; the key is kept). *)
Definition get_secret_value (P : platform) (key : string) : M string :=
  match secret P key with
  | Some v => mret v
  | None => raise (Exception key)
  end.

(** Modelled from the spec: [get_secret_value(key, None)], the secret, or
    [None] when there is none. *)
Definition get_secret_value_or_None (P : platform) (key : string) : option string :=
  secret P key.

End Z2jh.

(* ===================================================================== *)
(** ** jupyterhub_config.py, top to bottom *)
(* ===================================================================== *)

Module Script.
Import Py Traitlets Run World.

(** A dict literal with string keys. *)
Definition dict_of (items : list (string * value)) : value :=
  VDict (List.map (fun kv => (KStr (fst kv), snd kv)) items).

Definition strs (l : list string) : value := VList (List.map VStr l).

Definition is_lower (a : ascii) : bool :=
  Nat.leb 97 (nat_of_ascii a) && Nat.leb (nat_of_ascii a) 122.

(** [ch.upper()] for a character of [a-z]. *)
Definition upper (a : ascii) : ascii :=
  if is_lower a then ascii_of_nat (nat_of_ascii a - 32) else a.

(** [re.sub(r"_([a-z])", lambda m: m.group(1).upper(), s)]: scanning from the
    left, an underscore followed by a lower-case letter is replaced by the
    letter in upper case and the scan resumes behind the letter; any other
    character is copied. *)
Fixpoint camelCaseify (s : string) : string :=
  match s with
  | EmptyString => EmptyString
  | String a rest =>
    match rest with
    | String b rest' =>
      if Ascii.eqb a "_"%char && is_lower b
      then String (upper b) (camelCaseify rest')
      else String a (camelCaseify rest)
    | EmptyString => String a EmptyString
    end
  end.

Section script.

Variable P : platform.
Variable cfg : value.

Definition get_config := Z2jh.get_config cfg.
Definition set_config_if_not_none := Z2jh.set_config_if_not_none cfg.
Definition get_secret_value := Z2jh.get_secret_value P.
Definition get_secret_value_or_None := Z2jh.get_secret_value_or_None P.

(** The loop the script writes for each table of traits:
    [for trait, cfg_key in table: if cfg_key is None: cfg_key =
    camelCaseify(trait); set_config_if_not_none(c.Cls, trait, prefix +
    cfg_key)]. *)
Definition source_key (row : string * option string) : string :=
  match snd row with
  | None => camelCaseify (fst row)
  | Some cfg_key => cfg_key
  end.

Definition set_traits (cls prefix : string) (table : list (string * option string)) : M unit :=
  for_each table (fun row =>
    set_config_if_not_none cls (fst row) (prefix +:+ source_key row)).

(** The same loop where the script leaves the derivation out: a row whose
    key is [None] makes [prefix + cfg_key] a [TypeError]. *)
Definition set_traits_as_given (cls prefix : string)
    (table : list (string * option string)) : M unit :=
  for_each table (fun row =>
    match snd row with
    | None => raise TypeError
    | Some k => set_config_if_not_none cls (fst row) (prefix +:+ k)
    end).

(** Lines 1-23, the imports: the script is evaluated in a namespace of its
    own, where every name is bound as the script and Python bind it. *)
Definition imports : M unit := fun s =>
  Ok tt (State (c s) (environ s) (log s) ∅).

(** Lines 41-59. *)
Definition hub_defaults : M unit :=
  assign "JupyterHub" "spawner_class" (VStr "kubespawner.KubeSpawner");;
  name ← try (get_name P "proxy-api");
  port ← try (get_name_env P "proxy-api" "_SERVICE_PORT");
  assign "ConfigurableHTTPProxy" "api_url" (VStr ("http://" +:+ name +:+ ":" +:+ port));;
  assign "ConfigurableHTTPProxy" "should_start" (VBool false);;
  assign "JupyterHub" "cleanup_servers" (VBool false);;
  assign "JupyterHub" "last_activity_interval" (VInt 60);;
  assign "JupyterHub" "tornado_settings" (dict_of [("slow_spawn_timeout", VInt 0)]).

(** Lines 62-77: the hub's database. *)
Definition hub_db : M unit :=
  let db_type := get_config "hub.db.type" VNone in
  (if eq_str db_type "sqlite-pvc"
   then assign "JupyterHub" "db_url" (VStr "sqlite:///jupyterhub.sqlite")
   else if eq_str db_type "sqlite-memory"
   then assign "JupyterHub" "db_url" (VStr "sqlite://")
   else set_config_if_not_none "JupyterHub" "db_url" "hub.db.url");;
  match get_secret_value_or_None "hub.db.password" with
  | None => mret tt
  | Some db_password =>
    if eq_str db_type "mysql" then putenv "MYSQL_PWD" db_password
    else if eq_str db_type "postgres" then putenv "PGPASSWORD" db_password
    else print ("Warning: hub.db.password is ignored for hub.db.type=" +:+ str db_type)
  end.

(** Lines 80-95. *)
Definition jupyterhub_traits : list (string * option string) :=
  [ ("concurrent_spawn_limit", None);
    ("active_server_limit", None);
    ("base_url", None);
    ("allow_named_servers", None);
    ("named_server_limit_per_user", None);
    ("authenticate_prometheus", None);
    ("redirect_to_server", None);
    ("shutdown_on_logout", None);
    ("template_paths", None);
    ("template_vars", None) ].

Definition hub_traits : M unit := set_traits "JupyterHub" "hub." jupyterhub_traits.

(** Lines 97-107. *)
Definition hub_urls : M unit :=
  assign "JupyterHub" "hub_bind_url" (VStr ("http://:" +:+ pretty 8081%Z));;
  name ← try (get_name P "hub");
  port ← try (get_name_env P "hub" "_SERVICE_PORT");
  assign "JupyterHub" "hub_connect_url" (VStr ("http://" +:+ name +:+ ":" +:+ port)).

(** Lines 109-128: the common labels, filled in place, and the namespace. *)
Definition common_labels : M unit :=
  assign "KubeSpawner" "common_labels" (VDict []);;
  setitem "KubeSpawner" "common_labels" "app"
    (get_config "nameOverride" (get_config "Chart.Name" (VStr "jupyterhub")));;
  setitem "KubeSpawner" "common_labels" "heritage" (VStr "jupyterhub");;
  let chart_name := get_config "Chart.Name" VNone in
  let chart_version := get_config "Chart.Version" VNone in
  when (truthy chart_name && truthy chart_version) (
    version ← match chart_version with
              | VStr v => mret (replace_char "+"%char "_" v)
              | _ => raise AttributeError
              end;
    setitem "KubeSpawner" "common_labels" "chart"
      (VStr (str chart_name +:+ "-" +:+ version)));;
  let release := get_config "Release.Name" VNone in
  when (truthy release) (setitem "KubeSpawner" "common_labels" "release" release);;
  namespace ← read (fun s => default "default" (environ s !! "POD_NAMESPACE"));
  assign "KubeSpawner" "namespace" (VStr namespace).

(** Lines 130-174. *)
Definition kubespawner_traits : list (string * option string) :=
  [ ("pod_name_template", None);
    ("start_timeout", None);
    ("image_pull_policy", Some "image.pullPolicy");
    ("events_enabled", Some "events");
    ("extra_labels", None);
    ("extra_annotations", None);
    ("uid", None);
    ("fs_gid", None);
    ("service_account", Some "serviceAccountName");
    ("storage_extra_labels", Some "storage.extraLabels");
    ("node_selector", None);
    ("node_affinity_required", Some "extraNodeAffinity.required");
    ("node_affinity_preferred", Some "extraNodeAffinity.preferred");
    ("pod_affinity_required", Some "extraPodAffinity.required");
    ("pod_affinity_preferred", Some "extraPodAffinity.preferred");
    ("pod_anti_affinity_required", Some "extraPodAntiAffinity.required");
    ("pod_anti_affinity_preferred", Some "extraPodAntiAffinity.preferred");
    ("lifecycle_hooks", None);
    ("init_containers", None);
    ("extra_containers", None);
    ("mem_limit", Some "memory.limit");
    ("mem_guarantee", Some "memory.guarantee");
    ("cpu_limit", Some "cpu.limit");
    ("cpu_guarantee", Some "cpu.guarantee");
    ("extra_resource_limits", Some "extraResource.limits");
    ("extra_resource_guarantees", Some "extraResource.guarantees");
    ("environment", Some "extraEnv");
    ("profile_list", None);
    ("extra_pod_config", None) ].

Definition spawner_traits : M unit :=
  set_config_if_not_none "Spawner" "consecutive_failure_limit" "hub.consecutiveFailureLimit";;
  set_traits "KubeSpawner" "singleuser." kubespawner_traits.

(** Lines 176-191: the image, and the one trait that is always assigned. *)
Definition singleuser_image : M unit :=
  let image := get_config "singleuser.image.name" VNone in
  when (truthy image) (
    let tag := get_config "singleuser.image.tag" VNone in
    let image := if truthy tag then VStr (str image +:+ ":" +:+ str tag) else image in
    assign "KubeSpawner" "image" image).

Definition allow_privilege_escalation : M unit :=
  assign "KubeSpawner" "allow_privilege_escalation"
    (get_config "singleuser.allowPrivilegeEscalation" VNone).

(** Lines 193-205. *)
Definition extend_if_set (acc : list value) (key : string) : res (list value) :=
  let v := get_config key VNone in
  if truthy v then xs ← iter v; mret (acc ++ xs) else mret acc.

Definition image_pull_secrets : M unit :=
  l0 ← (if truthy (get_config "imagePullSecret.automaticReferenceInjection" VNone)
           && truthy (get_config "imagePullSecret.create" VNone)
        then name ← try (get_name P "image-pull-secret"); mret [VStr name]
        else mret []);
  l1 ← try (extend_if_set l0 "imagePullSecrets");
  l2 ← try (extend_if_set l1 "singleuser.image.pullSecrets");
  when (truthy (VList l2)) (assign "KubeSpawner" "image_pull_secrets" (VList l2)).

(** Lines 207-211. *)
Definition scheduling : M unit :=
  when (truthy (get_config "scheduling.userScheduler.enabled" VNone)) (
    name ← try (get_name P "user-scheduler");
    assign "KubeSpawner" "scheduler_name" (VStr name));;
  when (truthy (get_config "scheduling.podPriority.enabled" VNone)) (
    name ← try (get_name P "priority");
    assign "KubeSpawner" "priority_class_name" (VStr name)).

(** Lines 213-239: node-purpose affinity. *)
Definition node_selector : value :=
  dict_of [("matchExpressions",
            VList [dict_of [("key", VStr "hub.jupyter.org/node-purpose");
                            ("operator", VStr "In");
                            ("values", strs ["user"])]])].

Definition preferred_term : value :=
  dict_of [("weight", VInt 100); ("preference", node_selector)].

Definition node_purpose_affinity : M unit :=
  let match_node_purpose :=
    get_config "scheduling.userPods.nodeAffinity.matchNodePurpose" VNone in
  when (truthy match_node_purpose) (
    if eq_str match_node_purpose "prefer"
    then append "KubeSpawner" "node_affinity_preferred" preferred_term
    else if eq_str match_node_purpose "require"
    then append "KubeSpawner" "node_affinity_required" node_selector
    else if eq_str match_node_purpose "ignore"
    then mret tt
    else raise (ValueError ("Unrecognized value for matchNodePurpose: "
                            +:+ str match_node_purpose))).

(** Lines 241-246. *)
Definition tolerations : M unit :=
  t ← try (add (get_config "scheduling.userPods.tolerations" (VList []))
               (get_config "singleuser.extraTolerations" (VList [])));
  when (truthy t) (assign "KubeSpawner" "tolerations" t).

(** Lines 248-292: the home volume. *)
Definition storage : M unit :=
  let storage_type := get_config "singleuser.storage.type" VNone in
  if eq_str storage_type "dynamic" then
    let pvc_name_template := get_config "singleuser.storage.dynamic.pvcNameTemplate" VNone in
    assign "KubeSpawner" "pvc_name_template" pvc_name_template;;
    let volume_name_template :=
      get_config "singleuser.storage.dynamic.volumeNameTemplate" VNone in
    assign "KubeSpawner" "storage_pvc_ensure" (VBool true);;
    set_config_if_not_none "KubeSpawner" "storage_class"
      "singleuser.storage.dynamic.storageClass";;
    set_config_if_not_none "KubeSpawner" "storage_access_modes"
      "singleuser.storage.dynamic.storageAccessModes";;
    set_config_if_not_none "KubeSpawner" "storage_capacity" "singleuser.storage.capacity";;
    assign "KubeSpawner" "volumes"
      (VList [dict_of [("name", volume_name_template);
                       ("persistentVolumeClaim",
                        dict_of [("claimName", pvc_name_template)])]]);;
    assign "KubeSpawner" "volume_mounts"
      (VList [dict_of [("mountPath", get_config "singleuser.storage.homeMountPath" VNone);
                       ("name", volume_name_template)]])
  else if eq_str storage_type "static" then
    let pvc_claim_name := get_config "singleuser.storage.static.pvcName" VNone in
    assign "KubeSpawner" "volumes"
      (VList [dict_of [("name", VStr "home");
                       ("persistentVolumeClaim",
                        dict_of [("claimName", pvc_claim_name)])]]);;
    assign "KubeSpawner" "volume_mounts"
      (VList [dict_of [("mountPath", get_config "singleuser.storage.homeMountPath" VNone);
                       ("name", VStr "home");
                       ("subPath", get_config "singleuser.storage.static.subPath" VNone)]])
  else mret tt.

(** Lines 294-328: [singleuser.extraFiles] as one volume and its mounts. *)
Definition extra_file_item (kv : key * value) : res value :=
  let file_key := key_value (fst kv) in
  has_mode ← contains "mode" (snd kv);
  if has_mode : bool
  then mode ← subscript (snd kv) "mode";
       mret (dict_of [("key", file_key); ("path", file_key); ("mode", mode)])
  else mret (dict_of [("key", file_key); ("path", file_key)]).

Definition extra_file_mount (kv : key * value) : res value :=
  mount_path ← subscript (snd kv) "mountPath";
  mret (dict_of [("mountPath", mount_path);
                 ("subPath", key_value (fst kv));
                 ("name", VStr "files")]).

Definition extra_files : M unit :=
  let extra_files := get_config "singleuser.extraFiles" (VDict []) in
  when (truthy extra_files) (
    files ← try (items extra_files);
    items ← try (map_res extra_file_item files);
    name ← try (get_name P "singleuser");
    let volume := dict_of [("name", VStr "files");
                           ("secret", dict_of [("secretName", VStr name);
                                               ("items", VList items)])] in
    append "KubeSpawner" "volumes" volume;;
    volume_mounts ← try (map_res extra_file_mount files);
    extend "KubeSpawner" "volume_mounts" (VList volume_mounts)).

(** Lines 330-340. *)
Definition extra_volumes : M unit :=
  extend "KubeSpawner" "volumes" (get_config "singleuser.storage.extraVolumes" (VList []));;
  extend "KubeSpawner" "volume_mounts"
    (get_config "singleuser.storage.extraVolumeMounts" (VList []));;
  set_config_if_not_none "KubeSpawner" "lifecycle_hooks" "singleuser.lifecycleHooks".

Definition hub_connect : M unit :=
  host ← getenv "HUB_SERVICE_HOST";
  assign "JupyterHub" "hub_connect_ip" (VStr host);;
  port ← getenv "HUB_SERVICE_PORT";
  n ← try (int_of_str P port);
  assign "JupyterHub" "hub_connect_port" (VInt n).

(** Lines 342-429: the authenticator, by [auth.type]. *)
Definition common_oauth_traits : list (string * option string) :=
  [ ("client_id", None);
    ("client_secret", None);
    ("oauth_callback_url", Some "callbackUrl") ].

Definition ldap_traits : list (string * string) :=
  [ ("server_port", "auth.ldap.server.port");
    ("use_ssl", "auth.ldap.server.ssl");
    ("allowed_groups", "auth.ldap.allowedGroups");
    ("bind_dn_template", "auth.ldap.dn.templates");
    ("lookup_dn", "auth.ldap.dn.lookup");
    ("lookup_dn_search_filter", "auth.ldap.dn.search.filter");
    ("lookup_dn_search_user", "auth.ldap.dn.search.user");
    ("lookup_dn_search_password", "auth.ldap.dn.search.password");
    ("lookup_dn_user_dn_attribute", "auth.ldap.dn.user.dnAttribute");
    ("escape_userdn", "auth.ldap.dn.user.escape");
    ("valid_username_regex", "auth.ldap.dn.user.validRegex");
    ("user_search_base", "auth.ldap.dn.user.searchBase");
    ("user_attribute", "auth.ldap.dn.user.attribute") ].

Definition auth_type : value := get_config "auth.type" VNone.

Definition authenticator : M unit :=
  if eq_str auth_type "google" then
    assign "JupyterHub" "authenticator_class" (VStr "oauthenticator.GoogleOAuthenticator");;
    set_traits "GoogleOAuthenticator" "auth.google."
      (common_oauth_traits ++ [("hosted_domain", None); ("login_service", None)])
  else if eq_str auth_type "github" then
    assign "JupyterHub" "authenticator_class"
      (VStr "oauthenticator.github.GitHubOAuthenticator");;
    set_traits "GitHubOAuthenticator" "auth.github."
      (common_oauth_traits ++ [("github_organization_whitelist", Some "orgWhitelist")])
  else if eq_str auth_type "cilogon" then
    assign "JupyterHub" "authenticator_class" (VStr "oauthenticator.CILogonOAuthenticator");;
    set_traits_as_given "CILogonOAuthenticator" "auth.cilogon." common_oauth_traits
  else if eq_str auth_type "gitlab" then
    assign "JupyterHub" "authenticator_class"
      (VStr "oauthenticator.gitlab.GitLabOAuthenticator");;
    set_traits_as_given "GitLabOAuthenticator" "auth.gitlab." common_oauth_traits
  else if eq_str auth_type "mediawiki" then
    assign "JupyterHub" "authenticator_class"
      (VStr "oauthenticator.mediawiki.MWOAuthenticator");;
    set_traits_as_given "MWOAuthenticator" "auth.mediawiki."
      (common_oauth_traits ++ [("index_url", None)])
  else if eq_str auth_type "globus" then
    assign "JupyterHub" "authenticator_class"
      (VStr "oauthenticator.globus.GlobusOAuthenticator");;
    set_traits_as_given "GlobusOAuthenticator" "auth.globus."
      (common_oauth_traits ++ [("identity_provider", None)])
  else if eq_str auth_type "hmac" then
    assign "JupyterHub" "authenticator_class" (VStr "hmacauthenticator.HMACAuthenticator");;
    secret_key ← try (bytes_fromhex P (get_config "auth.hmac.secretKey" VNone));
    assign "HMACAuthenticator" "secret_key" secret_key
  else if eq_str auth_type "dummy" then
    assign "JupyterHub" "authenticator_class" (VStr "dummyauthenticator.DummyAuthenticator");;
    set_config_if_not_none "DummyAuthenticator" "password" "auth.dummy.password"
  else if eq_str auth_type "tmp" then
    assign "JupyterHub" "authenticator_class" (VStr "tmpauthenticator.TmpAuthenticator")
  else if eq_str auth_type "lti" then
    assign "JupyterHub" "authenticator_class" (VStr "ltiauthenticator.LTIAuthenticator");;
    set_config_if_not_none "LTIAuthenticator" "consumers" "auth.lti.consumers"
  else if eq_str auth_type "ldap" then
    assign "JupyterHub" "authenticator_class" (VStr "ldapauthenticator.LDAPAuthenticator");;
    assign "LDAPAuthenticator" "server_address" (get_config "auth.ldap.server.address" VNone);;
    for_each ldap_traits (fun row =>
      set_config_if_not_none "LDAPAuthenticator" (fst row) (snd row))
  else if eq_str auth_type "custom" then
    let full_class_name := get_config "auth.custom.className" VNone in
    assign "JupyterHub" "authenticator_class" full_class_name;;
    auth_class_name ← match full_class_name with
                      | VStr n => mret (List.last (split "."%char n) "")
                      | _ => raise AttributeError
                      end;
    let auth_config := get_config "auth.custom.config" VNone in
    update_section (KStr auth_class_name)
      (if truthy auth_config then auth_config else VDict [])
  else raise (ValueError ("Unhandled auth type: " +:+ repr auth_type)).

(** Lines 431-441. *)
Definition auth_settings : M unit :=
  set_config_if_not_none "OAuthenticator" "scope" "auth.scopes";;
  set_config_if_not_none "Authenticator" "enable_auth_state" "auth.state.enabled";;
  set_config_if_not_none "JupyterHub" "admin_access" "auth.admin.access";;
  set_config_if_not_none "Authenticator" "admin_users" "auth.admin.users";;
  set_config_if_not_none "Authenticator" "whitelist" "auth.whitelist.users".

Definition services_init : M unit :=
  assign "JupyterHub" "services" (VList []);;
  assign "JupyterHub" "load_roles" (VList []).

(** Lines 443-496: the idle culler, one service and one role. *)
Definition option_if_set (cmd : list string) (key flag : string) : list string :=
  let v := get_config key VNone in
  if truthy v then cmd ++ [flag +:+ str v] else cmd.

(** The command and the role's scopes, built side by side as the script
    does: [--cull-users] and [admin:users] under the same test. *)
Definition cull_cmd_and_scopes (url : string) : list string * list string :=
  let scopes := ["list:users"; "read:users:activity"; "read:servers"; "delete:servers"] in
  let cull_cmd := ["python3"; "-m"; "jupyterhub_idle_culler"] in
  let cull_cmd := cull_cmd ++ ["--url=http://localhost:8081" +:+ url] in
  let cull_cmd := option_if_set cull_cmd "cull.timeout" "--timeout=" in
  let cull_cmd := option_if_set cull_cmd "cull.every" "--cull-every=" in
  let cull_cmd := option_if_set cull_cmd "cull.concurrency" "--concurrency=" in
  let both := if truthy (get_config "cull.users" VNone)
              then (cull_cmd ++ ["--cull-users"], scopes ++ ["admin:users"])
              else (cull_cmd, scopes) in
  let cull_cmd := fst both in
  let scopes := snd both in
  let cull_cmd := if negb (truthy (get_config "cull.adminUsers" VNone))
                  then cull_cmd ++ ["--cull-admin-users=false"] else cull_cmd in
  let cull_cmd := if truthy (get_config "cull.removeNamedServers" VNone)
                  then cull_cmd ++ ["--remove-named-servers"] else cull_cmd in
  let cull_cmd := option_if_set cull_cmd "cull.maxAge" "--max-age=" in
  (cull_cmd, scopes).

Definition cull_cmd (url : string) : list string := fst (cull_cmd_and_scopes url).

Definition cull_scopes (url : string) : list string := snd (cull_cmd_and_scopes url).

Definition jupyterhub_idle_culler_role (url : string) : value :=
  dict_of [("name", VStr "jupyterhub-idle-culler");
           ("scopes", strs (cull_scopes url));
           ("services", strs ["jupyterhub-idle-culler"])].

Definition idle_culler_service (url : string) : value :=
  dict_of [("name", VStr "jupyterhub-idle-culler"); ("command", strs (cull_cmd url))].

Definition idle_culler : M unit :=
  when (truthy (get_config "cull.enabled" (VBool false))) (
    base_url ← read (fun s => get "JupyterHub" "base_url" (VStr "/") (c s));
    url ← match base_url with
          | VStr b => mret (url_path_join P b "hub/api")
          | VObj _ _ => raise Unmodelled
          | _ => raise AttributeError
          end;
    append "JupyterHub" "services" (idle_culler_service url);;
    append "JupyterHub" "load_roles" (jupyterhub_idle_culler_role url)).

(** Lines 498-515: [hub.services] and [hub.loadRoles], dicts of dicts. *)
Definition hub_services : M unit :=
  services ← try (items (get_config "hub.services" (VDict [])));
  for_each services (fun kv =>
    service ← try (items (snd kv));
    let service := dict_setdefault (KStr "name") (key_value (fst kv)) service in
    let service := dict_pop (KStr "apiToken") service in
    api_token ← get_secret_value ("hub.services." +:+ str (key_value (fst kv)) +:+ ".apiToken");
    let service := dict_set (KStr "api_token") (VStr api_token) service in
    append "JupyterHub" "services" (VDict service)).

Definition hub_load_roles : M unit :=
  roles ← try (items (get_config "hub.loadRoles" (VDict [])));
  for_each roles (fun kv =>
    role ← try (items (snd kv));
    append "JupyterHub" "load_roles"
      (VDict (dict_setdefault (KStr "name") (key_value (fst kv)) role))).

(** Lines 517-524: the command. The sentinel default tells a key that is
    absent from one that is there, null included. *)
Definition singleuser_cmd : M unit :=
  match Z2jh.lookup_key cfg "singleuser.cmd" with
  | Some specified_cmd => assign "Spawner" "cmd" specified_cmd
  | None => mret tt
  end;;
  set_config_if_not_none "Spawner" "default_url" "singleuser.defaultUrl".

(** Lines 526-563. *)
Definition cloud_metadata : M unit :=
  let cloud_metadata := get_config "singleuser.cloudMetadata" VNone in
  block ← try (Py.get cloud_metadata "blockWithIptables" VNone);
  when (eq_True block) (
    let network_tools_image_name := get_config "singleuser.networkTools.image.name" VNone in
    let network_tools_image_tag := get_config "singleuser.networkTools.image.tag" VNone in
    let network_tools_resources := get_config "singleuser.networkTools.resources" VNone in
    ip ← try (subscript cloud_metadata "ip");
    let ip_block_container :=
      VObj "V1Container"
        [("name", VStr "block-cloud-metadata");
         ("image", VStr (str network_tools_image_name +:+ ":" +:+ str network_tools_image_tag));
         ("command", VList [VStr "iptables"; VStr "--append"; VStr "OUTPUT";
                            VStr "--protocol"; VStr "tcp"; VStr "--destination"; ip;
                            VStr "--destination-port"; VStr "80"; VStr "--jump"; VStr "DROP"]);
         ("security_context",
          VObj "V1SecurityContext"
            [("privileged", VBool true);
             ("run_as_user", VInt 0);
             ("capabilities", VObj "V1Capabilities" [("add", strs ["NET_ADMIN"])])]);
         ("resources", network_tools_resources)] in
    append "KubeSpawner" "init_containers" ip_block_container).

Definition debug : M unit :=
  when (truthy (get_config "debug.enabled" (VBool false))) (
    assign "JupyterHub" "log_level" (VStr "DEBUG");;
    assign "Spawner" "debug" (VBool true)).

(** Lines 565-585: the seeded secrets, then [hub.config] without them. *)
Definition seeded_secrets : M unit :=
  cookie_secret ← get_secret_value "hub.config.JupyterHub.cookie_secret";
  assign "JupyterHub" "cookie_secret" (VStr cookie_secret);;
  keys ← get_secret_value "hub.config.CryptKeeper.keys";
  assign "CryptKeeper" "keys" (strs (split ";"%char keys)).

Definition without_secrets (app : key) (cfg : value) : res value :=
  if decide (app = KStr "JupyterHub") then
    d ← popped "proxy_auth_token" cfg;
    d ← popped "cookie_secret" (VDict d);
    d ← popped "services" (VDict d);
    mret (VDict d)
  else if decide (app = KStr "ConfigurableHTTPProxy") then
    d ← popped "auth_token" cfg; mret (VDict d)
  else if decide (app = KStr "CryptKeeper") then
    d ← popped "keys" cfg; mret (VDict d)
  else mret cfg.

Definition hub_config : M unit :=
  apps ← try (items (get_config "hub.config" (VDict [])));
  for_each apps (fun kv =>
    cfg' ← try (without_secrets (fst kv) (snd kv));
    update_section (fst kv) cfg').

(** Lines 587-601: the extra configuration, files first. A fragment is
    executed in the script's own namespace: besides the configuration
    object and the environment it can bind any name anew, and from the first
    execution on the script uses its names as they are then. *)
Definition py_exec (filename : option string) (source : string) : M unit := fun s =>
  let '(c', environ', names', raised) := exec P source (c s, environ s, names s) in
  let s' := State c' environ' (log s ++ [Executed filename source]) names' in
  match raised with
  | None => Ok tt s'
  | Some e => Raise e s'
  end.

Definition config_dir : string := "/usr/local/etc/jupyterhub/jupyterhub_config.d".

(** The paths are listed and sorted once, before any file is executed; the
    body of the loop looks its names up anew for every file. *)
Definition load_config_d : M unit :=
  when (isdir P config_dir) (
    for_each (sorted_by String.leb (glob P (config_dir +:+ "/*.py"))) (fun file_path =>
      own "os";;
      let file_name := basename file_path in
      own "print";; own "config_dir";;
      print ("Loading " +:+ config_dir +:+ " config: " +:+ file_name);;
      own "open";;
      file_content ← try (read_file P file_path);
      own "exec";; own "compile";;
      py_exec (Some file_name) file_content)).

(** [list], the one value a fragment can bind to a name of the loader that
    the embedding follows. *)
Definition builtin_list : value := VObj "type" [("__name__", VStr "list")].

Definition is_builtin_list (f : value) : bool :=
  match f with
  | VObj cls [(field, VStr name)] =>
    String.eqb cls "type" && String.eqb field "__name__" && String.eqb name "list"
  | _ => false
  end.

(** [sorted(d.items())] with [sorted] as it is bound when the files have
    been executed: the builtin, unless a fragment has bound the name anew;
    [list] in its place gives the items in the dict's own order. *)
Definition call_sorted (bound : option value) (entries : dict) : res dict :=
  match bound with
  | None => sorted_items entries
  | Some f => if is_builtin_list f then inr entries else inl Unmodelled
  end.

Definition extra_config : M unit :=
  sorted ← read (fun s => names s !! "sorted");
  own "get_config";;
  entries ← try (items (get_config "hub.extraConfig" (VDict [])));
  entries ← try (call_sorted sorted entries);
  for_each entries (fun kv =>
    own "print";;
    print ("Loading extra config: " +:+ str (key_value (fst kv)));;
    own "exec";;
    match snd kv with
    | VStr config_py => py_exec None config_py
    | VObj _ _ => raise Unmodelled
    | _ => raise TypeError
    end).

(** Lines 609-612: the globals of the hook, read through [get_config]. *)
Definition hook_globals : M unit := own "get_config".

(** Lines 670-673: the hooks, for the directory authenticator only. *)
Definition ldap_hooks : M unit :=
  own "auth_type";;
  when (eq_str auth_type "ldap") (
    own "c";;
    assign "Authenticator" "post_auth_hook"
      (VObj "function" [("__qualname__", VStr "LDAPAuthenticator.build_profile")]);;
    own "c";;
    assign "Spawner" "pre_spawn_hook"
      (VObj "function" [("__qualname__", VStr "spawner_config")])).

(** The script in three parts: what runs before the authenticator is
    chosen, the choice, and what runs after. *)
Definition before_authenticator : M unit :=
  imports;; hub_defaults;; hub_db;; hub_traits;; hub_urls;; common_labels;; spawner_traits;;
  singleuser_image;; allow_privilege_escalation;; image_pull_secrets;; scheduling;;
  node_purpose_affinity;; tolerations;; storage;; extra_files;; extra_volumes;;
  hub_connect.

Definition after_authenticator : M unit :=
  auth_settings;; services_init;; idle_culler;; hub_services;; hub_load_roles;;
  singleuser_cmd;; cloud_metadata;; debug;; seeded_secrets;; hub_config;;
  load_config_d;; extra_config;; hook_globals;; ldap_hooks.

Definition jupyterhub_config : M unit :=
  before_authenticator;; authenticator;; after_authenticator.

End script.
End Script.

(* ===================================================================== *)
(** ** The pre-spawn hook *)
(* ===================================================================== *)

Module Hook.
Import Py.

(** The user of a spawner: name, admin flag, and the authentication state
    the hub keeps for the session ([get_auth_state] reads it,
    [save_auth_state] replaces it). *)
Record user := User {
  name : string;
  admin : bool;
  auth_state : value;
}.

(** The fields of the spawner the hook touches. *)
Record spawner_state := Spawner {
  spawner_user : user;
  uid : value;
  gid : value;
  fs_gid : value;
  supplemental_gids : value;
  environment : gmap string value;
}.

(** The authenticator's part: the directory lookup of a user's DN
    ([_user_dn_lookup] over [_build_connection]) and [build_profile], on the
    authentication dict; both may raise. *)
Record directory_authenticator := DirectoryAuthenticator {
  user_dn_lookup : string -> res value;
  build_profile : value -> res value;
}.

Definition save_auth_state (v : value) (sp : spawner_state) : spawner_state :=
  Spawner (User (name (spawner_user sp)) (admin (spawner_user sp)) v)
          (uid sp) (gid sp) (fs_gid sp) (supplemental_gids sp) (environment sp).

Definition set_uid (v : value) (sp : spawner_state) : spawner_state :=
  Spawner (spawner_user sp) v (gid sp) (fs_gid sp) (supplemental_gids sp) (environment sp).

Definition set_gid (v : value) (sp : spawner_state) : spawner_state :=
  Spawner (spawner_user sp) (uid sp) v (fs_gid sp) (supplemental_gids sp) (environment sp).

Definition set_fs_gid (v : value) (sp : spawner_state) : spawner_state :=
  Spawner (spawner_user sp) (uid sp) (gid sp) v (supplemental_gids sp) (environment sp).

Definition set_supplemental_gids (v : value) (sp : spawner_state) : spawner_state :=
  Spawner (spawner_user sp) (uid sp) (gid sp) (fs_gid sp) v (environment sp).

(** [spawner.environment[k] = v]. *)
Definition setenv (k : string) (v : value) (sp : spawner_state) : spawner_state :=
  Spawner (spawner_user sp) (uid sp) (gid sp) (fs_gid sp) (supplemental_gids sp)
          (<[k := v]> (environment sp)).

(** [auth_state['profile'][field]]. *)
Definition profile_field (auth_state : value) (field : string) : res value :=
  profile ← subscript auth_state "profile";
  subscript profile field.

(** [auth_state is None or 'profile' not in auth_state]. *)
Definition lacks_profile (auth_state : value) : res bool :=
  match auth_state with
  | VNone => mret true
  | _ => has ← contains "profile" auth_state; mret (negb has)
  end.

(** [':'.join([v, str(k)])] for an item [k, v] of the group map: [join]
    takes strings only. *)
Definition group_entry (kv : key * value) : res string :=
  match snd kv with
  | VStr v => mret (join ":" [v; str (key_value (fst kv))])
  | _ => inl TypeError
  end.

Section hook.

Variable A : directory_authenticator.
(** [spawner_git_server = get_config('hub.spawner.git_server')], read when
    the script is evaluated. *)
Variable spawner_git_server : value.

Definition spawner_config (spawner : spawner_state) : res spawner_state :=
  let auth_state0 := auth_state (spawner_user spawner) in
  missing ← lacks_profile auth_state0;
  spawner ← (if missing : bool then
               dn ← user_dn_lookup A (name (spawner_user spawner));
               built ← build_profile A
                 (VDict [(KStr "name", VStr (name (spawner_user spawner)));
                         (KStr "auth_state",
                          VDict [(KStr "profile", VDict [(KStr "dn", dn)])])]);
               state ← Py.get built "auth_state" VNone;
               mret (save_auth_state state spawner)
             else mret spawner);
  let auth_state := auth_state (spawner_user spawner) in
  let spawner := set_uid (VInt 0) spawner in
  let spawner := set_gid (VInt 0) spawner in
  g ← profile_field auth_state "gid";
  let spawner := set_fs_gid g spawner in
  membership ← profile_field auth_state "group_membership";
  let spawner := set_supplemental_gids membership spawner in
  let spawner := setenv "NB_USER" (VStr (name (spawner_user spawner))) spawner in
  u ← profile_field auth_state "uid";
  let spawner := setenv "NB_UID" (VStr (str u)) spawner in
  g ← profile_field auth_state "gid";
  let spawner := setenv "NB_GID" (VStr (str g)) spawner in
  sudo ← (if admin (spawner_user spawner) then mret true
          else profile ← subscript auth_state "profile";
               advanced ← Py.get profile "advanced" (VBool false);
               mret (truthy advanced));
  let spawner := if sudo : bool then setenv "GRANT_SUDO" (VStr "1") spawner else spawner in
  let spawner := setenv "GIT_SSH_HOST" spawner_git_server spawner in
  let spawner := setenv "NOTEBOOK_DIR"
                   (VStr ("/home/" +:+ name (spawner_user spawner) +:+ "/jupyter")) spawner in
  group_map ← profile_field auth_state "group_map";
  groups ← items group_map;
  built ← map_res group_entry groups;
  let spawner := setenv "GROUP_BUILD" (VStr (join " " built)) spawner in
  membership ← profile_field auth_state "group_membership";
  members ← iter membership;
  let spawner := setenv "GROUP_MEMBER" (VStr (join " " (List.map str members))) spawner in
  mret spawner.

End hook.
End Hook.

(* ===================================================================== *)
(** ** Words, for stating what the key derivation does *)
(* ===================================================================== *)

Module Words.
Import Py Script.

(** A word has no underscore. *)
Definition no_underscore (w : string) : bool :=
  forallb (fun a => negb (Ascii.eqb a "_"%char)) (list_ascii_of_string w).

(** A word that starts with a letter of [a-z]. *)
Definition lower_word (w : string) : bool :=
  no_underscore w &&
  match w with
  | String a _ => is_lower a
  | EmptyString => false
  end.

(** The word with its first letter in upper case. *)
Definition capitalize (w : string) : string :=
  match w with
  | String a rest => String (upper a) rest
  | EmptyString => EmptyString
  end.

(** [w0_w1_..._wn] as camel case: the first word as it is, the others
    capitalized, nothing in between. *)
Definition camel (w : string) (ws : list string) : string :=
  w +:+ String.concat "" (List.map capitalize ws).

(** The words behind the first, each with its separator in front. *)
Definition separated (sep : string) (ws : list string) : string :=
  fold_right (fun x acc => sep +:+ x +:+ acc) "" ws.

End Words.


(* ===================================================================== *)
(** ** Vocabulary of the statements *)
(* ===================================================================== *)

Module Stated.
Import Py Traitlets Run World Script.

(** The values of [auth.type] the script has a branch for. *)
Definition auth_types : list string :=
  [ "google"; "github"; "cilogon"; "gitlab"; "mediawiki"; "globus";
    "hmac"; "dummy"; "tmp"; "lti"; "ldap"; "custom" ].

(** The class of the authenticator for each of the OAuth types, whose
    section the loop of the type addresses. *)
Definition oauth_class (t : string) : string :=
  if String.eqb t "google" then "GoogleOAuthenticator"
  else if String.eqb t "github" then "GitHubOAuthenticator"
  else if String.eqb t "cilogon" then "CILogonOAuthenticator"
  else if String.eqb t "gitlab" then "GitLabOAuthenticator"
  else if String.eqb t "mediawiki" then "MWOAuthenticator"
  else if String.eqb t "globus" then "GlobusOAuthenticator"
  else "".

(** The entries of [hub.config] that hold seeded secrets, by section and
    key. *)
Definition seeded : list (string * key) :=
  [ ("JupyterHub", KStr "proxy_auth_token");
    ("JupyterHub", KStr "cookie_secret");
    ("JupyterHub", KStr "services");
    ("ConfigurableHTTPProxy", KStr "auth_token");
    ("CryptKeeper", KStr "keys") ].

(** A [hub.config] as YAML gives it: sections by distinct names that [c]
    takes as they are, each a dict with distinct keys. *)
Definition section_dict (entry : key * value) : Prop :=
  exists (app : string) (d : dict),
    entry = (KStr app, VDict d) /\ starts_with_underscore app = false /\ NoDup (d.*1).

Definition well_formed_hub_config (apps : dict) : Prop :=
  NoDup (apps.*1) /\ Forall section_dict apps.

(** What a trait holds after its row has been handled, in a configuration
    object where it held [old]. *)
Definition handled (cfg : value) (old : option attr) (key : string) : option attr :=
  match Z2jh.get_config cfg key VNone with
  | VNone => old
  | data => Some (Val data)
  end.

(** The configuration object after [c[app].update(d)]. *)
Definition updated (app : string) (d : dict) (c0 : config) : config :=
  fold_left (fun acc kv => <[(app, fst kv) := Val (snd kv)]> acc) d c0.

(** What loading one file of the directory writes and executes: the
    progress line, then the file's content if it can be read. *)
Definition file_events (P : platform) (file_path : string) : list event :=
  Printed ("Loading " +:+ config_dir +:+ " config: " +:+ basename file_path) ::
  match read_file P file_path with
  | inr file_content => [Executed (Some (basename file_path)) file_content]
  | inl _ => []
  end.

(** The same for an entry of [hub.extraConfig]: the progress line, then the
    fragment if it is a string. *)
Definition fragment_events (entry : key * value) : list event :=
  Printed ("Loading extra config: " +:+ str (key_value (fst entry))) ::
  match snd entry with
  | VStr config_py => [Executed None config_py]
  | _ => []
  end.

(** The files of the directory and the entries of [hub.extraConfig] in the
    order they are taken. *)
Definition files_in_order (P : platform) : list string :=
  if isdir P config_dir
  then sorted_by String.leb (glob P (config_dir +:+ "/*.py"))
  else [].

Definition fragments_in_order (cfg : value) : dict :=
  match items (Z2jh.get_config cfg "hub.extraConfig" (VDict [])) with
  | inr entries =>
    match sorted_items entries with
    | inr sorted => sorted
    | inl _ => []
    end
  | inl _ => []
  end.

(** All of it when nothing raises: every file, then every fragment. *)
Definition expected_events (P : platform) (cfg : value) : list event :=
  flat_map (file_events P) (files_in_order P) ++
  flat_map fragment_events (fragments_in_order cfg).

(** The names the loader of the extra configuration uses, once or for
    every file and fragment. *)
Definition loader_names : list string :=
  [ "os"; "print"; "config_dir"; "open"; "exec"; "compile"; "sorted"; "get_config" ].

(** A namespace in which the loader's names mean what the script made them
    mean, and surroundings in which no executed fragment changes that. *)
Definition own_names (bound : gmap string value) : Prop :=
  forall name, name ∈ loader_names -> bound !! name = None.

Definition leaves_loader_names (P : platform) : Prop :=
  forall source st, own_names (snd st) -> own_names (snd (fst (exec P source st))).

(** One thing to load: the progress line that identifies it, the file name
    it is compiled under, and its source, or the exception in its place. *)
Record load := Load {
  progress_line : string;
  file_name : option string;
  source : res string;
}.

Definition file_load (P : platform) (file_path : string) : load :=
  Load ("Loading " +:+ config_dir +:+ " config: " +:+ basename file_path)
       (Some (basename file_path))
       (read_file P file_path).

Definition fragment_load (entry : key * value) : load :=
  Load ("Loading extra config: " +:+ str (key_value (fst entry)))
       None
       (match snd entry with
        | VStr config_py => inr config_py
        | VObj _ _ => inl Unmodelled
        | _ => inl TypeError
        end).

(** What loading one of them writes and executes: the progress line, then
    the source if there is one. *)
Definition load_events (l : load) : list event :=
  Printed (progress_line l) ::
  match source l with
  | inr text => [Executed (file_name l) text]
  | inl _ => []
  end.

(** Loading in a given order, as the claim has it: for each in turn the
    progress line is printed, then the source is executed, on what the ones
    before have left; the first that cannot be had or that raises ends
    it. *)
Fixpoint load_in_order (P : platform) (loads : list load) (s : state) : outcome unit :=
  match loads with
  | [] => Ok tt s
  | l :: rest =>
    let printed := log s ++ [Printed (progress_line l)] in
    match source l with
    | inl e => Raise e (State (c s) (environ s) printed (names s))
    | inr text =>
      let '(c', environ', names', raised) := exec P text (c s, environ s, names s) in
      let s' := State c' environ' (printed ++ [Executed (file_name l) text]) names' in
      match raised with
      | Some e => Raise e s'
      | None => load_in_order P rest s'
      end
    end
  end.

(** The entries of [hub.extraConfig] sorted by key, or the exception that
    comes of a value that has no items or of keys that do not compare. *)
Definition sorted_fragments (cfg : value) : res dict :=
  entries ← items (Z2jh.get_config cfg "hub.extraConfig" (VDict []));
  sorted_items entries.

(** The extra configuration in the order of the claim: the files of the
    directory sorted by path, then the fragments sorted by key. *)
Definition extra_configuration_in_order (P : platform) (cfg : value) : M unit :=
  load_in_order P (List.map (file_load P) (files_in_order P));;
  fragments ← try (sorted_fragments cfg);
  load_in_order P (List.map fragment_load fragments).

(** The order of keys that [sorted] uses. *)
Definition key_le (a b : key) : Prop :=
  match a, b with
  | KStr x, KStr y => String.leb x y = true
  | KInt x, KInt y => (x <= y)%Z
  | _, _ => False
  end.

(** A statement that writes and executes [events], in this order, and
    nothing else: all of them when it ends normally, a first part of them
    when it raises. *)
Definition emits (m : M unit) (events : list event) : Prop :=
  forall s, exists done,
    log (final (m s)) = log s ++ done /\
    done `prefix_of` events /\
    (ok (m s) = true -> done = events).

End Stated.

(* ===================================================================== *)
(** ** Concrete inputs *)
(* ===================================================================== *)

Module Examples.
Import Py Traitlets Run World Script Hook.

(** [url_path_join] of two pieces as the hub's library has it: the pieces
    without their outer slashes, the empty ones dropped, joined by one slash;
    a leading slash if the first piece has one, a trailing slash if the last
    has one. *)
Fixpoint lstrip_slashes (s : string) : string :=
  match s with
  | String a rest => if Ascii.eqb a "/"%char then lstrip_slashes rest else s
  | EmptyString => EmptyString
  end.

Definition strip_slashes (s : string) : string :=
  String.rev (lstrip_slashes (String.rev (lstrip_slashes s))).

Definition starts_with_slash (s : string) : bool :=
  match s with
  | String a _ => Ascii.eqb a "/"%char
  | EmptyString => false
  end.

Definition url_path_join_2 (first last : string) : string :=
  let stripped := [strip_slashes first; strip_slashes last] in
  let result := join "/" (List.filter (fun piece => negb (String.eqb piece "")) stripped) in
  let result := if starts_with_slash first then "/" +:+ result else result in
  let result := if starts_with_slash (String.rev last) then result +:+ "/" else result in
  if String.eqb result "//" then "/" else result.

(** Surroundings in which every helper answers: resources are named after
    themselves, the hub listens on 8081, no secret but the two seeded ones
    is mounted, there is no directory of extra files, what is executed
    changes nothing and does not raise. *)
Definition plain_platform : platform :=
  Platform (fun name => inr name)
           (fun name suffix => inr "8081")
           (fun key => if String.eqb key "hub.config.JupyterHub.cookie_secret" then Some "c00c1e"
                       else if String.eqb key "hub.config.CryptKeeper.keys" then Some "k1;k2"
                       else None)
           url_path_join_2
           (fun v => inr v)
           (fun _ => inr 8081%Z)
           (fun _ => false)
           (fun _ => [])
           (fun _ => inl (Exception "no such file"))
           (fun _ st => (st, None)).

(** A fresh process: nothing configured, the hub's service variables set. *)
Definition fresh : state :=
  State ∅ (<["HUB_SERVICE_HOST" := "10.0.0.1"]> (<["HUB_SERVICE_PORT" := "8081"]> ∅)) [] ∅.

(** The state once [services] and [load_roles] have been made empty
    lists, as the script does before the culler. *)
Definition services_ready : state := final (services_init fresh).

(** [auth: {type: bogus}]. *)
Definition bogus_auth : value :=
  dict_of [("auth", dict_of [("type", VStr "bogus")])].

(** The same with an unknown node purpose as well. *)
Definition bogus_auth_and_purpose : value :=
  dict_of [("auth", dict_of [("type", VStr "bogus")]);
           ("scheduling",
            dict_of [("userPods",
                      dict_of [("nodeAffinity",
                                dict_of [("matchNodePurpose", VStr "sometimes")])])])].

(** [hub: {baseUrl: /jupyter, allowNamedServers: null}]. *)
Definition hub_values : value :=
  dict_of [("hub", dict_of [("baseUrl", VStr "/jupyter"); ("allowNamedServers", VNone)])].

(** [cull: {enabled: true, users: true, timeout: 3600}]. *)
Definition cull_values : value :=
  dict_of [("cull", dict_of [("enabled", VBool true); ("users", VBool true);
                             ("timeout", VInt 3600)])].

(** [scheduling.userPods.nodeAffinity.matchNodePurpose: prefer]. *)
Definition prefer_values : value :=
  dict_of [("scheduling",
            dict_of [("userPods",
                      dict_of [("nodeAffinity",
                                dict_of [("matchNodePurpose", VStr "prefer")])])])].

(** A [hub.config] that tries to set a seeded secret next to an ordinary
    trait. *)
Definition hub_config_values : value :=
  dict_of [("hub",
            dict_of [("config",
                      dict_of [("JupyterHub",
                                dict_of [("cookie_secret", VStr "from-values");
                                         ("admin_access", VBool true)])])])].

(** The cached profile of the worked example. *)
Definition example_profile : value :=
  dict_of [("uid", VInt 1000);
           ("gid", VInt 2000);
           ("group_membership", VList [VInt 2000; VInt 3000]);
           ("group_map", VDict [(KInt 2000, VStr "g1"); (KInt 3000, VStr "g2")]);
           ("advanced", VBool false)].

Definition example_user : user :=
  User "alice" false (dict_of [("profile", example_profile)]).

(** A spawner that starts with an empty environment, and one whose
    environment already grants sudo (as [singleuser.extraEnv] can make
    it). *)
Definition example_spawner : spawner_state :=
  Spawner example_user VNone VNone VNone VNone ∅.

Definition sudo_spawner : spawner_state :=
  Spawner example_user VNone VNone VNone VNone (<["GRANT_SUDO" := VStr "yes"]> ∅).

(** The same profile with the group map written the other way round. *)
Definition swapped_profile : value :=
  dict_of [("uid", VInt 1000);
           ("gid", VInt 2000);
           ("group_membership", VList [VInt 2000; VInt 3000]);
           ("group_map", VDict [(KInt 3000, VStr "g2"); (KInt 2000, VStr "g1")]);
           ("advanced", VBool false)].

Definition swapped_spawner : spawner_state :=
  Spawner (User "alice" false (dict_of [("profile", swapped_profile)]))
          VNone VNone VNone VNone ∅.

(** An authenticator whose directory is never asked in the examples. *)
Definition no_directory : directory_authenticator :=
  DirectoryAuthenticator (fun _ => inl (Exception "directory unreachable"))
                (fun _ => inl (Exception "directory unreachable")).

(** A user without cached profile, and a directory that knows the user:
    uid 7, gid 8, one group, advanced access. *)
Definition bob_profile : value :=
  dict_of [("uid", VInt 7);
           ("gid", VInt 8);
           ("group_membership", VList [VInt 9]);
           ("group_map", VDict [(KInt 9, VStr "staff")]);
           ("advanced", VBool true)].

Definition bob_directory : directory_authenticator :=
  DirectoryAuthenticator
    (fun name => inr (VStr ("uid=" +:+ name +:+ ",ou=people,dc=example,dc=org")))
    (fun authentication =>
       name ← subscript authentication "name";
       mret (dict_of [("name", name);
                      ("auth_state", dict_of [("profile", bob_profile)])])).

Definition bob_spawner : spawner_state :=
  Spawner (User "bob" false VNone) VNone VNone VNone VNone ∅.

(** [auth: {type: cilogon, cilogon: {callbackUrl: ...}}]: an explicit key
    of a documented type. *)
Definition cilogon_values : value :=
  dict_of [("auth",
            dict_of [("type", VStr "cilogon");
                     ("cilogon",
                      dict_of [("callbackUrl",
                                VStr "https://hub.example.org/hub/oauth_callback")])])].

(** [hub.extraConfig] with two fragments, the later key written first. *)
Definition extra_config_values : value :=
  dict_of [("hub",
            dict_of [("extraConfig",
                      dict_of [("02-second", VStr "c.JupyterHub.second = True");
                               ("01-first", VStr "c.JupyterHub.first = True")])])].

(** An [exec] that records each source in the configuration object, with
    the number of sources recorded before it, and changes nothing else. *)
Definition recording_exec (source : string) (st : interpreter) : interpreter * option exn :=
  let '(c0, environ0, names0) := st in
  ((<[("Executed", KStr source) := Val (VInt (Z.of_nat (size c0)))]> c0, environ0, names0),
   None).

(** Surroundings with a directory of two files, which the file system
    lists with the later name first. *)
Definition two_files_platform : platform :=
  Platform (fun name => inr name)
           (fun name suffix => inr "8081")
           (fun key => None)
           url_path_join_2
           (fun v => inr v)
           (fun _ => inr 8081%Z)
           (fun _ => true)
           (fun _ => [config_dir +:+ "/20-late.py"; config_dir +:+ "/10-early.py"])
           (fun path => inr ("# " +:+ basename path))
           recording_exec.

(** Surroundings with one file in the directory, which binds [sorted] to
    [list]. *)
Definition rebinding_exec (source : string) (st : interpreter) : interpreter * option exn :=
  let '(c0, environ0, names0) := st in
  if String.eqb source "sorted = list"
  then ((c0, environ0, <["sorted" := builtin_list]> names0), None)
  else (st, None).

Definition rebinding_platform : platform :=
  Platform (fun name => inr name)
           (fun name suffix => inr "8081")
           (fun key => None)
           url_path_join_2
           (fun v => inr v)
           (fun _ => inr 8081%Z)
           (fun _ => true)
           (fun _ => [config_dir +:+ "/00-order.py"])
           (fun path => inr "sorted = list")
           rebinding_exec.

End Examples.

(* ===================================================================== *)
(** ** Vocabulary of the further properties *)
(* ===================================================================== *)

Module Properties.
Import Py Traitlets Run World Script Hook.

(** A statement that leaves every environment variable outside [keys] as it
    was, however it ends. *)
Definition keeps_environ {A} (keys : list string) (m : M A) : Prop :=
  forall s k, k ∉ keys -> environ (final (m s)) !! k = environ s !! k.

(** The values of [auth.type] whose branch can run to its end. *)
Definition working_auth_types : list string :=
  [ "google"; "github"; "hmac"; "dummy"; "tmp"; "lti"; "ldap"; "custom" ].

(** An underscore followed by a letter of [a-z] somewhere in the string:
    what [camelCaseify] looks for. *)
Fixpoint has_separator (s : string) : bool :=
  match s with
  | EmptyString => false
  | String a rest =>
    match rest with
    | String b _ => (Ascii.eqb a "_"%char && is_lower b) || has_separator rest
    | EmptyString => false
    end
  end.

(** A value of the tree where a mapping is expected and none need be given:
    the mapping, or nothing (the key absent or null) for the empty one. *)
Definition given_dict (v : value) (d : dict) : Prop :=
  v = VDict d \/ (v = VNone /\ d = []).

(** The same for a list. *)
Definition given_list (v : value) (l : list value) : Prop :=
  v = VList l \/ (v = VNone /\ l = []).

(** An entry of [singleuser.extraFiles] that says where to mount the
    file. *)
Definition mounted_file (file : key * value) : Prop :=
  exists details mount_path,
    snd file = VDict details /\ dict_get (KStr "mountPath") details = Some mount_path.

(** The item of the files volume that stands for a file, and the mount
    that puts the file in its place. *)
Definition file_item (file : key * value) (item : value) : Prop :=
  subscript item "key" = inr (key_value (fst file)) /\
  subscript item "path" = inr (key_value (fst file)) /\
  subscript item "mode" = subscript (snd file) "mode".

Definition file_mount (file : key * value) (mount : value) : Prop :=
  subscript mount "name" = inr (VStr "files") /\
  subscript mount "subPath" = inr (key_value (fst file)) /\
  subscript mount "mountPath" = subscript (snd file) "mountPath".

(** The secret that holds the API token of a service of [hub.services]. *)
Definition token_key (entry : key * value) : string :=
  "hub.services." +:+ str (key_value (fst entry)) +:+ ".apiToken".

(** The descriptor registered for an entry of [hub.services]: the entry's
    own dict with the token taken from the mounted secret, never from the
    values, and with the entry's key for a name where the dict gives
    none. *)
Definition registered_service (P : platform) (entry : key * value) (service : value) : Prop :=
  exists given registered token,
    snd entry = VDict given /\ service = VDict registered /\
    secret P (token_key entry) = Some token /\
    dict_get (KStr "api_token") registered = Some (VStr token) /\
    dict_get (KStr "apiToken") registered = None /\
    dict_get (KStr "name") registered
    = Some (default (key_value (fst entry)) (dict_get (KStr "name") given)) /\
    forall k, k ∉ [KStr "name"; KStr "api_token"; KStr "apiToken"] ->
              dict_get k registered = dict_get k given.

(** The fields of a profile the hook reads without a default, in the order
    it first reads them, and the first of them that a profile lacks. *)
Definition profile_fields : list string := ["gid"; "group_membership"; "uid"; "group_map"].

Definition first_missing (profile : dict) : option string :=
  List.find (fun field => negb (bool_decide (is_Some (dict_get (KStr field) profile))))
            profile_fields.

(** The variables the hook puts into the spawner's environment. *)
Definition hook_variables : list string :=
  [ "NB_USER"; "NB_UID"; "NB_GID"; "GRANT_SUDO"; "GIT_SSH_HOST"; "NOTEBOOK_DIR";
    "GROUP_BUILD"; "GROUP_MEMBER" ].

End Properties.


(* ===================================================================== *)
(** ** Further concrete inputs *)
(* ===================================================================== *)

Module Inputs.
Import Py Traitlets Run World Script Hook Examples.

(** Values with which the script runs to its end: the dummy authenticator,
    cloud metadata left reachable. *)
Definition dummy_values : value :=
  dict_of [("auth", dict_of [("type", VStr "dummy")]);
           ("singleuser", dict_of [("cloudMetadata", dict_of [])])].

(** The same with the directory authenticator, its server given, and one
    fragment of extra configuration. *)
Definition ldap_values : value :=
  dict_of [("auth",
            dict_of [("type", VStr "ldap");
                     ("ldap",
                      dict_of [("server",
                                dict_of [("address", VStr "ldap.example.org");
                                         ("port", VInt 636)])])]);
           ("singleuser", dict_of [("cloudMetadata", dict_of [])]);
           ("hub",
            dict_of [("extraConfig",
                      dict_of [("hooks", VStr "c.Spawner.pre_spawn_hook = None")])])].

(** An [exec] that assigns null to the pre-spawn hook, whatever the source,
    and changes nothing else. *)
Definition hook_clearing_exec (source : string) (st : interpreter) : interpreter * option exn :=
  let '(c0, environ0, names0) := st in
  ((setattr "Spawner" "pre_spawn_hook" VNone c0, environ0, names0), None).

Definition hook_clearing_platform : platform :=
  Platform (fun name => inr name)
           (fun name suffix => inr "8081")
           (fun key => if String.eqb key "hub.config.JupyterHub.cookie_secret" then Some "c00c1e"
                       else if String.eqb key "hub.config.CryptKeeper.keys" then Some "k1;k2"
                       else None)
           url_path_join_2
           (fun v => inr v)
           (fun _ => inr 8081%Z)
           (fun _ => false)
           (fun _ => [])
           (fun _ => inl (Exception "no such file"))
           hook_clearing_exec.

(** [auth: {type: custom, custom: {className: ..., config: {...}}}]. *)
Definition custom_values : value :=
  dict_of [("auth",
            dict_of [("type", VStr "custom");
                     ("custom",
                      dict_of [("className", VStr "myauth.pam.MyAuthenticator");
                               ("config", dict_of [("greeting", VStr "hello");
                                                   ("retries", VInt 3)])])])].

(** The chart's name and a version with build metadata, and a release. *)
Definition chart_values : value :=
  dict_of [("Chart", dict_of [("Name", VStr "jupyterhub"); ("Version", VStr "1.2.0+n012.h34")]);
           ("Release", dict_of [("Name", VStr "jhub")])].

(** Two extra files, the first with a mode. *)
Definition motd_file : value := dict_of [("mountPath", VStr "/etc/motd"); ("mode", VInt 420)].
Definition notice_file : value := dict_of [("mountPath", VStr "/etc/notice")].

Definition files_values : value :=
  dict_of [("singleuser",
            dict_of [("extraFiles", dict_of [("motd", motd_file); ("notice", notice_file)])])].

(** One service, which the values give a token of their own, and
    surroundings where the token of the service is mounted. *)
Definition grader_service : value :=
  dict_of [("apiToken", VStr "from-values"); ("url", VStr "http://grader:8000")].

Definition services_values : value :=
  dict_of [("hub", dict_of [("services", dict_of [("grader", grader_service)])])].

Definition services_platform : platform :=
  Platform (fun name => inr name)
           (fun name suffix => inr "8081")
           (fun key => if String.eqb key "hub.services.grader.apiToken" then Some "t0ken"
                       else None)
           url_path_join_2
           (fun v => inr v)
           (fun _ => inr 8081%Z)
           (fun _ => false)
           (fun _ => [])
           (fun _ => inl (Exception "no such file"))
           (fun _ st => (st, None)).

(** A cached profile without [uid]. *)
Definition incomplete_profile : dict :=
  [(KStr "gid", VInt 2000); (KStr "group_membership", VList [VInt 2000])].

Definition incomplete_spawner : spawner_state :=
  Spawner (User "carol" false (dict_of [("profile", VDict incomplete_profile)]))
          VNone VNone VNone VNone ∅.

End Inputs.
(* ===================================================================== *)
(** * Theorems *)
(* ===================================================================== *)

(** ** The key derivation (C6) *)

Section camel_case.
Import Py Script Words.

Lemma app_String (a : ascii) (s t : string) : String a s +:+ t = String a (s +:+ t).
Proof. reflexivity. Qed.

Lemma app_empty_l (t : string) : "" +:+ t = t.
Proof. reflexivity. Qed.

Lemma app_empty_r (s : string) : s +:+ "" = s.
Proof. induction s as [|a s IH]; [reflexivity | now rewrite app_String, IH]. Qed.

(** A character that is not an underscore is copied, whatever follows. *)
Lemma camelCaseify_copy (a : ascii) (s : string) :
  Ascii.eqb a "_"%char = false ->
  camelCaseify (String a s) = String a (camelCaseify s).
Proof.
  intros Ha. destruct s as [|b s]; simpl; [reflexivity | now rewrite Ha].
Qed.

(** A word without underscores goes through unchanged. *)
Lemma camelCaseify_word (w rest : string) :
  no_underscore w = true ->
  camelCaseify (w +:+ rest) = w +:+ camelCaseify rest.
Proof.
  induction w as [|a w IH]; intros Hw; [reflexivity |].
  unfold no_underscore in Hw. simpl in Hw.
  apply andb_true_iff in Hw as [Ha Hw]. apply negb_true_iff in Ha.
  rewrite !app_String, camelCaseify_copy by exact Ha.
  f_equal. apply IH. exact Hw.
Qed.

(** An underscore before a lower-case word is dropped and the word
    capitalized. *)
Lemma camelCaseify_separator (w rest : string) :
  lower_word w = true ->
  camelCaseify ("_" +:+ w +:+ rest) = capitalize w +:+ camelCaseify rest.
Proof.
  unfold lower_word. intros Hw. apply andb_true_iff in Hw as [Hw Hl].
  destruct w as [|a w]; [discriminate |].
  unfold no_underscore in Hw. simpl in Hw.
  apply andb_true_iff in Hw as [_ Hw].
  rewrite !app_String, app_empty_l. simpl. rewrite Hl, app_String. f_equal.
  apply camelCaseify_word. exact Hw.
Qed.

Lemma join_cons (sep w : string) (ws : list string) :
  join sep (w :: ws) = w +:+ separated sep ws.
Proof.
  revert w. induction ws as [|x ws IH]; intros w.
  - simpl. now rewrite app_empty_r.
  - change (join sep (w :: x :: ws)) with (w +:+ sep +:+ join sep (x :: ws)).
    now rewrite IH.
Qed.

Lemma camelCaseify_separated (ws : list string) :
  Forall (fun x => lower_word x = true) ws ->
  camelCaseify (separated "_" ws) = String.concat "" (List.map capitalize ws).
Proof.
  induction ws as [|x ws IH]; intros Hws; [reflexivity |].
  inversion Hws as [|? ? Hx Hrest]; subst.
  simpl separated. rewrite camelCaseify_separator, (IH Hrest) by exact Hx.
  destruct ws as [|y ws]; [apply app_empty_r | reflexivity].
Qed.

(** C6. [camelCaseify] turns underscore-separated words into camel case
    with the first word left as it is: [mem_limit] gives [memLimit],
    [node_affinity_required] gives [nodeAffinityRequired], and in general a
    first word without underscores followed by words that start with a
    letter of [a-z] gives the first word followed by the others
    capitalized. *)
Theorem camelCaseify_snake_case :
  camelCaseify "mem_limit" = "memLimit" /\
  camelCaseify "node_affinity_required" = "nodeAffinityRequired" /\
  forall (w : string) (ws : list string),
    no_underscore w = true ->
    Forall (fun x => lower_word x = true) ws ->
    camelCaseify (join "_" (w :: ws)) = camel w ws.
Proof.
  split; [reflexivity |]. split; [reflexivity |].
  intros w ws Hw Hws. unfold camel.
  rewrite join_cons, camelCaseify_word by exact Hw.
  f_equal. apply camelCaseify_separated. exact Hws.
Qed.

End camel_case.

(* ===================================================================== *)
(** ** How statements run *)
(* ===================================================================== *)

Section running.
Import Py Traitlets Run.

Lemma run_bind {A B} (m : M A) (f : A -> M B) (s : state) :
  (m ≫= f) s = match m s with
               | Ok a s' => f a s'
               | Raise e s' => Raise e s'
               end.
Proof. reflexivity. Qed.

Lemma run_ret {A} (a : A) (s : state) : (mret a : M A) s = Ok a s.
Proof. reflexivity. Qed.

Lemma run_assign (cls name : string) (v : value) (s : state) :
  assign cls name v s = Ok tt (with_c (setattr cls name v) s).
Proof. reflexivity. Qed.

Lemma run_for_each_cons {A} (x : A) (xs : list A) (body : A -> M unit) (s : state) :
  for_each (x :: xs) body s = match body x s with
                              | Ok _ s' => for_each xs body s'
                              | Raise e s' => Raise e s'
                              end.
Proof. reflexivity. Qed.

Lemma getattr_setattr (cls name : string) (v : value) (c0 : config) :
  getattr cls name (setattr cls name v c0) = Some (Val v).
Proof. unfold getattr, setattr. apply lookup_insert_eq. Qed.

Lemma lookup_setattr_ne (cls name : string) (v : value) (c0 : config) (k : string * key) :
  k ≠ (cls, KStr name) -> setattr cls name v c0 !! k = c0 !! k.
Proof. intros Hne. unfold setattr. apply lookup_insert_ne. congruence. Qed.

End running.

(* ===================================================================== *)
(** ** Traits set from the configuration tree (C1, C9) *)
(* ===================================================================== *)

Section traits.
Import Py Traitlets Run Script Stated.

Variable cfg : value.

(** One call: the state afterwards, by the value at the key. *)
Lemma set_config_if_not_none_run (cls name key : string) (s : state) :
  Z2jh.set_config_if_not_none cfg cls name key s
  = Ok tt (match Z2jh.get_config cfg key VNone with
           | VNone => s
           | data => with_c (setattr cls name data) s
           end).
Proof.
  unfold Z2jh.set_config_if_not_none.
  destruct (Z2jh.get_config cfg key VNone); reflexivity.
Qed.

Lemma set_config_if_not_none_getattr (cls name key : string) (s : state) :
  exists s', Z2jh.set_config_if_not_none cfg cls name key s = Ok tt s' /\
    environ s' = environ s /\ log s' = log s /\
    getattr cls name (c s') = handled cfg (getattr cls name (c s)) key /\
    forall k, k ≠ (cls, KStr name) -> c s' !! k = c s !! k.
Proof.
  rewrite set_config_if_not_none_run. unfold handled.
  eexists; split; [reflexivity |].
  destruct (Z2jh.get_config cfg key VNone); simpl;
    repeat split; auto using getattr_setattr, lookup_setattr_ne.
Qed.

Lemma set_config_if_not_none_names (cls name key : string) (s : state) :
  names (final (Z2jh.set_config_if_not_none cfg cls name key s)) = names s.
Proof.
  rewrite set_config_if_not_none_run.
  destruct (Z2jh.get_config cfg key VNone); reflexivity.
Qed.

Lemma set_traits_names (cls prefix : string) (table : list (string * option string))
    (s : state) :
  names (final (set_traits cfg cls prefix table s)) = names s.
Proof.
  revert s. induction table as [|row table IH]; intros s; [reflexivity |].
  unfold set_traits. rewrite run_for_each_cons.
  pose proof (set_config_if_not_none_names cls (fst row) (prefix +:+ source_key row) s)
    as Hrow.
  unfold set_config_if_not_none. rewrite set_config_if_not_none_run in *.
  cbv beta iota. simpl final in Hrow. rewrite <- Hrow. apply IH.
Qed.

(** A table whose traits are all different: every row decides its own
    trait, and the traits outside the table are not touched. *)
Lemma set_traits_rows (cls prefix : string) (table : list (string * option string)) :
  NoDup (table.*1) ->
  forall s, exists s',
    set_traits cfg cls prefix table s = Ok tt s' /\
    environ s' = environ s /\ log s' = log s /\
    (forall row, row ∈ table ->
       getattr cls (fst row) (c s')
       = handled cfg (getattr cls (fst row) (c s)) (prefix +:+ source_key row)) /\
    (forall k, (forall row, row ∈ table -> k ≠ (cls, KStr (fst row))) ->
       c s' !! k = c s !! k).
Proof.
  induction table as [|row table IH]; intros Hnd s.
  - exists s. repeat split; auto. intros row Hin. inversion Hin.
  - rewrite fmap_cons in Hnd. apply NoDup_cons in Hnd as [Hnotin Hnd'].
    unfold set_traits. rewrite run_for_each_cons.
    destruct (set_config_if_not_none_getattr cls (fst row) (prefix +:+ source_key row) s)
      as (s1 & Hrun & Henv1 & Hlog1 & Hget1 & Hframe1).
    unfold set_config_if_not_none. rewrite Hrun.
    destruct (IH Hnd' s1) as (s' & Hrun' & Henv' & Hlog' & Hrows & Hframe').
    assert (Hother : forall r, r ∈ table -> (cls, KStr (fst r)) ≠ (cls, KStr (fst row))).
    { intros r Hin Heq. apply Hnotin. apply list_elem_of_fmap.
      exists r. split; [congruence | exact Hin]. }
    exists s'. split; [exact Hrun' |].
    split; [congruence |]. split; [congruence |]. split.
    + intros r Hin. apply elem_of_cons in Hin as [-> | Hin].
      * unfold getattr at 1. rewrite Hframe'; [exact Hget1 |].
        intros r' Hin' Heq. now apply (Hother r' Hin').
      * rewrite (Hrows r Hin). unfold getattr.
        rewrite Hframe1; [reflexivity | now apply Hother].
    + intros k Hk. rewrite Hframe'.
      * apply Hframe1. apply Hk. left.
      * intros r Hin. apply Hk. now right.
Qed.

(** Two states with the same configuration object, environment, log and
    names. *)
Lemma state_eq (s1 s2 : state) :
  (forall k, c s1 !! k = c s2 !! k) -> environ s1 = environ s2 -> log s1 = log s2 ->
  names s1 = names s2 ->
  s1 = s2.
Proof.
  destruct s1, s2; simpl. intros Hc -> -> ->. f_equal. apply map_eq. exact Hc.
Qed.

(** The loop that derives a missing key, as the script has it at lines
    81-95, 138-174 and 354-369: [set_config_if_not_none] over a table of
    (trait, key) rows with distinct traits, taken in any order: the loop ends normally; a trait
    whose key is present and not null holds the configured value; a trait
    whose key is absent or null holds what it held before; whatever is not a
    trait of the table is as before; and the state reached is the one the
    table's own order reaches. *)
Theorem set_traits_contract (cls prefix : string)
    (table table' : list (string * option string)) (s : state) :
  NoDup (table.*1) -> table' ≡ₚ table ->
  exists s',
    set_traits cfg cls prefix table' s = Ok tt s' /\
    set_traits cfg cls prefix table s = Ok tt s' /\
    (forall row v, row ∈ table ->
       Z2jh.lookup_key cfg (prefix +:+ source_key row) = Some v -> v ≠ VNone ->
       getattr cls (fst row) (c s') = Some (Val v)) /\
    (forall row, row ∈ table ->
       Z2jh.lookup_key cfg (prefix +:+ source_key row) = None \/
       Z2jh.lookup_key cfg (prefix +:+ source_key row) = Some VNone ->
       getattr cls (fst row) (c s') = getattr cls (fst row) (c s)) /\
    (forall k, (forall row, row ∈ table -> k ≠ (cls, KStr (fst row))) ->
       c s' !! k = c s !! k) /\
    environ s' = environ s /\ log s' = log s.
Proof.
  intros Hnd Hperm.
  assert (Hnd' : NoDup (table'.*1)) by now rewrite Hperm.
  destruct (set_traits_rows cls prefix table Hnd s)
    as (s1 & Hrun1 & Henv1 & Hlog1 & Hrows1 & Hframe1).
  destruct (set_traits_rows cls prefix table' Hnd' s)
    as (s2 & Hrun2 & Henv2 & Hlog2 & Hrows2 & Hframe2).
  assert (Heq : s2 = s1).
  { apply state_eq; [| congruence | congruence |].
    2: { pose proof (set_traits_names cls prefix table s) as Hn1.
         pose proof (set_traits_names cls prefix table' s) as Hn2.
         rewrite Hrun1 in Hn1. rewrite Hrun2 in Hn2. simpl in Hn1, Hn2. congruence. }
    intros [cls' k].
    destruct (decide ((cls', k) ∈ (fun row => (cls, KStr (fst row))) <$> table))
      as [Hyes | Hno].
    - apply list_elem_of_fmap in Hyes as (row & Hk & Hin). rewrite Hk.
      change (getattr cls (fst row) (c s2) = getattr cls (fst row) (c s1)).
      rewrite Hrows1 by exact Hin. apply Hrows2. now rewrite Hperm.
    - rewrite Hframe1, Hframe2; [reflexivity | |].
      + intros row Hin Hk. apply Hno, list_elem_of_fmap. exists row.
        split; [exact Hk | now rewrite <- Hperm].
      + intros row Hin Hk. apply Hno, list_elem_of_fmap. now exists row. }
  subst s2. exists s1.
  split; [exact Hrun2 |]. split; [exact Hrun1 |]. split; [| split; [| auto]].
  - intros row v Hin Hv Hnn. rewrite (Hrows1 row Hin). unfold handled, Z2jh.get_config.
    rewrite Hv. now destruct v.
  - intros row Hin Hv. rewrite (Hrows1 row Hin). unfold handled, Z2jh.get_config.
    now destruct Hv as [-> | ->].
Qed.

End traits.

Section exceptions_to_the_helper.
Import Py Traitlets Run Script.

Variable cfg : value.

(** C9. Two traits do not go through [set_config_if_not_none].
    [KubeSpawner.allow_privilege_escalation] is always assigned, the
    configured value or null when the key is absent (or null).
    [Spawner.cmd] is assigned whenever [singleuser.cmd] is present, null
    included, and left as it was when the key is absent. *)
Theorem privilege_escalation_and_cmd (s : state) :
  (exists s1,
     allow_privilege_escalation cfg s = Ok tt s1 /\
     getattr "KubeSpawner" "allow_privilege_escalation" (c s1)
     = Some (Val (match Z2jh.lookup_key cfg "singleuser.allowPrivilegeEscalation" with
                  | Some v => v
                  | None => VNone
                  end))) /\
  (exists s2,
     singleuser_cmd cfg s = Ok tt s2 /\
     getattr "Spawner" "cmd" (c s2)
     = match Z2jh.lookup_key cfg "singleuser.cmd" with
       | Some specified_cmd => Some (Val specified_cmd)
       | None => getattr "Spawner" "cmd" (c s)
       end).
Proof.
  split.
  - unfold allow_privilege_escalation. rewrite run_assign.
    eexists. split; [reflexivity |]. apply getattr_setattr.
  - unfold singleuser_cmd. rewrite run_bind.
    destruct (Z2jh.lookup_key cfg "singleuser.cmd") as [cmd |].
    + rewrite run_assign.
      destruct (set_config_if_not_none_getattr cfg "Spawner" "default_url"
                  "singleuser.defaultUrl" (with_c (setattr "Spawner" "cmd" cmd) s))
        as (s2 & Hrun & _ & _ & _ & Hframe).
      exists s2. split; [exact Hrun |].
      unfold getattr. rewrite Hframe by discriminate. apply lookup_insert_eq.
    + rewrite run_ret.
      destruct (set_config_if_not_none_getattr cfg "Spawner" "default_url"
                  "singleuser.defaultUrl" s) as (s2 & Hrun & _ & _ & _ & Hframe).
      exists s2. split; [exact Hrun |].
      unfold getattr. now rewrite Hframe by discriminate.
Qed.

End exceptions_to_the_helper.

Section node_purpose.
Import Py Traitlets Run Script.

Variable cfg : value.

Local Abbreviation match_node_purpose :=
  (Z2jh.get_config cfg "scheduling.userPods.nodeAffinity.matchNodePurpose" VNone).

Lemma eq_str_ne (v : value) (t : string) : v ≠ VStr t -> eq_str v t = false.
Proof.
  intros Hne. destruct v; try reflexivity. simpl.
  apply String.eqb_neq. congruence.
Qed.

Lemma run_append (cls name : string) (x : value) (s : state) :
  holds_list (getattr cls name (c s)) ->
  exists s', append cls name x s = Ok tt s' /\
    items_of (getattr cls name (c s')) = items_of (getattr cls name (c s)) ++ [x] /\
    holds_list (getattr cls name (c s')) /\
    (forall k, k ≠ (cls, KStr name) -> c s' !! k = c s !! k) /\
    environ s' = environ s /\ log s' = log s.
Proof.
  unfold append, entry, holds_list, getattr. intros Hl.
  rewrite run_bind.
  destruct (c s !! (cls, KStr name)) as [[v | l] |] eqn:Hc.
  - destruct v; try contradiction.
    eexists. split; [reflexivity |]. simpl.
    rewrite lookup_insert_eq. repeat split; auto.
    intros k Hk. now apply lookup_insert_ne.
  - eexists. split; [reflexivity |]. simpl.
    rewrite lookup_insert_eq. repeat split; auto.
    intros k Hk. now apply lookup_insert_ne.
  - eexists. split; [reflexivity |]. simpl.
    rewrite lookup_insert_eq. repeat split; auto.
    intros k Hk. rewrite !lookup_insert_ne by congruence. reflexivity.
Qed.

(** C8. The node-purpose affinity, by the value of
    [scheduling.userPods.nodeAffinity.matchNodePurpose]: a falsy value (an
    absent key among them) and ["ignore"] change nothing; ["prefer"] adds
    one term of weight 100 to the preferred node affinity and ["require"]
    one selector to the required one, each leaving the other list alone;
    any other value raises [ValueError] with the value in its message. The
    trait that is added to is taken to hold a list (or nothing yet). *)
Theorem node_purpose_affinity_cases (s : state) :
  (truthy match_node_purpose = false -> node_purpose_affinity cfg s = Ok tt s) /\
  (match_node_purpose = VStr "ignore" -> node_purpose_affinity cfg s = Ok tt s) /\
  (match_node_purpose = VStr "prefer" ->
   holds_list (getattr "KubeSpawner" "node_affinity_preferred" (c s)) ->
   exists s', node_purpose_affinity cfg s = Ok tt s' /\
     items_of (getattr "KubeSpawner" "node_affinity_preferred" (c s'))
     = items_of (getattr "KubeSpawner" "node_affinity_preferred" (c s)) ++ [preferred_term] /\
     subscript preferred_term "weight" = inr (VInt 100) /\
     subscript preferred_term "preference" = inr node_selector /\
     getattr "KubeSpawner" "node_affinity_required" (c s')
     = getattr "KubeSpawner" "node_affinity_required" (c s)) /\
  (match_node_purpose = VStr "require" ->
   holds_list (getattr "KubeSpawner" "node_affinity_required" (c s)) ->
   exists s', node_purpose_affinity cfg s = Ok tt s' /\
     items_of (getattr "KubeSpawner" "node_affinity_required" (c s'))
     = items_of (getattr "KubeSpawner" "node_affinity_required" (c s)) ++ [node_selector] /\
     getattr "KubeSpawner" "node_affinity_preferred" (c s')
     = getattr "KubeSpawner" "node_affinity_preferred" (c s)) /\
  (truthy match_node_purpose = true ->
   match_node_purpose ≠ VStr "prefer" -> match_node_purpose ≠ VStr "require" ->
   match_node_purpose ≠ VStr "ignore" ->
   node_purpose_affinity cfg s
   = Raise (ValueError ("Unrecognized value for matchNodePurpose: " +:+ str match_node_purpose)) s).
Proof.
  unfold node_purpose_affinity, get_config.
  split; [| split; [| split; [| split]]].
  - intros ->. reflexivity.
  - intros ->. reflexivity.
  - intros -> Hpref. simpl.
    destruct (run_append "KubeSpawner" "node_affinity_preferred" preferred_term s Hpref)
      as (s' & Hrun & Hitems & _ & Hframe & _).
    exists s'. split; [exact Hrun |]. split; [exact Hitems |].
    split; [reflexivity |]. split; [reflexivity |].
    unfold getattr. now rewrite Hframe by discriminate.
  - intros -> Hreq. simpl.
    destruct (run_append "KubeSpawner" "node_affinity_required" node_selector s Hreq)
      as (s' & Hrun & Hitems & _ & Hframe & _).
    exists s'. split; [exact Hrun |]. split; [exact Hitems |].
    unfold getattr. now rewrite Hframe by discriminate.
  - intros Ht Hp Hr Hi. rewrite Ht. simpl.
    rewrite !eq_str_ne by assumption. reflexivity.
Qed.

End node_purpose.

Section culler.
Import Py Traitlets Run World Script.

Variable P : platform.
Variable cfg : value.

Local Abbreviation services s := (getattr "JupyterHub" "services" (c s)).
Local Abbreviation load_roles s := (getattr "JupyterHub" "load_roles" (c s)).

Lemma elem_of_option_if_set (x : string) (cmd : list string) (key flag : string) :
  x ∈ option_if_set cfg cmd key flag <->
  x ∈ cmd \/ (truthy (Z2jh.get_config cfg key VNone) = true /\
              x = flag +:+ str (Z2jh.get_config cfg key VNone)).
Proof.
  unfold option_if_set, get_config.
  destruct (truthy (Z2jh.get_config cfg key VNone)).
  - rewrite elem_of_app, list_elem_of_singleton. intuition.
  - intuition congruence.
Qed.

(** No option that carries a value can be taken for the bare flag: they
    part ways within their fixed prefixes. *)
Ltac differ_at n :=
  let H := fresh in
  intros H; apply (f_equal (String.get n)) in H; vm_compute in H; discriminate.

Lemma cull_users_is_no_valued_option (x : string) :
  "--cull-users" ≠ "--url=http://localhost:8081" +:+ x /\
  "--cull-users" ≠ "--timeout=" +:+ x /\
  "--cull-users" ≠ "--cull-every=" +:+ x /\
  "--cull-users" ≠ "--concurrency=" +:+ x /\
  "--cull-users" ≠ "--max-age=" +:+ x.
Proof.
  repeat split; [differ_at 2 | differ_at 2 | differ_at 7 | differ_at 3 | differ_at 2].
Qed.

Lemma cull_users_in_cmd (url : string) :
  "--cull-users" ∈ cull_cmd cfg url <->
  truthy (Z2jh.get_config cfg "cull.users" VNone) = true.
Proof.
  unfold cull_cmd, cull_cmd_and_scopes, get_config. simpl fst.
  rewrite elem_of_option_if_set.
  pose proof (cull_users_is_no_valued_option url) as (Hurl & _).
  assert (Hv : forall x, "--cull-users" ≠ "--timeout=" +:+ x /\
                         "--cull-users" ≠ "--cull-every=" +:+ x /\
                         "--cull-users" ≠ "--concurrency=" +:+ x /\
                         "--cull-users" ≠ "--max-age=" +:+ x)
    by (intros x; apply (cull_users_is_no_valued_option x)).
  destruct (truthy (Z2jh.get_config cfg "cull.users" VNone));
    destruct (truthy (Z2jh.get_config cfg "cull.adminUsers" VNone));
    destruct (truthy (Z2jh.get_config cfg "cull.removeNamedServers" VNone));
    simpl;
    repeat (rewrite ?elem_of_app, ?elem_of_option_if_set, ?elem_of_cons, ?elem_of_nil);
    split; try reflexivity; try (intros _; tauto);
    intros Hin; exfalso;
    repeat match goal with
           | H : _ \/ _ |- _ => destruct H
           | H : _ /\ _ |- _ => destruct H
           | H : False |- _ => destruct H
           | H : false = true |- _ => discriminate H
           | H : "--cull-users" = _ +:+ ?x |- _ => now apply (Hv x) in H || now apply Hurl in H
           | H : "--cull-users" = _ |- _ => discriminate H
           end.
Qed.

Lemma admin_users_in_scopes (url : string) :
  "admin:users" ∈ cull_scopes cfg url <->
  truthy (Z2jh.get_config cfg "cull.users" VNone) = true.
Proof.
  unfold cull_scopes, cull_cmd_and_scopes, get_config. simpl snd.
  destruct (truthy (Z2jh.get_config cfg "cull.users" VNone)); simpl.
  - split; [reflexivity |]. intros _. repeat constructor.
  - split; [| discriminate]. intros Hin.
    repeat (apply elem_of_cons in Hin as [Hin | Hin]; [discriminate |]).
    inversion Hin.
Qed.

Lemma append_Ok (cls name : string) (x : value) (s s' : state) :
  append cls name x s = Ok tt s' ->
  holds_list (getattr cls name (c s)) /\
  items_of (getattr cls name (c s')) = items_of (getattr cls name (c s)) ++ [x] /\
  (forall k, k ≠ (cls, KStr name) -> c s' !! k = c s !! k).
Proof.
  intros Hrun.
  assert (Hl : holds_list (getattr cls name (c s))).
  { revert Hrun. unfold append, entry, holds_list, getattr. rewrite run_bind.
    destruct (c s !! (cls, KStr name)) as [[v | l] |]; try exact (fun _ => I).
    destruct v; try exact (fun _ => I); discriminate. }
  destruct (run_append cls name x s Hl) as (s1 & Hrun1 & Hitems & _ & Hframe & _).
  rewrite Hrun1 in Hrun. injection Hrun as <-. auto.
Qed.

(** The script makes both traits empty lists before it comes to the
    culler, and leaves [base_url] as it is. *)
Lemma services_init_lists (s : state) :
  exists s1,
    services_init s = Ok tt s1 /\
    items_of (services s1) = [] /\ items_of (load_roles s1) = [] /\
    holds_list (services s1) /\ holds_list (load_roles s1) /\
    get "JupyterHub" "base_url" (VStr "/") (c s1) = get "JupyterHub" "base_url" (VStr "/") (c s).
Proof.
  eexists. split; [reflexivity |]. unfold get, getattr. simpl. unfold setattr.
  rewrite !lookup_insert_eq, (lookup_insert_ne _ ("JupyterHub", KStr "load_roles")) by discriminate.
  rewrite !lookup_insert_eq, !lookup_insert_ne by discriminate.
  repeat split; exact I.
Qed.

(** C5. With [cull.enabled] set: whenever the culler's part of the script
    ends normally, it has added one service to [JupyterHub.services] and
    one role to [JupyterHub.load_roles]; the service's command holds
    [--cull-users] exactly when [cull.users] is set, and the role's scopes
    hold [admin:users] exactly when the command holds [--cull-users]. It
    does end normally when [base_url] is a string (or not set) and the two
    traits hold lists, as the script leaves them. *)
Theorem idle_culler_service_and_role (s : state) :
  truthy (Z2jh.get_config cfg "cull.enabled" (VBool false)) = true ->
  (forall s', idle_culler P cfg s = Ok tt s' ->
     exists url,
       items_of (services s') = items_of (services s) ++ [idle_culler_service cfg url] /\
       items_of (load_roles s')
       = items_of (load_roles s) ++ [jupyterhub_idle_culler_role cfg url] /\
       subscript (idle_culler_service cfg url) "command" = inr (strs (cull_cmd cfg url)) /\
       subscript (jupyterhub_idle_culler_role cfg url) "scopes"
       = inr (strs (cull_scopes cfg url)) /\
       ("--cull-users" ∈ cull_cmd cfg url <->
        truthy (Z2jh.get_config cfg "cull.users" VNone) = true) /\
       ("admin:users" ∈ cull_scopes cfg url <-> "--cull-users" ∈ cull_cmd cfg url)) /\
  (forall base_url,
     get "JupyterHub" "base_url" (VStr "/") (c s) = VStr base_url ->
     holds_list (services s) -> holds_list (load_roles s) ->
     exists s', idle_culler P cfg s = Ok tt s').
Proof.
  intros Henabled. unfold idle_culler, get_config. rewrite Henabled. simpl when. split.
  - intros s'. rewrite run_bind. unfold read.
    destruct (get "JupyterHub" "base_url" (VStr "/") (c s)) as [| | |base_url| | |];
      try discriminate.
    rewrite run_bind, run_ret, run_bind.
    destruct (append "JupyterHub" "services"
                (idle_culler_service cfg (url_path_join P base_url "hub/api")) s)
      as [[] s1 | err s1] eqn:Hrun1; [| discriminate].
    intros Hrun2.
    apply append_Ok in Hrun1 as (_ & Hitems1 & Hframe1).
    apply append_Ok in Hrun2 as (_ & Hitems2 & Hframe2).
    exists (url_path_join P base_url "hub/api").
    split; [| split; [| split; [| split; [| split]]]].
    + unfold getattr. rewrite Hframe2 by discriminate. exact Hitems1.
    + rewrite Hitems2. unfold getattr. now rewrite Hframe1 by discriminate.
    + reflexivity.
    + reflexivity.
    + apply cull_users_in_cmd.
    + now rewrite admin_users_in_scopes, cull_users_in_cmd.
  - intros base_url Hbase Hsvc Hroles.
    rewrite run_bind. unfold read. rewrite Hbase. rewrite run_bind, run_ret, run_bind.
    destruct (run_append "JupyterHub" "services"
                (idle_culler_service cfg (url_path_join P base_url "hub/api")) s Hsvc)
      as (s1 & Hrun1 & _ & _ & Hframe1 & _).
    rewrite Hrun1.
    assert (Hroles1 : holds_list (load_roles s1)).
    { unfold getattr. now rewrite Hframe1 by discriminate. }
    destruct (run_append "JupyterHub" "load_roles"
                (jupyterhub_idle_culler_role cfg (url_path_join P base_url "hub/api")) s1 Hroles1)
      as (s2 & Hrun2 & _).
    now exists s2.
Qed.

End culler.

Section pre_spawn_hook.
Import Py Hook.

Variable A : directory_authenticator.
Variable spawner_git_server : value.

Lemma res_bind_inr {X Y} (m : res X) (f : X -> res Y) (y : Y) :
  m ≫= f = inr y -> exists x, m = inr x /\ f x = inr y.
Proof. destruct m as [e | x]; [discriminate | eauto]. Qed.

Lemma profile_field_inr (auth_state : value) (field : string) (v : value) :
  profile_field auth_state field = inr v ->
  exists profile, subscript auth_state "profile" = inr profile /\
                  subscript profile field = inr v.
Proof. apply res_bind_inr. Qed.

(** The state the hook works on once the profile is there: the identity
    fields and the environment follow from it alone. *)
Lemma spawner_config_inr (spawner spawner' : spawner_state) :
  spawner_config A spawner_git_server spawner = inr spawner' ->
  exists profile g membership u,
    subscript (auth_state (spawner_user spawner')) "profile" = inr profile /\
    subscript profile "gid" = inr g /\
    subscript profile "group_membership" = inr membership /\
    subscript profile "uid" = inr u /\
    uid spawner' = VInt 0 /\ gid spawner' = VInt 0 /\
    fs_gid spawner' = g /\ supplemental_gids spawner' = membership /\
    environment spawner' !! "NB_UID" = Some (VStr (str u)) /\
    environment spawner' !! "NB_GID" = Some (VStr (str g)).
Proof.
  unfold spawner_config. intros H.
  apply res_bind_inr in H as (missing & _ & H).
  apply res_bind_inr in H as (sp1 & _ & H). cbv zeta in H.
  apply res_bind_inr in H as (g & Hg & H). cbv zeta in H.
  apply res_bind_inr in H as (membership & Hm & H). cbv zeta in H.
  apply res_bind_inr in H as (u & Hu & H). cbv zeta in H.
  apply res_bind_inr in H as (g' & Hg' & H). cbv zeta in H.
  apply res_bind_inr in H as (sudo & _ & H). cbv zeta in H.
  apply res_bind_inr in H as (group_map & _ & H).
  apply res_bind_inr in H as (groups & _ & H).
  apply res_bind_inr in H as (built & _ & H). cbv zeta in H.
  apply res_bind_inr in H as (membership' & _ & H).
  apply res_bind_inr in H as (members & _ & H). cbv zeta in H.
  injection H as <-.
  simpl in Hg, Hm, Hu, Hg'. rewrite Hg in Hg'. injection Hg' as <-.
  apply profile_field_inr in Hg as (profile & Hp & Hg).
  apply profile_field_inr in Hm as (profile' & Hp' & Hm).
  apply profile_field_inr in Hu as (profile'' & Hp'' & Hu).
  rewrite Hp in Hp', Hp''. injection Hp' as <-. injection Hp'' as <-.
  exists profile, g, membership, u.
  split; [destruct sudo; exact Hp |].
  do 3 (split; [assumption |]).
  destruct sudo; simpl; repeat split; try reflexivity;
    repeat (rewrite lookup_insert_ne by discriminate); apply lookup_insert_eq.
Qed.

(** Where the hook takes the authentication state from: the user's own
    when it has a profile, and otherwise what the directory's answer is
    turned into, which is saved for the user. *)
Lemma spawner_config_auth_state (spawner spawner' : spawner_state) :
  spawner_config A spawner_git_server spawner = inr spawner' ->
  name (spawner_user spawner') = name (spawner_user spawner) /\
  admin (spawner_user spawner') = admin (spawner_user spawner) /\
  ((lacks_profile (auth_state (spawner_user spawner)) = inr false /\
    auth_state (spawner_user spawner') = auth_state (spawner_user spawner)) \/
   (lacks_profile (auth_state (spawner_user spawner)) = inr true /\
    exists dn built,
      user_dn_lookup A (name (spawner_user spawner)) = inr dn /\
      build_profile A
        (VDict [(KStr "name", VStr (name (spawner_user spawner)));
                (KStr "auth_state", VDict [(KStr "profile", VDict [(KStr "dn", dn)])])])
      = inr built /\
      Py.get built "auth_state" VNone = inr (auth_state (spawner_user spawner')))).
Proof.
  unfold spawner_config. intros H.
  apply res_bind_inr in H as (missing & Hmissing & H).
  apply res_bind_inr in H as (sp1 & Hsp1 & H). cbv zeta in H.
  assert (Hlater : name (spawner_user spawner') = name (spawner_user sp1) /\
                   admin (spawner_user spawner') = admin (spawner_user sp1) /\
                   auth_state (spawner_user spawner') = auth_state (spawner_user sp1)).
  { apply res_bind_inr in H as (g & _ & H). cbv zeta in H.
    apply res_bind_inr in H as (membership & _ & H). cbv zeta in H.
    apply res_bind_inr in H as (u & _ & H). cbv zeta in H.
    apply res_bind_inr in H as (g' & _ & H). cbv zeta in H.
    apply res_bind_inr in H as (sudo & _ & H). cbv zeta in H.
    apply res_bind_inr in H as (group_map & _ & H).
    apply res_bind_inr in H as (groups & _ & H).
    apply res_bind_inr in H as (built & _ & H). cbv zeta in H.
    apply res_bind_inr in H as (membership' & _ & H).
    apply res_bind_inr in H as (members & _ & H). cbv zeta in H.
    injection H as <-. destruct sudo; repeat split. }
  destruct Hlater as (Hname & Hadmin & Hstate). rewrite Hname, Hadmin, Hstate.
  destruct missing.
  - apply res_bind_inr in Hsp1 as (dn & Hdn & Hsp1).
    apply res_bind_inr in Hsp1 as (built & Hbuilt & Hsp1).
    apply res_bind_inr in Hsp1 as (state & Hget & Hsp1).
    injection Hsp1 as <-. simpl. split; [reflexivity |]. split; [reflexivity |].
    right. split; [exact Hmissing |]. now exists dn, built.
  - injection Hsp1 as <-. split; [reflexivity |]. split; [reflexivity |].
    left. now split.
Qed.

Lemma has_profile (auth_state profile : value) :
  subscript auth_state "profile" = inr profile -> lacks_profile auth_state = inr false.
Proof.
  destruct auth_state as [| | | | |d|]; try discriminate. simpl.
  destruct (dict_get (KStr "profile") d); [reflexivity | discriminate].
Qed.

(** C3. Whenever the hook completes, the spawner's uid and gid are 0
    whatever the profile says; [fs_gid] is the profile's gid and
    [supplemental_gids] its group membership; the profile's uid and gid
    reach the environment only, as the strings [NB_UID] and [NB_GID]. The
    profile is the one of the user the hook was called for: the cached one
    when the user's authentication state has a profile, which the hook then
    leaves as it is, and otherwise the one in the authentication state that
    the directory's answer for the user's name is turned into, which the
    hook saves; a completing run is one or the other. The user's name and
    admin flag are not changed. *)
Theorem spawner_config_identity (spawner spawner' : spawner_state) :
  spawner_config A spawner_git_server spawner = inr spawner' ->
  uid spawner' = VInt 0 /\ gid spawner' = VInt 0 /\
  (exists profile,
    subscript (auth_state (spawner_user spawner')) "profile" = inr profile /\
    subscript profile "gid" = inr (fs_gid spawner') /\
    subscript profile "group_membership" = inr (supplemental_gids spawner') /\
    (exists u, subscript profile "uid" = inr u /\
               environment spawner' !! "NB_UID" = Some (VStr (str u))) /\
    environment spawner' !! "NB_GID" = Some (VStr (str (fs_gid spawner')))) /\
  name (spawner_user spawner') = name (spawner_user spawner) /\
  admin (spawner_user spawner') = admin (spawner_user spawner) /\
  (forall cached,
     subscript (auth_state (spawner_user spawner)) "profile" = inr cached ->
     auth_state (spawner_user spawner') = auth_state (spawner_user spawner)) /\
  (lacks_profile (auth_state (spawner_user spawner)) = inr true ->
   exists dn built,
     user_dn_lookup A (name (spawner_user spawner)) = inr dn /\
     build_profile A
       (VDict [(KStr "name", VStr (name (spawner_user spawner)));
               (KStr "auth_state", VDict [(KStr "profile", VDict [(KStr "dn", dn)])])])
     = inr built /\
     Py.get built "auth_state" VNone = inr (auth_state (spawner_user spawner'))) /\
  (lacks_profile (auth_state (spawner_user spawner)) = inr true \/
   exists cached, subscript (auth_state (spawner_user spawner)) "profile" = inr cached).
Proof.
  intros H.
  destruct (spawner_config_auth_state _ _ H) as (Hname & Hadmin & Hsource).
  apply spawner_config_inr in H
    as (profile & g & membership & u & Hp & Hg & Hm & Hu & Huid & Hgid & <- & <- & Hnu & Hng).
  split; [exact Huid |]. split; [exact Hgid |].
  split; [exists profile; repeat split; try assumption; now exists u |].
  split; [exact Hname |]. split; [exact Hadmin |].
  destruct Hsource as [[Hcached Hsame] | [Hmissing Hresolved]].
  - split; [intros _ _; exact Hsame |].
    split; [intros Hmissing; congruence |].
    right. exists profile. now rewrite <- Hsame.
  - split; [intros cached Hc; apply has_profile in Hc; congruence |].
    split; [intros _; exact Hresolved |]. now left.
Qed.

Lemma res_bind_l {X Y} (x : X) (f : X -> res Y) : (inr x : res X) ≫= f = f x.
Proof. reflexivity. Qed.

Lemma res_mret_l {X Y} (x : X) (f : X -> res Y) : (mret x : res X) ≫= f = f x.
Proof. reflexivity. Qed.

Ltac env_lookup :=
  repeat (rewrite lookup_insert_ne by discriminate);
  rewrite ?lookup_insert_eq; reflexivity.

(** C4, as the code has it. For a user who is no admin and whose cached
    profile has uid 1000, gid 2000, group membership [2000, 3000], the group
    map {2000: "g1", 3000: "g2"} (in either order) and [advanced] false, the
    hook completes; the environment then has [NB_UID] "1000", [NB_GID]
    "2000", [GROUP_MEMBER] "2000 3000" and [GROUP_BUILD] made of "g1:2000"
    and "g2:3000" in the order the group map has them: "g1:2000 g2:3000"
    for the map as written, "g2:3000 g1:2000" for the map with 3000 first;
    [GRANT_SUDO] is not set by the hook: the environment has it afterwards
    exactly as it had it before. *)
Theorem spawner_config_example (spawner : spawner_state) (profile : value) (group_map : dict) :
  admin (spawner_user spawner) = false ->
  subscript (auth_state (spawner_user spawner)) "profile" = inr profile ->
  subscript profile "uid" = inr (VInt 1000) ->
  subscript profile "gid" = inr (VInt 2000) ->
  subscript profile "group_membership" = inr (VList [VInt 2000; VInt 3000]) ->
  subscript profile "group_map" = inr (VDict group_map) ->
  group_map ≡ₚ [(KInt 2000, VStr "g1"); (KInt 3000, VStr "g2")] ->
  subscript profile "advanced" = inr (VBool false) ->
  exists spawner',
    spawner_config A spawner_git_server spawner = inr spawner' /\
    environment spawner' !! "NB_UID" = Some (VStr "1000") /\
    environment spawner' !! "NB_GID" = Some (VStr "2000") /\
    environment spawner' !! "GRANT_SUDO" = environment spawner !! "GRANT_SUDO" /\
    environment spawner' !! "GROUP_MEMBER" = Some (VStr "2000 3000") /\
    (group_map = [(KInt 2000, VStr "g1"); (KInt 3000, VStr "g2")] ->
     environment spawner' !! "GROUP_BUILD" = Some (VStr "g1:2000 g2:3000")) /\
    (group_map = [(KInt 3000, VStr "g2"); (KInt 2000, VStr "g1")] ->
     environment spawner' !! "GROUP_BUILD" = Some (VStr "g2:3000 g1:2000")).
Proof.
  intros Hadmin Hp Hu Hg Hm Hgm Hperm Hadv.
  assert (Hget : Py.get profile "advanced" (VBool false) = inr (VBool false)).
  { destruct profile as [| | | | |d|]; try discriminate. simpl in *.
    destruct (dict_get (KStr "advanced") d); [exact Hadv | discriminate]. }
  assert (Hfield : forall f v, subscript profile f = inr v ->
                               profile_field (auth_state (spawner_user spawner)) f = inr v).
  { intros f v Hf. unfold profile_field. now rewrite Hp, res_bind_l. }
  symmetry in Hperm. apply Permutation_length_2_inv in Hperm as [-> | ->].
  all: eexists; split;
    [ unfold spawner_config;
      rewrite (has_profile _ _ Hp), res_bind_l; cbv beta iota;
      rewrite res_mret_l; cbv beta zeta;
      rewrite (Hfield _ _ Hg), (Hfield _ _ Hm), (Hfield _ _ Hu), (Hfield _ _ Hgm);
      do 4 (rewrite res_bind_l; cbv beta);
      cbn [admin spawner_user setenv set_supplemental_gids set_fs_gid set_gid set_uid];
      rewrite Hadmin, Hp, res_bind_l; cbv beta;
      rewrite Hget, res_bind_l; cbv beta; rewrite res_mret_l; cbv beta;
      simpl truthy; cbv iota;
      rewrite res_bind_l; cbv beta;
      simpl items; rewrite res_bind_l; cbv beta;
      simpl map_res; rewrite res_bind_l; cbv beta;
      rewrite res_bind_l; cbv beta;
      simpl iter; rewrite res_bind_l; cbv beta;
      reflexivity
    | simpl environment ].
  all: split; [env_lookup |]; split; [env_lookup |]; split; [env_lookup |];
    split; [env_lookup |].
  - split; [intros _; env_lookup | discriminate].
  - split; [discriminate | intros _; env_lookup].
Qed.

End pre_spawn_hook.

Section hub_config_secrets.
Import Py Traitlets Run World Script Stated.

Variable P : platform.
Variable cfg : value.

Lemma elem_of_dict_pop (k0 k : key) (v : value) (d : dict) :
  (k, v) ∈ dict_pop k0 d <-> (k, v) ∈ d /\ k ≠ k0.
Proof.
  induction d as [|[k1 v1] d IH]; simpl.
  - rewrite elem_of_nil. tauto.
  - destruct (decide (k0 = k1)) as [-> | Hne].
    + rewrite IH, elem_of_cons. split; [tauto |].
      intros [[Heq | Hin] Hk]; [congruence | tauto].
    + rewrite !elem_of_cons, IH. split; [| tauto].
      intros [Heq | [Hin Hk]]; [| tauto]. split; [tauto | congruence].
Qed.

Lemma NoDup_dict_pop (k0 : key) (d : dict) : NoDup (d.*1) -> NoDup ((dict_pop k0 d).*1).
Proof.
  induction d as [|[k1 v1] d IH]; simpl; [auto |].
  rewrite NoDup_cons. intros [Hnotin Hnd].
  destruct (decide (k0 = k1)); [auto |].
  rewrite ?fmap_cons. simpl. apply NoDup_cons. split; [| auto].
  intros Hin. apply Hnotin. apply list_elem_of_fmap in Hin as ([k v] & -> & Hin).
  apply elem_of_dict_pop in Hin as [Hin _].
  apply list_elem_of_fmap. now exists (k, v).
Qed.

(** The secrets are popped, and nothing else. *)
Lemma not_seeded (app : string) (k : key) :
  (app, k) ∉ seeded <->
  (app = "JupyterHub" -> k ≠ KStr "proxy_auth_token" /\ k ≠ KStr "cookie_secret"
                         /\ k ≠ KStr "services") /\
  (app = "ConfigurableHTTPProxy" -> k ≠ KStr "auth_token") /\
  (app = "CryptKeeper" -> k ≠ KStr "keys").
Proof.
  unfold seeded. rewrite !not_elem_of_cons. split.
  - intros (H1 & H2 & H3 & H4 & H5 & _).
    split; [| split]; intros ->; repeat split; intros ->; congruence.
  - intros (HJ & HC & HK). repeat split; try apply not_elem_of_nil;
      intros Heq; injection Heq as -> ->;
      first [ destruct (HJ eq_refl) as (? & ? & ?); congruence
            | now apply (HC eq_refl)
            | now apply (HK eq_refl) ].
Qed.

Lemma without_secrets_dict (app : string) (d : dict) :
  exists d', without_secrets (KStr app) (VDict d) = inr (VDict d') /\
    (NoDup (d.*1) -> NoDup (d'.*1)) /\
    forall k v, (k, v) ∈ d' <-> (k, v) ∈ d /\ (app, k) ∉ seeded.
Proof.
  unfold without_secrets.
  destruct (decide (KStr app = KStr "JupyterHub")) as [Heq | HJ];
    [| destruct (decide (KStr app = KStr "ConfigurableHTTPProxy")) as [Heq | HC];
       [| destruct (decide (KStr app = KStr "CryptKeeper")) as [Heq | HK]]];
    try (injection Heq as ->); simpl;
    eexists; (split; [reflexivity |]); (split; [auto using NoDup_dict_pop |]);
    intros k v; rewrite ?elem_of_dict_pop, not_seeded.
  - intuition congruence.
  - intuition congruence.
  - intuition congruence.
  - intuition congruence.
Qed.

Lemma updated_other (app : string) (d : dict) (c0 : config) (e : string * key) :
  e.1 ≠ app \/ e.2 ∉ d.*1 -> updated app d c0 !! e = c0 !! e.
Proof.
  revert c0. induction d as [|[k1 v1] d IH]; intros c0 He; [reflexivity |].
  simpl. rewrite IH.
  - apply lookup_insert_ne. destruct e as [a k]; simpl in *.
    intros Heq; injection Heq as -> ->. destruct He as [He | He]; [congruence |].
    apply He. constructor.
  - destruct He as [He | He]; [now left | right].
    intros Hin. apply He. now constructor.
Qed.

Lemma updated_entry (app : string) (d : dict) (c0 : config) (k : key) (v : value) :
  NoDup (d.*1) -> (k, v) ∈ d -> updated app d c0 !! (app, k) = Some (Val v).
Proof.
  revert c0. induction d as [|[k1 v1] d IH]; intros c0 Hnd Hin; [inversion Hin |].
  rewrite ?fmap_cons in Hnd; simpl in Hnd. apply NoDup_cons in Hnd as [Hnotin Hnd].
  simpl. apply elem_of_cons in Hin as [Heq | Hin].
  - injection Heq as -> ->. rewrite updated_other by (right; exact Hnotin).
    apply lookup_insert_eq.
  - now apply IH.
Qed.

Lemma run_update_section (app : string) (d : dict) (s : state) :
  starts_with_underscore app = false ->
  update_section (KStr app) (VDict d) s = Ok tt (with_c (updated app d) s).
Proof. intros Hs. unfold update_section, section_of. now rewrite Hs. Qed.

(** The loop over [hub.config]. *)
Lemma hub_config_loop (apps : dict) :
  well_formed_hub_config apps ->
  forall s, exists s',
    for_each apps (fun kv =>
      cfg' ← try (without_secrets (fst kv) (snd kv));
      update_section (fst kv) cfg') s = Ok tt s' /\
    (forall e, e ∈ seeded -> c s' !! e = c s !! e) /\
    (forall app d k v, (KStr app, VDict d) ∈ apps -> (k, v) ∈ d -> (app, k) ∉ seeded ->
       c s' !! (app, k) = Some (Val v)) /\
    (forall e, KStr e.1 ∉ apps.*1 -> c s' !! e = c s !! e).
Proof.
  induction apps as [|[app0 cfg0] apps IH]; intros [Hnd Hwf] s.
  - exists s. repeat split; auto. intros ? ? ? ? Hin. inversion Hin.
  - rewrite ?fmap_cons in Hnd; simpl in Hnd. apply NoDup_cons in Hnd as [Hnotin Hnd].
    apply Forall_cons in Hwf as [(app & d & Heq & Hsec & Hndd) Hwf].
    injection Heq as -> ->.
    destruct (without_secrets_dict app d) as (d' & Hstrip & Hndd' & Hd').
    specialize (Hndd' Hndd).
    rewrite run_for_each_cons, run_bind. simpl fst. simpl snd.
    unfold try at 1. rewrite Hstrip, run_update_section by exact Hsec.
    destruct (IH (conj Hnd Hwf) (with_c (updated app d') s))
      as (s' & Hrun & Hseeded & Hentries & Hframe).
    exists s'. split; [exact Hrun |]. split; [| split].
    + intros e He. rewrite (Hseeded e He). simpl.
      apply updated_other. destruct (decide (e.1 = app)) as [<- | Hne]; [right | now left].
      intros Hin. apply list_elem_of_fmap in Hin as ([k v] & Hk & Hin).
      apply Hd' in Hin as [_ Hns]. apply Hns. simpl in Hk. subst k. now destruct e.
    + intros a d0 k v Hin Hkv Hns. apply elem_of_cons in Hin as [Heq | Hin].
      * injection Heq as -> ->. rewrite Hframe.
        -- simpl. apply updated_entry; [exact Hndd' |]. now apply Hd'.
        -- exact Hnotin.
      * now apply (Hentries a d0).
    + intros e He. simpl in He. rewrite not_elem_of_cons in He. destruct He as [Hne He].
      rewrite (Hframe e He). simpl. apply updated_other. left. congruence.
Qed.

Lemma dict_pop_keys (k0 k : key) (d : dict) :
  k ∈ (dict_pop k0 d).*1 -> k ∈ d.*1 /\ k ≠ k0.
Proof.
  intros Hin. apply list_elem_of_fmap in Hin as ([k1 v] & -> & Hin).
  apply elem_of_dict_pop in Hin as [Hin Hne]. split; [| exact Hne].
  apply list_elem_of_fmap. now exists (k1, v).
Qed.

(** Whatever the section holds, what is left of it for the update has no
    seeded key. *)
Lemma without_secrets_strips (app : string) (section_cfg : value) (d' : dict) (k : key) :
  without_secrets (KStr app) section_cfg = inr (VDict d') -> (app, k) ∈ seeded -> k ∉ d'.*1.
Proof.
  unfold without_secrets, seeded. intros Hrun Hin Hk.
  destruct (decide (KStr app = KStr "JupyterHub")) as [Heq | HJ];
    [| destruct (decide (KStr app = KStr "ConfigurableHTTPProxy")) as [Heq | HC];
       [| destruct (decide (KStr app = KStr "CryptKeeper")) as [Heq | HK]]].
  - injection Heq as ->. destruct section_cfg as [| | | | |d|]; try discriminate.
    simpl in Hrun. injection Hrun as <-.
    apply dict_pop_keys in Hk as [Hk H3]. apply dict_pop_keys in Hk as [Hk H2].
    apply dict_pop_keys in Hk as [_ H1].
    repeat (apply elem_of_cons in Hin as [Heq | Hin]; [injection Heq as ->; congruence |]).
    inversion Hin.
  - injection Heq as ->. destruct section_cfg as [| | | | |d|]; try discriminate.
    simpl in Hrun. injection Hrun as <-. apply dict_pop_keys in Hk as [_ H1].
    repeat (apply elem_of_cons in Hin as [Heq | Hin]; [injection Heq as ->; congruence |]).
    inversion Hin.
  - injection Heq as ->. destruct section_cfg as [| | | | |d|]; try discriminate.
    simpl in Hrun. injection Hrun as <-. apply dict_pop_keys in Hk as [_ H1].
    repeat (apply elem_of_cons in Hin as [Heq | Hin]; [injection Heq as ->; congruence |]).
    inversion Hin.
  - repeat (apply elem_of_cons in Hin as [Heq | Hin]; [injection Heq as -> ->; congruence |]).
    inversion Hin.
Qed.

(** One section of [hub.config], then the whole loop: the seeded entries
    are where they were, whether the loop ends normally or raises. *)
Lemma hub_config_section_keeps (entry : key * value) (s : state) (e : string * key) :
  e ∈ seeded ->
  c (final ((cfg' ← try (without_secrets (fst entry) (snd entry));
             update_section (fst entry) cfg') s)) !! e = c s !! e.
Proof.
  intros He. rewrite run_bind. unfold try at 1.
  destruct (without_secrets (fst entry) (snd entry)) as [err | cfg'] eqn:Hstrip;
    [reflexivity |].
  unfold update_section. rewrite run_bind. unfold try at 1.
  destruct (section_of (fst entry)) as [err | app] eqn:Hsec; [reflexivity |].
  destruct cfg' as [| | | | |d'|]; try reflexivity.
  simpl. apply updated_other.
  destruct (decide (e.1 = app)) as [<- | Hne]; [right | now left].
  destruct entry as [[app0 | z] cfg0]; simpl in *.
  - destruct (starts_with_underscore app0); [discriminate |]. injection Hsec as ->.
    apply (without_secrets_strips _ _ _ _ Hstrip). now destruct e.
  - destruct (z =? 0)%Z; discriminate.
Qed.

Lemma hub_config_keeps (s : state) (e : string * key) :
  e ∈ seeded -> c (final (hub_config cfg s)) !! e = c s !! e.
Proof.
  intros He. unfold hub_config. rewrite run_bind. unfold try at 1.
  destruct (items (get_config cfg "hub.config" (VDict []))) as [err | apps]; [reflexivity |].
  revert s. induction apps as [|entry apps IH]; intros s; [reflexivity |].
  rewrite run_for_each_cons.
  pose proof (hub_config_section_keeps entry s e He) as Hstep.
  destruct ((cfg' ← try (without_secrets (fst entry) (snd entry));
             update_section (fst entry) cfg') s) as [[] s1 | err s1]; simpl in Hstep.
  - now rewrite IH.
  - exact Hstep.
Qed.

(** C10. Loading the seeded secrets and then [hub.config]. Whatever
    [hub.config] holds, it changes no seeded entry ([proxy_auth_token],
    [cookie_secret] and [services] of [JupyterHub], [auth_token] of
    [ConfigurableHTTPProxy], [keys] of [CryptKeeper]), whether the loop
    ends normally or raises; so with both secrets mounted
    [JupyterHub.cookie_secret] is the mounted secret and [CryptKeeper.keys]
    the mounted string split at [;]. For a well-formed [hub.config] the
    loop ends normally and every entry that is not seeded is in the
    configuration object with its value. *)
Theorem hub_config_keeps_seeded_secrets (s : state) :
  (forall e, e ∈ seeded -> c (final (hub_config cfg s)) !! e = c s !! e) /\
  (forall cookie_secret keys,
     secret P "hub.config.JupyterHub.cookie_secret" = Some cookie_secret ->
     secret P "hub.config.CryptKeeper.keys" = Some keys ->
     getattr "JupyterHub" "cookie_secret"
       (c (final ((seeded_secrets P ;; hub_config cfg) s)))
     = Some (Val (VStr cookie_secret)) /\
     getattr "CryptKeeper" "keys"
       (c (final ((seeded_secrets P ;; hub_config cfg) s)))
     = Some (Val (strs (split ";"%char keys)))) /\
  (forall apps,
     Z2jh.get_config cfg "hub.config" (VDict []) = VDict apps ->
     well_formed_hub_config apps ->
     exists s',
       hub_config cfg s = Ok tt s' /\
       forall app d k v, (KStr app, VDict d) ∈ apps -> (k, v) ∈ d -> (app, k) ∉ seeded ->
         c s' !! (app, k) = Some (Val v)).
Proof.
  split; [| split].
  - intros e. apply hub_config_keeps.
  - intros cookie_secret keys Hcookie Hkeys.
    assert (Hsecrets : seeded_secrets P s
              = Ok tt (with_c (setattr "CryptKeeper" "keys" (strs (split ";"%char keys)))
                         (with_c (setattr "JupyterHub" "cookie_secret" (VStr cookie_secret)) s))).
    { unfold seeded_secrets, get_secret_value, Z2jh.get_secret_value.
      rewrite Hcookie, Hkeys. reflexivity. }
    rewrite run_bind, Hsecrets. unfold getattr.
    rewrite !hub_config_keeps by (unfold seeded; repeat constructor).
    simpl. unfold setattr. split.
    + rewrite lookup_insert_ne by discriminate. apply lookup_insert_eq.
    + apply lookup_insert_eq.
  - intros apps Hcfg Hwf.
    destruct (hub_config_loop apps Hwf s) as (s' & Hrun & _ & Hentries & _).
    exists s'. split; [| exact Hentries].
    unfold hub_config, get_config. rewrite Hcfg. exact Hrun.
Qed.

End hub_config_secrets.

Section extra_configuration.
Import Py Traitlets Run World Script Stated.

Variable P : platform.
Variable cfg : value.

Lemma emits_ret : emits (mret tt) [].
Proof. intros s. exists []. simpl. rewrite app_nil_r. auto. Qed.

Lemma emits_raise (e : exn) (events : list event) : emits (raise e) events.
Proof.
  intros s. exists []. simpl. rewrite app_nil_r.
  repeat split; [apply prefix_nil | discriminate].
Qed.

Lemma emits_seq (m1 m2 : M unit) (events1 events2 : list event) :
  emits m1 events1 -> emits m2 events2 -> emits (m1 ;; m2) (events1 ++ events2).
Proof.
  intros H1 H2 s. destruct (H1 s) as (d1 & Hlog1 & Hpre1 & Hok1).
  rewrite run_bind. destruct (m1 s) as [[] s1 | e s1]; simpl in *.
  - destruct (H2 s1) as (d2 & Hlog2 & Hpre2 & Hok2).
    exists (events1 ++ d2). rewrite (Hok1 eq_refl) in Hlog1.
    rewrite Hlog2, Hlog1, app_assoc. split; [reflexivity |].
    split; [now apply prefix_app |]. intros Hok. now rewrite (Hok2 Hok).
  - exists d1. split; [exact Hlog1 |]. split; [now apply prefix_app_r | discriminate].
Qed.

Lemma emits_try {A} (r : res A) (k : A -> M unit) (events : list event) :
  (forall a, r = inr a -> emits (k a) events) -> emits (try r ≫= k) events.
Proof.
  intros Hk. destruct r as [e | a].
  - apply (emits_raise e).
  - apply Hk. reflexivity.
Qed.

(** What loading in order writes and executes. *)
Lemma emits_load_in_order (loads : list load) :
  emits (load_in_order P loads) (flat_map load_events loads).
Proof.
  induction loads as [|l loads IH]; [apply emits_ret |].
  change (flat_map load_events (l :: loads))
    with (load_events l ++ flat_map load_events loads).
  unfold load_events at 1.
  intros s. simpl load_in_order.
  destruct (source l) as [e | text].
  - exists [Printed (progress_line l)]. simpl.
    split; [reflexivity |]. split; [| discriminate].
    apply (prefix_app [_] [] _), prefix_nil.
  - destruct (exec P text (c s, environ s, names s)) as [[[c' environ'] names'] [e |]].
    + exists [Printed (progress_line l); Executed (file_name l) text]. simpl.
      rewrite <- app_assoc. split; [reflexivity |]. split; [| discriminate].
      apply (prefix_app [_; _] [] _), prefix_nil.
    + match goal with
      | |- context [load_in_order P loads ?s0] => set (s1 := s0)
      end.
      destruct (IH s1) as (d & Hlog & Hpre & Hok).
      exists ([Printed (progress_line l); Executed (file_name l) text] ++ d).
      split; [| split].
      * rewrite Hlog. unfold s1. simpl log. now rewrite <- !app_assoc.
      * now apply (prefix_app [_; _]).
      * intros H. now rewrite (Hok H).
Qed.

Lemma flat_map_map {X Y Z} (f : X -> Y) (g : Y -> list Z) (l : list X) :
  flat_map g (List.map f l) = flat_map (fun x => g (f x)) l.
Proof. induction l as [|x l IH]; [reflexivity | simpl; now rewrite IH]. Qed.

Lemma emits_in_order :
  emits (extra_configuration_in_order P cfg) (expected_events P cfg).
Proof.
  unfold extra_configuration_in_order, expected_events.
  apply emits_seq.
  - replace (flat_map (file_events P) (files_in_order P))
      with (flat_map load_events (List.map (file_load P) (files_in_order P)))
      by (now rewrite flat_map_map).
    apply emits_load_in_order.
  - apply emits_try. intros fragments Hsorted.
    assert (Horder : fragments_in_order cfg = fragments).
    { unfold fragments_in_order. unfold sorted_fragments in Hsorted.
      destruct (items _) as [e | entries]; [discriminate |]. simpl in Hsorted.
      change ((inr entries : res dict) ≫= sorted_items) with (sorted_items entries)
        in Hsorted.
      now rewrite Hsorted. }
    rewrite Horder.
    replace (flat_map fragment_events fragments)
      with (flat_map load_events (List.map fragment_load fragments)).
    + apply emits_load_in_order.
    + rewrite flat_map_map. apply flat_map_ext. intros [k v].
      unfold fragment_events, fragment_load, load_events. simpl. now destruct v.
Qed.

(** With its names as the script made them, the loader reads each of them
    as its own. *)
Lemma run_own (name : string) (s : state) :
  own_names (names s) -> name ∈ loader_names -> own name s = Ok tt s.
Proof. intros Hown Hin. unfold own. now rewrite (Hown name Hin). Qed.

Lemma own_bind {A} (name : string) (k : unit -> M A) (s : state) :
  own_names (names s) -> name ∈ loader_names -> (own name ≫= k) s = k tt s.
Proof. intros Hown Hin. now rewrite run_bind, run_own. Qed.

Lemma print_bind {A} (line : string) (k : unit -> M A) (s : state) :
  (print line ≫= k) s
  = k tt (State (c s) (environ s) (log s ++ [Printed line]) (names s)).
Proof. reflexivity. Qed.

Ltac own_name := rewrite own_bind by (first [assumption | repeat constructor]).

(** The loop over the files is loading them in order, and leaves the names
    as they were. *)
Lemma load_files (files : list string) (s : state) :
  leaves_loader_names P -> own_names (names s) ->
  for_each files (fun file_path =>
      own "os";;
      let file_name := basename file_path in
      own "print";; own "config_dir";;
      print ("Loading " +:+ config_dir +:+ " config: " +:+ file_name);;
      own "open";;
      file_content ← try (read_file P file_path);
      own "exec";; own "compile";;
      py_exec P (Some file_name) file_content) s
  = load_in_order P (List.map (file_load P) files) s /\
  own_names (names (final (load_in_order P (List.map (file_load P) files) s))).
Proof.
  intros Hleaves. revert s. induction files as [|file_path files IH]; intros s Hown;
    [split; [reflexivity | exact Hown] |].
  rewrite run_for_each_cons. cbv zeta.
  do 3 own_name. rewrite print_bind.
  set (s1 := State (c s) (environ s) _ (names s)).
  assert (Hown1 : own_names (names s1)) by exact Hown.
  own_name. rewrite run_bind.
  simpl List.map. simpl load_in_order.
  destruct (read_file P file_path) as [e | file_content]; simpl try; cbv beta iota;
    [split; [reflexivity | exact Hown] |].
  do 2 own_name. unfold py_exec at 1. unfold s1. cbn [c environ names log].
  pose proof (Hleaves file_content (c s, environ s, names s) Hown) as Hnext.
  destruct (exec P file_content (c s, environ s, names s))
    as [[[c' environ'] names'] [e |]]; simpl in Hnext.
  - split; [reflexivity | exact Hnext].
  - apply IH. exact Hnext.
Qed.

(** The same for the loop over the fragments. *)
Lemma load_fragments (fragments : dict) (s : state) :
  leaves_loader_names P -> own_names (names s) ->
  for_each fragments (fun kv =>
      own "print";;
      print ("Loading extra config: " +:+ str (key_value (fst kv)));;
      own "exec";;
      match snd kv with
      | VStr config_py => py_exec P None config_py
      | VObj _ _ => raise Unmodelled
      | _ => raise TypeError
      end) s
  = load_in_order P (List.map fragment_load fragments) s.
Proof.
  intros Hleaves. revert s. induction fragments as [|[k v] fragments IH]; intros s Hown;
    [reflexivity |].
  rewrite run_for_each_cons. own_name. rewrite print_bind.
  set (s1 := State (c s) (environ s) _ (names s)).
  assert (Hown1 : own_names (names s1)) by exact Hown.
  own_name. simpl List.map. simpl load_in_order.
  destruct v as [| | | text | | |]; try reflexivity.
  cbn [fst snd]. unfold py_exec at 1. unfold s1. cbn [c environ names log].
  pose proof (Hleaves text (c s, environ s, names s) Hown) as Hnext.
  destruct (exec P text (c s, environ s, names s))
    as [[[c' environ'] names'] [e |]]; simpl in Hnext; [reflexivity |].
  apply IH. exact Hnext.
Qed.

(** The two loops of the script are loading in the order of the claim. *)
Lemma loader_in_order (s : state) :
  leaves_loader_names P -> own_names (names s) ->
  (load_config_d P ;; extra_config P cfg) s = extra_configuration_in_order P cfg s.
Proof.
  intros Hleaves Hown. unfold extra_configuration_in_order.
  rewrite !(run_bind _ _ s).
  assert (Hfiles : load_config_d P s
                   = load_in_order P (List.map (file_load P) (files_in_order P)) s /\
                   own_names (names (final (load_in_order P
                                (List.map (file_load P) (files_in_order P)) s)))).
  { unfold load_config_d, files_in_order, when.
    destruct (isdir P config_dir); cbv iota; [| split; [reflexivity | exact Hown]].
    exact (load_files _ s Hleaves Hown). }
  destruct Hfiles as [Heq Hown1]. rewrite Heq.
  destruct (load_in_order P (List.map (file_load P) (files_in_order P)) s)
    as [[] s1 | e s1]; [| reflexivity].
  simpl in Hown1. unfold extra_config.
  rewrite run_bind. unfold read at 1. cbv beta iota.
  rewrite (Hown1 "sorted") by repeat constructor.
  own_name. unfold sorted_fragments, get_config.
  rewrite !run_bind.
  destruct (items (Z2jh.get_config cfg "hub.extraConfig" (VDict []))) as [e | entries];
    [reflexivity |].
  simpl try. cbv beta iota. simpl call_sorted.
  change ((inr entries : res dict) ≫= sorted_items) with (sorted_items entries).
  destruct (sorted_items entries) as [e | fragments]; [reflexivity |].
  simpl try. cbv beta iota. now apply load_fragments.
Qed.

(** The order of strings. *)
Lemma leb_spec (a b : string) : String.leb a b = true <-> a = b \/ String_as_OT.lt a b.
Proof.
  unfold String.leb. rewrite <- String_as_OT.cmp_lt, <- String_as_OT.cmp_eq.
  unfold String_as_OT.cmp. destruct (String.compare a b); intuition congruence.
Qed.

Lemma leb_transitive : Transitive (fun a b => String.leb a b = true).
Proof.
  intros a b c0. rewrite !leb_spec. intros [-> | Hab] [-> | Hbc]; auto.
  right. now apply (String_as_OT.lt_trans a b c0).
Qed.

Lemma leb_antisymmetric : AntiSymm eq (fun a b => String.leb a b = true).
Proof. intros a b. apply String.leb_antisym. Qed.

(** Insertion sort, for an order in which any two items compare. *)
Section insertion_sort.
Context {A : Type} (leb : A -> A -> bool).
Hypothesis leb_total : forall a b, leb a b = true \/ leb b a = true.

Lemma insert_by_Permutation (x : A) (l : list A) : insert_by leb x l ≡ₚ x :: l.
Proof.
  induction l as [|y l IH]; simpl; [reflexivity |].
  destruct (leb x y); [reflexivity |]. rewrite IH. apply Permutation_swap.
Qed.

Lemma sorted_by_Permutation (l : list A) : sorted_by leb l ≡ₚ l.
Proof.
  induction l as [|x l IH]; simpl; [reflexivity |].
  now rewrite insert_by_Permutation, IH.
Qed.

Lemma insert_by_Sorted (x : A) (l : list A) :
  Sorted (fun a b => leb a b = true) l -> Sorted (fun a b => leb a b = true) (insert_by leb x l).
Proof.
  induction l as [|y l IH]; simpl; intros Hs.
  - repeat constructor.
  - destruct (leb x y) eqn:Hxy.
    + constructor; [exact Hs | now constructor].
    + apply Sorted_inv in Hs as [Hs Hhd]. constructor; [now apply IH |].
      destruct l as [|z l]; simpl.
      * constructor. destruct (leb_total x y); congruence.
      * destruct (leb x z); constructor.
        -- destruct (leb_total x y); congruence.
        -- now apply HdRel_inv in Hhd.
Qed.

Lemma sorted_by_Sorted (l : list A) : Sorted (fun a b => leb a b = true) (sorted_by leb l).
Proof.
  induction l as [|x l IH]; simpl; [constructor | now apply insert_by_Sorted].
Qed.

End insertion_sort.

Lemma files_in_order_Sorted : Sorted (fun a b => String.leb a b = true) (files_in_order P).
Proof.
  unfold files_in_order. destruct (isdir P config_dir); [| constructor].
  apply sorted_by_Sorted, String.leb_total.
Qed.

Lemma files_in_order_Permutation :
  isdir P config_dir = true -> files_in_order P ≡ₚ glob P (config_dir +:+ "/*.py").
Proof. unfold files_in_order. intros ->. apply sorted_by_Permutation. Qed.

(** The order the files are taken in does not depend on the order the file
    system lists them in. *)
Lemma files_in_order_listing (P' : platform) :
  isdir P' config_dir = isdir P config_dir ->
  glob P' (config_dir +:+ "/*.py") ≡ₚ glob P (config_dir +:+ "/*.py") ->
  files_in_order P' = files_in_order P.
Proof.
  unfold files_in_order. intros -> Hperm. destruct (isdir P config_dir); [| reflexivity].
  apply (@Sorted_unique _ (fun a b => String.leb a b = true) leb_transitive leb_antisymmetric);
    try apply sorted_by_Sorted, String.leb_total.
  now rewrite !sorted_by_Permutation.
Qed.

Lemma Sorted_map {A B} (R : B -> B -> Prop) (f : A -> B) (l : list A) :
  Sorted (fun a b => R (f a) (f b)) l -> Sorted R (List.map f l).
Proof.
  induction 1 as [|x l Hs IH Hhd]; simpl; constructor; [exact IH |].
  destruct Hhd; simpl; constructor. assumption.
Qed.

Lemma Sorted_weaken {A} (R R' : A -> A -> Prop) (l : list A) :
  (forall a b, R a b -> R' a b) -> Sorted R l -> Sorted R' l.
Proof.
  intros Himpl. induction 1 as [|x l Hs IH Hhd]; constructor; [exact IH |].
  destruct Hhd; constructor. now apply Himpl.
Qed.

Lemma str_keys_Some (d : dict) (l : list (string * value)) :
  str_keys d = Some l -> d = List.map (fun kv => (KStr (fst kv), snd kv)) l.
Proof.
  unfold str_keys. rewrite mapM_Some.
  induction 1 as [|[[k|z] v] [k' v'] d l Hx _ IH]; simpl in *;
    [reflexivity | | discriminate].
  injection Hx as <- <-. now f_equal.
Qed.

Lemma int_keys_Some (d : dict) (l : list (Z * value)) :
  int_keys d = Some l -> d = List.map (fun kv => (KInt (fst kv), snd kv)) l.
Proof.
  unfold int_keys. rewrite mapM_Some.
  induction 1 as [|[[k|z] v] [k' v'] d l Hx _ IH]; simpl in *;
    [reflexivity | discriminate |].
  injection Hx as <- <-. now f_equal.
Qed.

Lemma Zle_total_bool (a b : Z * value) :
  (fst a <=? fst b)%Z = true \/ (fst b <=? fst a)%Z = true.
Proof. rewrite !Z.leb_le. lia. Qed.

Lemma sorted_items_inr (d sorted : dict) :
  sorted_items d = inr sorted -> Sorted key_le (sorted.*1) /\ sorted ≡ₚ d.
Proof.
  unfold sorted_items. intros H.
  destruct (str_keys d) as [l |] eqn:Hstr; [| destruct (int_keys d) as [l |] eqn:Hint];
    [| | discriminate]; injection H as <-.
  - split.
    + rewrite <- list_fmap_compose.
      change (Sorted key_le (List.map (fun kv => KStr (fst kv))
                (sorted_by (fun a b => String.leb (fst a) (fst b)) l))).
      apply Sorted_map. simpl.
      apply (sorted_by_Sorted (fun a b : string * value => String.leb (fst a) (fst b))).
      intros a b. apply String.leb_total.
    + rewrite (str_keys_Some d l Hstr).
      change (List.map ?f ?x) with (f <$> x). now rewrite sorted_by_Permutation.
  - split.
    + rewrite <- list_fmap_compose.
      change (Sorted key_le (List.map (fun kv => KInt (fst kv))
                (sorted_by (fun a b => (fst a <=? fst b)%Z) l))).
      apply Sorted_map. simpl.
      apply (Sorted_weaken (fun a b : Z * value => (fst a <=? fst b)%Z = true)).
      * intros a b. apply Z.leb_le.
      * apply (sorted_by_Sorted (fun a b : Z * value => (fst a <=? fst b)%Z)).
        apply Zle_total_bool.
    + rewrite (int_keys_Some d l Hint).
      change (List.map ?f ?x) with (f <$> x). now rewrite sorted_by_Permutation.
Qed.

Lemma fragments_in_order_Sorted : Sorted key_le ((fragments_in_order cfg).*1).
Proof.
  unfold fragments_in_order.
  destruct (items _) as [e | entries]; [constructor |].
  destruct (sorted_items entries) as [e | sorted] eqn:Hs; [constructor |].
  now apply sorted_items_inr in Hs.
Qed.

Lemma fragments_in_order_Permutation (entries sorted : dict) :
  Z2jh.get_config cfg "hub.extraConfig" (VDict []) = VDict entries ->
  sorted_items entries = inr sorted ->
  fragments_in_order cfg = sorted /\ sorted ≡ₚ entries.
Proof.
  unfold fragments_in_order. intros -> Hs. simpl. rewrite Hs.
  split; [reflexivity |]. now apply sorted_items_inr in Hs.
Qed.


End extra_configuration.

Section authenticator_choice.
Import Py Traitlets Run World Script Stated Examples.

(** C2, against the claim as stated: with [auth.type: bogus] the script
    does raise the error that names the value, but only after the hub and
    spawner settings of the lines before have been assigned (the
    configuration object is no longer what it was); and with an unknown
    node purpose as well, the error raised is that one, and the
    authenticator is never looked at. *)
Lemma auth_error_comes_late :
  raised (jupyterhub_config plain_platform bogus_auth fresh)
  = Some (ValueError "Unhandled auth type: 'bogus'") /\
  getattr "JupyterHub" "spawner_class" (c fresh) = None /\
  getattr "JupyterHub" "spawner_class"
    (c (final (jupyterhub_config plain_platform bogus_auth fresh)))
  = Some (Val (VStr "kubespawner.KubeSpawner")) /\
  getattr "JupyterHub" "hub_connect_port"
    (c (final (jupyterhub_config plain_platform bogus_auth fresh)))
  = Some (Val (VInt 8081)) /\
  raised (jupyterhub_config plain_platform bogus_auth_and_purpose fresh)
  = Some (ValueError "Unrecognized value for matchNodePurpose: sometimes").
Proof. repeat split; vm_compute; reflexivity. Qed.

Variable P : platform.
Variable cfg : value.

Lemma unhandled (s : state) :
  existsb (eq_str (auth_type cfg)) auth_types = false ->
  authenticator P cfg s
  = Raise (ValueError ("Unhandled auth type: " +:+ repr (auth_type cfg))) s.
Proof.
  unfold auth_types. simpl existsb. intros H.
  repeat (apply orb_false_elim in H as [? H]).
  unfold authenticator.
  repeat match goal with
         | Heq : eq_str _ _ = false |- _ => rewrite Heq; clear Heq
         end.
  reflexivity.
Qed.

(** C2, as the code has it. When [auth.type] is none of the known types
    (absent included), the choice of the authenticator raises [ValueError]
    with the value's [repr] in the message and assigns nothing. In the
    script this is reached once everything before it has run: if that ended
    normally in a state, the script raises the error in that state, with
    those assignments made and nothing of what follows applied; if
    something before raised, that exception is the script's. *)
Theorem unhandled_auth_type (s : state) :
  existsb (eq_str (auth_type cfg)) auth_types = false ->
  authenticator P cfg s
  = Raise (ValueError ("Unhandled auth type: " +:+ repr (auth_type cfg))) s /\
  (forall s1, before_authenticator P cfg s = Ok tt s1 ->
     jupyterhub_config P cfg s
     = Raise (ValueError ("Unhandled auth type: " +:+ repr (auth_type cfg))) s1) /\
  (forall e s1, before_authenticator P cfg s = Raise e s1 ->
     jupyterhub_config P cfg s = Raise e s1).
Proof.
  intros H. split; [now apply unhandled |]. split.
  - intros s1 Hbefore. unfold jupyterhub_config.
    rewrite run_bind, Hbefore, run_bind. now rewrite unhandled.
  - intros e s1 Hbefore. unfold jupyterhub_config. now rewrite run_bind, Hbefore.
Qed.

Lemma eq_str_VStr (a b : string) : eq_str (VStr a) b = String.eqb a b.
Proof. reflexivity. Qed.

(** The four OAuth branches that leave the key derivation out raise on
    their first row, wherever they start, with nothing assigned but
    [authenticator_class]. *)
Lemma oauth_loop_raises (t : string) (s : state) :
  t ∈ ["cilogon"; "gitlab"; "mediawiki"; "globus"] ->
  auth_type cfg = VStr t ->
  exists s', authenticator P cfg s = Raise TypeError s' /\
    forall k, k ≠ ("JupyterHub", KStr "authenticator_class") -> c s' !! k = c s !! k.
Proof.
  intros Ht Hauth. unfold authenticator. rewrite Hauth.
  repeat (apply elem_of_cons in Ht as [-> | Ht]); [ | | | | inversion Ht ];
    (eexists; split; [reflexivity |]);
    intros k Hk; simpl; now apply lookup_setattr_ne.
Qed.

(** C1, where the code departs from it. The claim holds of the loops that
    derive a missing key from the trait's name (lines 81-95, 138-174 and,
    among the authenticators, 354-369): with [auth.<type>.callbackUrl]
    present and not null, the [google] and [github] branches assign it to
    [oauth_callback_url] of their class. The loops for [cilogon], [gitlab],
    [mediawiki] and [globus] (lines 370-389) go over the same rows without
    the derivation: the first row has no key of its own, [prefix + None]
    raises [TypeError] before the helper is called, no trait of the class
    is assigned, the present key among them, and the script does not
    complete. *)
Theorem explicit_oauth_key (t : string) (v : value) (s : state) :
  auth_type cfg = VStr t ->
  Z2jh.lookup_key cfg ("auth." +:+ t +:+ ".callbackUrl") = Some v -> v ≠ VNone ->
  (t ∈ ["google"; "github"] ->
   exists s', authenticator P cfg s = Ok tt s' /\
     getattr (oauth_class t) "oauth_callback_url" (c s') = Some (Val v)) /\
  (t ∈ ["cilogon"; "gitlab"; "mediawiki"; "globus"] ->
   raised (authenticator P cfg s) = Some TypeError /\
   (forall name, getattr (oauth_class t) name (c (final (authenticator P cfg s)))
                 = getattr (oauth_class t) name (c s)) /\
   ok (jupyterhub_config P cfg s) = false).
Proof.
  intros Hauth Hkey Hv. split.
  - intros Ht. unfold authenticator. rewrite Hauth.
    assert (Hhandled : forall old key, Z2jh.lookup_key cfg key = Some v ->
                                       handled cfg old key = Some (Val v)).
    { intros old key Hk. unfold handled, Z2jh.get_config. rewrite Hk.
      destruct v; congruence. }
    repeat (apply elem_of_cons in Ht as [-> | Ht]); [ | | inversion Ht ];
      rewrite !eq_str_VStr;
      repeat match goal with
             | |- context [String.eqb ?a ?b] =>
               let r := eval vm_compute in (String.eqb a b) in
               change (String.eqb a b) with r
             end;
      cbv iota; rewrite run_bind, run_assign; cbv beta iota;
      match goal with
      | |- context [set_traits cfg ?cls ?prefix ?table ?s1] =>
        destruct (set_traits_rows cfg cls prefix table
                    ltac:(apply (bool_decide_unpack _); vm_compute; exact I) s1)
          as (s' & Hrun & _ & _ & Hrows & _);
        exists s'; split; [exact Hrun |];
        transitivity (handled cfg (getattr cls "oauth_callback_url" (c s1))
                              (prefix +:+ "callbackUrl"));
        [ exact (Hrows ("oauth_callback_url", Some "callbackUrl")
                   ltac:(apply (bool_decide_unpack _); vm_compute; exact I))
        | apply Hhandled; exact Hkey ]
      end.
  - intros Ht.
    destruct (oauth_loop_raises t s Ht Hauth) as (s' & Hrun & Hframe).
    rewrite Hrun. split; [reflexivity |]. split.
    + intros name. simpl. unfold getattr. apply Hframe.
      repeat (apply elem_of_cons in Ht as [-> | Ht]); [ | | | | inversion Ht ];
        discriminate.
    + unfold jupyterhub_config. rewrite run_bind.
      destruct (before_authenticator P cfg s) as [[] s1 | e s1]; [| reflexivity].
      rewrite run_bind.
      destruct (oauth_loop_raises t s1 Ht Hauth) as (s1' & Hrun1 & _).
      now rewrite Hrun1.
Qed.

End authenticator_choice.

(* ===================================================================== *)
(** ** The statements at concrete inputs *)
(* ===================================================================== *)

Section at_concrete_inputs.
Import Py Traitlets Run World Script Hook Stated Examples.

Lemma jupyterhub_traits_distinct : NoDup (jupyterhub_traits.*1).
Proof. apply (bool_decide_unpack _). vm_compute. exact I. Qed.

Lemma kubespawner_traits_distinct : NoDup (kubespawner_traits.*1).
Proof. apply (bool_decide_unpack _). vm_compute. exact I. Qed.

(** The loops of lines 81-95 and 138-174 meet the contract: every trait
    of the hub's and of the spawner's table holds the configured value when
    its key, derived from the trait's name where the table gives none, is
    present and not null, and what it held otherwise; no other trait is
    touched. *)
Lemma hub_traits_contract (cfg : value) (s : state) :
  exists s',
    hub_traits cfg s = Ok tt s' /\
    (forall row, row ∈ jupyterhub_traits ->
       getattr "JupyterHub" (fst row) (c s')
       = handled cfg (getattr "JupyterHub" (fst row) (c s)) ("hub." +:+ source_key row)) /\
    (forall k, (forall row, row ∈ jupyterhub_traits -> k ≠ ("JupyterHub", KStr (fst row))) ->
       c s' !! k = c s !! k).
Proof.
  destruct (set_traits_rows cfg "JupyterHub" "hub." jupyterhub_traits
              jupyterhub_traits_distinct s) as (s' & Hrun & _ & _ & Hrows & Hframe).
  exists s'. auto.
Qed.

Lemma spawner_traits_contract (cfg : value) (s : state) :
  exists s',
    spawner_traits cfg s = Ok tt s' /\
    getattr "Spawner" "consecutive_failure_limit" (c s')
    = handled cfg (getattr "Spawner" "consecutive_failure_limit" (c s))
              "hub.consecutiveFailureLimit" /\
    (forall row, row ∈ kubespawner_traits ->
       getattr "KubeSpawner" (fst row) (c s')
       = handled cfg (getattr "KubeSpawner" (fst row) (c s))
                 ("singleuser." +:+ source_key row)) /\
    (forall k, k ≠ ("Spawner", KStr "consecutive_failure_limit") ->
       (forall row, row ∈ kubespawner_traits -> k ≠ ("KubeSpawner", KStr (fst row))) ->
       c s' !! k = c s !! k).
Proof.
  unfold spawner_traits. rewrite run_bind.
  destruct (set_config_if_not_none_getattr cfg "Spawner" "consecutive_failure_limit"
              "hub.consecutiveFailureLimit" s) as (s1 & Hrun1 & _ & _ & Hget1 & Hframe1).
  unfold set_config_if_not_none. rewrite Hrun1.
  destruct (set_traits_rows cfg "KubeSpawner" "singleuser." kubespawner_traits
              kubespawner_traits_distinct s1) as (s' & Hrun & _ & _ & Hrows & Hframe).
  exists s'. split; [exact Hrun |]. split; [| split].
  - unfold getattr at 1. rewrite Hframe; [exact Hget1 |]. intros row _. discriminate.
  - intros row Hin. rewrite (Hrows row Hin). unfold getattr.
    rewrite Hframe1 by discriminate. reflexivity.
  - intros k Hk Hrest. rewrite Hframe by exact Hrest. now apply Hframe1.
Qed.

(** The loop at [hub: {baseUrl: /jupyter, allowNamedServers: null}], the
    hub's table taken backwards. *)
Lemma set_traits_contract_witness :
  exists s',
    set_traits hub_values "JupyterHub" "hub." (reverse jupyterhub_traits) fresh = Ok tt s' /\
    set_traits hub_values "JupyterHub" "hub." jupyterhub_traits fresh = Ok tt s' /\
    getattr "JupyterHub" "base_url" (c s') = Some (Val (VStr "/jupyter")) /\
    getattr "JupyterHub" "allow_named_servers" (c s') = None.
Proof.
  destruct (set_traits_contract hub_values "JupyterHub" "hub." jupyterhub_traits
              (reverse jupyterhub_traits) fresh)
    as (s' & Hrun' & Hrun & Hset & Hkept & _).
  - apply (bool_decide_unpack _). vm_compute. exact I.
  - apply reverse_Permutation.
  - exists s'. split; [exact Hrun' |]. split; [exact Hrun |]. split.
    + apply (Hset ("base_url", None) (VStr "/jupyter")).
      * apply (bool_decide_unpack _). vm_compute. exact I.
      * vm_compute. reflexivity.
      * discriminate.
    + transitivity (getattr "JupyterHub" "allow_named_servers" (c fresh)).
      * apply (Hkept ("allow_named_servers", None)).
        -- apply (bool_decide_unpack _). vm_compute. exact I.
        -- right. vm_compute. reflexivity.
      * vm_compute. reflexivity.
Defined.

(** C1 at [auth: {type: cilogon, cilogon: {callbackUrl: ...}}] in a fresh
    process: the branch raises, the callback URL is not assigned, and the
    script does not complete. *)
Lemma explicit_oauth_key_witness :
  Z2jh.lookup_key cilogon_values "auth.cilogon.callbackUrl"
  = Some (VStr "https://hub.example.org/hub/oauth_callback") /\
  raised (authenticator plain_platform cilogon_values fresh) = Some TypeError /\
  getattr "CILogonOAuthenticator" "oauth_callback_url"
    (c (final (authenticator plain_platform cilogon_values fresh))) = None /\
  ok (jupyterhub_config plain_platform cilogon_values fresh) = false.
Proof.
  split; [reflexivity |].
  destruct (explicit_oauth_key plain_platform cilogon_values "cilogon"
              (VStr "https://hub.example.org/hub/oauth_callback") fresh)
    as [_ Hdropped]; [reflexivity | reflexivity | discriminate |].
  destruct Hdropped as (Hraised & Hkept & Hscript); [repeat constructor |].
  split; [exact Hraised |]. split; [| exact Hscript].
  exact (Hkept "oauth_callback_url").
Defined.

(** C2 at [auth: {type: bogus}]. *)
Lemma unhandled_auth_type_witness :
  authenticator plain_platform bogus_auth fresh
  = Raise (ValueError "Unhandled auth type: 'bogus'") fresh.
Proof.
  apply (unhandled_auth_type plain_platform bogus_auth fresh). vm_compute. reflexivity.
Defined.

(** C3 at the worked example, where the profile is cached, and at a user
    whom the directory has to resolve: the hook completes, and the group
    ids are those of that user's profile. *)
Lemma spawner_config_identity_witness :
  (exists spawner',
     spawner_config no_directory VNone example_spawner = inr spawner' /\
     uid spawner' = VInt 0 /\ gid spawner' = VInt 0 /\
     fs_gid spawner' = VInt 2000 /\
     supplemental_gids spawner' = VList [VInt 2000; VInt 3000] /\
     auth_state (spawner_user spawner') = auth_state example_user) /\
  (exists spawner',
     spawner_config bob_directory VNone bob_spawner = inr spawner' /\
     uid spawner' = VInt 0 /\ gid spawner' = VInt 0 /\
     fs_gid spawner' = VInt 8 /\
     supplemental_gids spawner' = VList [VInt 9] /\
     auth_state (spawner_user spawner') = dict_of [("profile", bob_profile)]).
Proof.
  split.
  - destruct (spawner_config no_directory VNone example_spawner) as [e | spawner'] eqn:Hrun;
      [vm_compute in Hrun; discriminate |].
    destruct (spawner_config_identity no_directory VNone example_spawner spawner' Hrun)
      as (Huid & Hgid & (profile & Hp & Hg & Hm & _) & _ & _ & Hcached & _).
    specialize (Hcached example_profile eq_refl).
    rewrite Hcached in Hp. injection Hp as <-.
    injection Hg as Hg. injection Hm as Hm.
    exists spawner'. repeat split; first [assumption | symmetry; assumption].
  - destruct (spawner_config bob_directory VNone bob_spawner) as [e | spawner'] eqn:Hrun;
      [vm_compute in Hrun; discriminate |].
    destruct (spawner_config_identity bob_directory VNone bob_spawner spawner' Hrun)
      as (Huid & Hgid & (profile & Hp & Hg & Hm & _) & _ & _ & _ & Hresolved & _).
    destruct (Hresolved eq_refl) as (dn & built & _ & Hbuilt & Hstate).
    injection Hbuilt as <-. injection Hstate as Hstate.
    rewrite <- Hstate in Hp. injection Hp as <-.
    injection Hg as Hg. injection Hm as Hm.
    exists spawner'. repeat split; first [assumption | symmetry; assumption].
Defined.

(** C4 against the claim as stated: the example's user and profile, with a
    spawner whose environment already has [GRANT_SUDO]; the key is still
    there after the hook. *)
Lemma grant_sudo_survives :
  admin (spawner_user sudo_spawner) = false /\
  subscript (auth_state (spawner_user sudo_spawner)) "profile" = inr example_profile /\
  exists spawner',
    spawner_config no_directory VNone sudo_spawner = inr spawner' /\
    environment spawner' !! "GRANT_SUDO" = Some (VStr "yes").
Proof.
  split; [reflexivity |]. split; [reflexivity |].
  eexists. split; vm_compute; reflexivity.
Qed.

(** C4 as amended, at the same spawner. *)
Lemma spawner_config_example_witness :
  (exists spawner',
     spawner_config no_directory VNone sudo_spawner = inr spawner' /\
     environment spawner' !! "NB_UID" = Some (VStr "1000") /\
     environment spawner' !! "NB_GID" = Some (VStr "2000") /\
     environment spawner' !! "GRANT_SUDO" = environment sudo_spawner !! "GRANT_SUDO" /\
     environment spawner' !! "GROUP_MEMBER" = Some (VStr "2000 3000") /\
     environment spawner' !! "GROUP_BUILD" = Some (VStr "g1:2000 g2:3000")) /\
  (exists spawner',
     spawner_config no_directory VNone swapped_spawner = inr spawner' /\
     environment spawner' !! "GROUP_BUILD" = Some (VStr "g2:3000 g1:2000")).
Proof.
  split.
  - destruct (spawner_config_example no_directory VNone sudo_spawner example_profile
                [(KInt 2000, VStr "g1"); (KInt 3000, VStr "g2")])
      as (spawner' & Hrun & Hu & Hg & Hsudo & Hm & Hab & _); try reflexivity.
    exists spawner'. repeat split; try assumption. now apply Hab.
  - destruct (spawner_config_example no_directory VNone swapped_spawner swapped_profile
                [(KInt 3000, VStr "g2"); (KInt 2000, VStr "g1")])
      as (spawner' & Hrun & _ & _ & _ & _ & _ & Hba); try reflexivity.
    + apply Permutation_swap.
    + exists spawner'. split; [exact Hrun | now apply Hba].
Defined.

(** C5 at [cull: {enabled: true, users: true, timeout: 3600}], after the
    script has made [services] and [load_roles] empty lists. *)
Lemma idle_culler_service_and_role_witness :
  exists s' url,
    idle_culler plain_platform cull_values services_ready = Ok tt s' /\
    items_of (getattr "JupyterHub" "services" (c s')) = [idle_culler_service cull_values url] /\
    items_of (getattr "JupyterHub" "load_roles" (c s'))
    = [jupyterhub_idle_culler_role cull_values url] /\
    "--cull-users" ∈ cull_cmd cull_values url /\
    "admin:users" ∈ cull_scopes cull_values url.
Proof.
  destruct (idle_culler_service_and_role plain_platform cull_values services_ready)
    as [Hadded Hends]; [reflexivity |].
  destruct (Hends "/") as (s' & Hrun);
    [vm_compute; reflexivity | vm_compute; exact I | vm_compute; exact I |].
  destruct (Hadded s' Hrun) as (url & Hsvc & Hroles & _ & _ & Hcmd & Hscopes).
  exists s', url. split; [exact Hrun |]. split; [exact Hsvc |]. split; [exact Hroles |].
  assert (Hin : "--cull-users" ∈ cull_cmd cull_values url) by (apply Hcmd; reflexivity).
  split; [exact Hin | now apply Hscopes].
Defined.

(** C6 at a name of four words. *)
Lemma camelCaseify_snake_case_witness :
  camelCaseify (join "_" ["pod"; "anti"; "affinity"; "preferred"]) = "podAntiAffinityPreferred".
Proof.
  apply (proj2 (proj2 camelCaseify_snake_case) "pod" ["anti"; "affinity"; "preferred"]).
  - reflexivity.
  - repeat constructor.
Defined.



(** C8 at [matchNodePurpose: prefer] in a fresh process. *)
Lemma node_purpose_affinity_cases_witness :
  exists s',
    node_purpose_affinity prefer_values fresh = Ok tt s' /\
    items_of (getattr "KubeSpawner" "node_affinity_preferred" (c s')) = [preferred_term].
Proof.
  destruct (proj1 (proj2 (proj2 (node_purpose_affinity_cases prefer_values fresh))))
    as (s' & Hrun & Hitems & _).
  - reflexivity.
  - vm_compute. exact I.
  - exists s'. split; [exact Hrun | exact Hitems].
Defined.

(** C10 at a [hub.config] that names [JupyterHub.cookie_secret]. *)
Lemma hub_config_keeps_seeded_secrets_witness :
  getattr "JupyterHub" "cookie_secret"
    (c (final ((seeded_secrets plain_platform ;; hub_config hub_config_values) fresh)))
  = Some (Val (VStr "c00c1e")) /\
  getattr "CryptKeeper" "keys"
    (c (final ((seeded_secrets plain_platform ;; hub_config hub_config_values) fresh)))
  = Some (Val (strs ["k1"; "k2"])).
Proof.
  apply (proj1 (proj2 (hub_config_keeps_seeded_secrets plain_platform hub_config_values fresh))
           "c00c1e" "k1;k2"); reflexivity.
Defined.

(** The same [hub.config] is well formed: it is loaded to the end, and its
    ordinary trait is applied. *)
Lemma hub_config_values_applied :
  exists s',
    hub_config hub_config_values fresh = Ok tt s' /\
    getattr "JupyterHub" "admin_access" (c s') = Some (Val (VBool true)).
Proof.
  eexists. split; vm_compute; reflexivity.
Qed.

End at_concrete_inputs.
(* ===================================================================== *)
(** ** What the script needs in order to complete *)
(* ===================================================================== *)

Section environment_frame.
Import Py Traitlets Run World Script Properties.

Context {keys : list string}.

Lemma keeps_ret {A} (a : A) : keeps_environ keys (mret a : M A).
Proof. intros s k _. reflexivity. Qed.

Lemma keeps_raise {A} (e : exn) : keeps_environ keys (raise e : M A).
Proof. intros s k _. reflexivity. Qed.

Lemma keeps_try {A} (r : res A) : keeps_environ keys (try r).
Proof. intros s k _. destruct r; reflexivity. Qed.

Lemma keeps_read {A} (f : state -> A) : keeps_environ keys (read f).
Proof. intros s k _. reflexivity. Qed.

Lemma keeps_update_c (f : config -> config) : keeps_environ keys (update_c f).
Proof. intros s k _. reflexivity. Qed.

Lemma keeps_assign (cls name : string) (v : value) : keeps_environ keys (assign cls name v).
Proof. apply keeps_update_c. Qed.

Lemma keeps_print (line : string) : keeps_environ keys (print line).
Proof. intros s k _. reflexivity. Qed.

Lemma keeps_getenv (name : string) : keeps_environ keys (getenv name).
Proof. intros s k _. unfold getenv. destruct (environ s !! name); reflexivity. Qed.

Lemma keeps_putenv (name v : string) : name ∈ keys -> keeps_environ keys (putenv name v).
Proof.
  intros Hin s k Hk. simpl. apply lookup_insert_ne. intros ->. exact (Hk Hin).
Qed.

Lemma keeps_bind {A B} (m : M A) (f : A -> M B) :
  keeps_environ keys m -> (forall a, keeps_environ keys (f a)) ->
  keeps_environ keys (m ≫= f).
Proof.
  intros Hm Hf s k Hk. rewrite run_bind. specialize (Hm s k Hk).
  destruct (m s) as [a s1 | e s1]; simpl in Hm.
  - rewrite (Hf a s1 k Hk). exact Hm.
  - exact Hm.
Qed.

Lemma keeps_when (cond : bool) (body : M unit) :
  keeps_environ keys body -> keeps_environ keys (when cond body).
Proof. destruct cond; [auto | intros _; apply keeps_ret]. Qed.

Lemma keeps_for_each {A} (xs : list A) (body : A -> M unit) :
  (forall x, keeps_environ keys (body x)) -> keeps_environ keys (for_each xs body).
Proof.
  intros Hbody. induction xs as [|x xs IH]; [apply keeps_ret |].
  apply keeps_bind; auto.
Qed.

Lemma keeps_entry (cls name : string) : keeps_environ keys (entry cls name).
Proof. intros s k _. unfold entry. destruct (getattr cls name (c s)); reflexivity. Qed.

Lemma keeps_append (cls name : string) (x : value) : keeps_environ keys (append cls name x).
Proof.
  unfold append, store.
  apply keeps_bind; [apply keeps_entry | intros a].
  apply keeps_bind; [apply keeps_try | intros a']. apply keeps_update_c.
Qed.

Lemma keeps_extend (cls name : string) (xs : value) : keeps_environ keys (extend cls name xs).
Proof.
  unfold extend, store.
  apply keeps_bind; [apply keeps_entry | intros a].
  apply keeps_bind; [apply keeps_try | intros _].
  apply keeps_bind; [apply keeps_try | intros l].
  apply keeps_bind; [apply keeps_try | intros a']. apply keeps_update_c.
Qed.

Lemma keeps_setitem (cls name k : string) (v : value) :
  keeps_environ keys (setitem cls name k v).
Proof.
  unfold setitem, store.
  apply keeps_bind; [apply keeps_read | intros a].
  destruct a as [[[]|]|]; first [apply keeps_update_c | apply keeps_raise].
Qed.

Lemma keeps_own (name : string) : keeps_environ keys (own name).
Proof. intros s k _. unfold own. destruct (names s !! name); reflexivity. Qed.

Lemma keeps_imports : keeps_environ keys imports.
Proof. intros s k _. reflexivity. Qed.

Lemma keeps_set_config_if_not_none (cfg : value) (cls name key : string) :
  keeps_environ keys (set_config_if_not_none cfg cls name key).
Proof.
  unfold set_config_if_not_none, Z2jh.set_config_if_not_none.
  destruct (Z2jh.get_config cfg key VNone); first [apply keeps_ret | apply keeps_assign].
Qed.

Lemma keeps_set_traits (cfg : value) (cls prefix : string) (table : list (string * option string)) :
  keeps_environ keys (set_traits cfg cls prefix table).
Proof. apply keeps_for_each. intros row. apply keeps_set_config_if_not_none. Qed.

End environment_frame.

(** Taking a chain of statements apart, one at a time. *)
Ltac keeps :=
  repeat first
    [ apply keeps_set_traits
    | apply keeps_set_config_if_not_none
    | apply keeps_assign
    | apply keeps_append
    | apply keeps_extend
    | apply keeps_setitem
    | apply keeps_try
    | apply keeps_read
    | apply keeps_print
    | apply keeps_ret
    | apply keeps_raise
    | apply keeps_getenv
    | apply keeps_when
    | apply keeps_bind; [| intros ?]
    | progress cbv zeta
    | match goal with
      | |- Properties.keeps_environ _ (if ?b then _ else _) => destruct b
      | |- Properties.keeps_environ _ (match ?x with _ => _ end) => destruct x
      end ].

(** A string that is none of those listed. *)
Ltac not_listed :=
  let Hin := fresh "Hin" in
  intros Hin; repeat (apply elem_of_cons in Hin as [Hin | Hin]; [discriminate Hin |]);
  inversion Hin.

Section mandatory_inputs.
Import Py Traitlets Run World Script Properties.

Variable P : platform.
Variable cfg : value.

Lemma ok_bind {A B} (m : M A) (f : A -> M B) (s : state) :
  ok ((m ≫= f) s) = true -> exists a s1, m s = Ok a s1 /\ ok (f a s1) = true.
Proof. rewrite run_bind. destruct (m s) as [a s1 | e s1]; [eauto | discriminate]. Qed.

Lemma password_variables :
  keeps_environ ["MYSQL_PWD"; "PGPASSWORD"] (hub_db P cfg).
Proof.
  unfold hub_db. keeps; apply keeps_putenv; repeat constructor.
Qed.

(** One statement of a chain done: the rest runs in a state with the same
    environment. *)
Lemma keeps_step (keys : list string) (m rest : M unit) (s : state) :
  keeps_environ keys m ->
  (exists s0, ok ((m ;; rest) s0) = true /\
              forall k, k ∉ keys -> environ s0 !! k = environ s !! k) ->
  exists s1, ok (rest s1) = true /\
             forall k, k ∉ keys -> environ s1 !! k = environ s !! k.
Proof.
  intros Hm (s0 & Hok & Henv). apply ok_bind in Hok as (a & s1 & Hrun & Hok).
  exists s1. split; [exact Hok |]. intros k Hk. rewrite <- (Henv k Hk).
  specialize (Hm s0 k Hk). now rewrite Hrun in Hm.
Qed.

(** Everything before [hub_connect] leaves the environment alone, but for
    the two password variables. *)
Lemma environment_until_hub_connect (s : state) :
  ok (before_authenticator P cfg s) = true ->
  exists s1, ok (hub_connect P s1) = true /\
    forall k, k ∉ ["MYSQL_PWD"; "PGPASSWORD"] -> environ s1 !! k = environ s !! k.
Proof.
  intros Hok.
  assert (H : exists s0, ok (before_authenticator P cfg s0) = true /\
    forall k, k ∉ ["MYSQL_PWD"; "PGPASSWORD"] -> environ s0 !! k = environ s !! k)
    by (exists s; auto).
  clear Hok. unfold before_authenticator in H.
  apply keeps_step in H; [| apply keeps_imports].
  apply keeps_step in H; [| unfold hub_defaults; keeps].
  apply keeps_step in H; [| apply password_variables].
  apply keeps_step in H; [| unfold hub_traits; keeps].
  apply keeps_step in H; [| unfold hub_urls; keeps].
  apply keeps_step in H; [| unfold common_labels; keeps].
  apply keeps_step in H; [| unfold spawner_traits; keeps].
  apply keeps_step in H; [| unfold singleuser_image; keeps].
  apply keeps_step in H; [| unfold allow_privilege_escalation; keeps].
  apply keeps_step in H; [| unfold image_pull_secrets; keeps].
  apply keeps_step in H; [| unfold scheduling; keeps].
  apply keeps_step in H; [| unfold node_purpose_affinity; keeps].
  apply keeps_step in H; [| unfold tolerations; keeps].
  apply keeps_step in H; [| unfold storage; keeps].
  apply keeps_step in H; [| unfold extra_files; keeps].
  apply keeps_step in H; [| unfold extra_volumes; keeps].
  exact H.
Qed.

Lemma hub_connect_ok (s : state) :
  ok (hub_connect P s) = true ->
  is_Some (environ s !! "HUB_SERVICE_HOST") /\ is_Some (environ s !! "HUB_SERVICE_PORT").
Proof.
  unfold hub_connect, getenv. rewrite run_bind.
  destruct (environ s !! "HUB_SERVICE_HOST") as [host |]; [| discriminate].
  rewrite run_bind, run_assign, run_bind. simpl environ.
  destruct (environ s !! "HUB_SERVICE_PORT") as [port |]; [eauto | discriminate].
Qed.

Lemma authenticator_ok (s : state) :
  ok (authenticator P cfg s) = true ->
  exists t, auth_type cfg = VStr t /\ t ∈ working_auth_types.
Proof.
  unfold authenticator, working_auth_types.
  destruct (auth_type cfg) as [| | | t | | |]; try discriminate.
  intros H. exists t. split; [reflexivity |]. revert H. unfold eq_str.
  repeat match goal with
         | |- context [String.eqb t ?lit] =>
           let E := fresh "E" in
           destruct (String.eqb t lit) eqn:E;
           [apply String.eqb_eq in E; subst t; first [discriminate | intros _; repeat constructor] |]
         end.
  discriminate.
Qed.

(** X1. The script runs to its end only if the environment names the hub's
    service ([HUB_SERVICE_HOST], [HUB_SERVICE_PORT]), [singleuser.cloudMetadata]
    is a mapping, the cookie secret and the CryptKeeper keys are mounted, and
    [auth.type] is one of the eight types whose branch can complete. *)
Theorem script_needs (s : state) :
  ok (jupyterhub_config P cfg s) = true ->
  is_Some (environ s !! "HUB_SERVICE_HOST") /\
  is_Some (environ s !! "HUB_SERVICE_PORT") /\
  (exists d, get_config cfg "singleuser.cloudMetadata" VNone = VDict d) /\
  is_Some (secret P "hub.config.JupyterHub.cookie_secret") /\
  is_Some (secret P "hub.config.CryptKeeper.keys") /\
  exists t, auth_type cfg = VStr t /\ t ∈ working_auth_types.
Proof.
  unfold jupyterhub_config. intros Hok.
  apply ok_bind in Hok as ([] & s1 & Hbefore & Hok).
  apply ok_bind in Hok as ([] & s2 & Hauth & Hok).
  assert (Hb : ok (before_authenticator P cfg s) = true) by now rewrite Hbefore.
  apply environment_until_hub_connect in Hb as (s0 & Hconnect & Henv).
  apply hub_connect_ok in Hconnect as [Hhost Hport].
  rewrite Henv in Hhost by not_listed. rewrite Henv in Hport by not_listed.
  split; [exact Hhost |]. split; [exact Hport |].
  assert (Ha : ok (authenticator P cfg s1) = true) by now rewrite Hauth.
  apply authenticator_ok in Ha.
  unfold after_authenticator in Hok.
  do 6 (apply ok_bind in Hok as ([] & ? & _ & Hok)).
  apply ok_bind in Hok as ([] & ? & Hcloud & Hok).
  apply ok_bind in Hok as ([] & ? & _ & Hok).
  apply ok_bind in Hok as ([] & ? & Hseeded & _).
  split.
  { revert Hcloud. unfold cloud_metadata. cbv zeta. rewrite run_bind.
    destruct (get_config cfg "singleuser.cloudMetadata" VNone); try discriminate. eauto. }
  split; [| split; [| exact Ha]].
  - revert Hseeded. unfold seeded_secrets, get_secret_value, Z2jh.get_secret_value.
    rewrite run_bind.
    destruct (secret P "hub.config.JupyterHub.cookie_secret"); [eauto | discriminate].
  - revert Hseeded. unfold seeded_secrets, get_secret_value, Z2jh.get_secret_value.
    rewrite run_bind.
    destruct (secret P "hub.config.JupyterHub.cookie_secret"); [| discriminate].
    rewrite run_ret, run_bind, run_assign, run_bind.
    destruct (secret P "hub.config.CryptKeeper.keys"); [eauto | discriminate].
Qed.

End mandatory_inputs.

(* ===================================================================== *)
(** ** Splitting and joining; the key derivation once more *)
(* ===================================================================== *)

Section strings.
Import Py Script Words Properties.

Lemma split_cons (sep : ascii) (s : string) : exists w ws, split sep s = w :: ws.
Proof.
  induction s as [|a s (w & ws & IH)]; simpl; [eauto |].
  destruct (Ascii.eqb a sep); [eauto |]. rewrite IH. eauto.
Qed.

(** [sep.join(s.split(sep)) == s]. *)
Lemma join_split (sep : ascii) (s : string) : join (String sep "") (split sep s) = s.
Proof.
  induction s as [|a s IH]; [reflexivity |].
  simpl split. destruct (split_cons sep s) as (w & ws & Hs). rewrite Hs in *.
  destruct (Ascii.eqb a sep) eqn:Ha.
  - apply Ascii.eqb_eq in Ha as ->.
    change (join (String sep "") ("" :: w :: ws))
      with ("" +:+ String sep "" +:+ join (String sep "") (w :: ws)).
    now rewrite IH.
  - rewrite join_cons in *. rewrite app_String. now rewrite IH.
Qed.

(** No piece holds the separator. *)
Lemma split_pieces (sep : ascii) (s : string) :
  Forall (fun w => mem_char sep w = false) (split sep s).
Proof.
  induction s as [|a s IH]; simpl; [repeat constructor |].
  destruct (Ascii.eqb a sep) eqn:Ha; [constructor; [reflexivity | exact IH] |].
  destruct (split sep s) as [|w ws]; [repeat constructor; unfold mem_char; simpl;
    rewrite Ascii.eqb_sym, Ha; reflexivity |].
  inversion IH as [|? ? Hw Hws]; subst. constructor; [| exact Hws].
  unfold mem_char in *. simpl. now rewrite Ascii.eqb_sym, Ha.
Qed.

Lemma append_assoc (s t u : string) : (s +:+ t) +:+ u = s +:+ t +:+ u.
Proof. induction s as [|a s IH]; [reflexivity | now rewrite !app_String, IH]. Qed.

(** The last piece is what follows the last separator. *)
Lemma join_snoc (sep : string) (ws : list string) (w x : string) :
  join sep ((w :: ws) ++ [x]) = join sep (w :: ws) +:+ sep +:+ x.
Proof.
  revert w. induction ws as [|y ws IH]; intros w; [reflexivity |].
  change (join sep ((w :: y :: ws) ++ [x]))
    with (w +:+ sep +:+ join sep ((y :: ws) ++ [x])).
  rewrite IH.
  change (join sep (w :: y :: ws)) with (w +:+ sep +:+ join sep (y :: ws)).
  now rewrite !append_assoc.
Qed.

Lemma last_split (sep : ascii) (s : string) :
  let x := List.last (split sep s) "" in
  mem_char sep x = false /\
  (s = x \/ exists before, s = before +:+ String sep "" +:+ x).
Proof.
  cbv zeta. pose proof (join_split sep s) as Hjoin. pose proof (split_pieces sep s) as Hall.
  destruct (split_cons sep s) as (w & ws & Hs). rewrite Hs in *.
  destruct (exists_last (l := w :: ws)) as (init & x & Hinit); [discriminate |].
  rewrite Hinit in *. rewrite List.last_last.
  split.
  - apply Forall_app in Hall as [_ Hx]. now inversion Hx.
  - destruct init as [|w' init]; [left; now rewrite <- Hjoin |].
    right. exists (join (String sep "") (w' :: init)).
    rewrite <- Hjoin. apply join_snoc.
Qed.

Lemma upper_of_lower (a : ascii) :
  is_lower a = true -> is_lower (upper a) = false /\ Ascii.eqb (upper a) "_"%char = false.
Proof.
  destruct a as [[] [] [] [] [] [] [] []]; intros H; try discriminate H;
    split; reflexivity.
Qed.

(** The first character of what [camelCaseify] gives: the string's own, or
    a letter it has put in upper case. *)
Lemma camelCaseify_head (b : ascii) (s : string) :
  exists h t, camelCaseify (String b s) = String h t /\
    (h = b \/ exists a, is_lower a = true /\ h = upper a).
Proof.
  destruct s as [|b' s]; simpl; [eauto |].
  destruct (Ascii.eqb b "_"%char && is_lower b') eqn:Hsep.
  - apply andb_true_iff in Hsep as [_ Hl].
    eexists _, _. split; [reflexivity |]. right. now exists b'.
  - eexists _, _. split; [reflexivity |]. now left.
Qed.

Lemma camelCaseify_settled_upto (n : nat) (s : string) :
  String.length s <= n -> has_separator (camelCaseify s) = false.
Proof.
  revert s. induction n as [|n IH]; intros s Hlen.
  - destruct s; [reflexivity | simpl in Hlen; lia].
  - destruct s as [|a [|b s]]; [reflexivity | reflexivity |].
    simpl in Hlen.
    change (camelCaseify (String a (String b s)))
      with (if Ascii.eqb a "_"%char && is_lower b
            then String (upper b) (camelCaseify s)
            else String a (camelCaseify (String b s))).
    destruct (Ascii.eqb a "_"%char && is_lower b) eqn:Hsep.
    + apply andb_true_iff in Hsep as [_ Hl].
      apply upper_of_lower in Hl as [_ Hu].
      assert (Hs : has_separator (camelCaseify s) = false) by (apply IH; lia).
      simpl. destruct (camelCaseify s); [reflexivity |]. now rewrite Hu.
    + assert (Hs : has_separator (camelCaseify (String b s)) = false)
        by (apply IH; simpl; lia).
      destruct (camelCaseify_head b s) as (h & t & Hc & Hh). rewrite Hc in *.
      change (has_separator (String a (String h t)))
        with ((Ascii.eqb a "_"%char && is_lower h) || has_separator (String h t)).
      rewrite Hs, orb_false_r.
      destruct (Ascii.eqb a "_"%char); [simpl in * | reflexivity].
      destruct Hh as [-> | (a' & Hl & ->)]; [exact Hsep |].
      now apply upper_of_lower in Hl as [Hl' _].
Qed.

Lemma camelCaseify_settled_upto_id (n : nat) (s : string) :
  String.length s <= n -> has_separator s = false -> camelCaseify s = s.
Proof.
  revert s. induction n as [|n IH]; intros s Hlen Hs.
  - destruct s; [reflexivity | simpl in Hlen; lia].
  - destruct s as [|a [|b s]]; [reflexivity | reflexivity |].
    simpl in Hlen.
    change (has_separator (String a (String b s)))
      with ((Ascii.eqb a "_"%char && is_lower b) || has_separator (String b s)) in Hs.
    apply orb_false_iff in Hs as [Hsep Hs].
    change (camelCaseify (String a (String b s)))
      with (if Ascii.eqb a "_"%char && is_lower b
            then String (upper b) (camelCaseify s)
            else String a (camelCaseify (String b s))).
    rewrite Hsep. f_equal. apply IH; [simpl; lia | exact Hs].
Qed.

(** X2. What [camelCaseify] gives has no underscore followed by a letter of
    [a-z] left, a string without one is given back as it is, and so
    deriving a key from a derived key changes nothing. *)
Theorem camelCaseify_idempotent (s : string) :
  has_separator (camelCaseify s) = false /\
  (has_separator s = false <-> camelCaseify s = s) /\
  camelCaseify (camelCaseify s) = camelCaseify s.
Proof.
  assert (Hsettled : has_separator (camelCaseify s) = false)
    by (apply (camelCaseify_settled_upto (String.length s)); lia).
  split; [exact Hsettled |]. split.
  - split.
    + apply (camelCaseify_settled_upto_id (String.length s)). lia.
    + intros Heq. now rewrite <- Heq.
  - apply (camelCaseify_settled_upto_id (String.length (camelCaseify s))); [lia | exact Hsettled].
Qed.

End strings.

(* ===================================================================== *)
(** ** Secrets, the database password, the labels *)
(* ===================================================================== *)

Section secrets_and_labels.
Import Py Traitlets Run World Script Stated Properties.

Variable P : platform.
Variable cfg : value.

Lemma eq_str_true (v : value) (t : string) : eq_str v t = true -> v = VStr t.
Proof.
  destruct v; try discriminate. simpl. intros H. apply String.eqb_eq in H. now subst.
Qed.

Lemma eq_str_refl (t : string) : eq_str (VStr t) t = true.
Proof. apply String.eqb_refl. Qed.

(** X3. With both seeded secrets mounted, the cookie secret is assigned as
    it is and [CryptKeeper.keys] gets the pieces of the other between
    semicolons: at least one, none with a semicolon in it, and joined by
    semicolons they give the mounted string back. *)
Theorem crypt_keeper_keys (s : state) (cookie_secret keys : string) :
  secret P "hub.config.JupyterHub.cookie_secret" = Some cookie_secret ->
  secret P "hub.config.CryptKeeper.keys" = Some keys ->
  exists ks s',
    seeded_secrets P s = Ok tt s' /\
    getattr "JupyterHub" "cookie_secret" (c s') = Some (Val (VStr cookie_secret)) /\
    getattr "CryptKeeper" "keys" (c s') = Some (Val (strs ks)) /\
    join ";" ks = keys /\ ks ≠ [] /\ Forall (fun k => mem_char ";"%char k = false) ks.
Proof.
  intros Hcookie Hkeys. exists (split ";"%char keys). eexists. split.
  - unfold seeded_secrets, get_secret_value, Z2jh.get_secret_value.
    rewrite Hcookie, Hkeys. reflexivity.
  - simpl. unfold getattr, setattr.
    rewrite lookup_insert_eq, lookup_insert_ne, lookup_insert_eq by discriminate.
    repeat split; [apply join_split | | apply split_pieces].
    destruct (split_cons ";"%char keys) as (w & ws & ->). discriminate.
Qed.


Lemma replace_char_gone (old : ascii) (new s : string) :
  mem_char old new = false -> mem_char old (replace_char old new s) = false.
Proof.
  unfold mem_char. intros Hnew. induction s as [|a s IH]; [reflexivity |].
  simpl. destruct (Ascii.eqb a old) eqn:Ha.
  - assert (Happ : forall t u, list_ascii_of_string (t +:+ u)
                     = list_ascii_of_string t ++ list_ascii_of_string u).
    { intros t u. induction t as [|b t IHt]; [reflexivity |].
      rewrite app_String. simpl. now rewrite IHt. }
    rewrite Happ, existsb_app, Hnew, IH. reflexivity.
  - rewrite app_String, app_empty_l. simpl. now rewrite Ascii.eqb_sym, Ha, IH.
Qed.

Lemma run_setitem (cls name k : string) (v : value) (d : dict) (s : state) :
  getattr cls name (c s) = Some (Val (VDict d)) ->
  setitem cls name k v s = Ok tt (with_c (setattr cls name (VDict (dict_set (KStr k) v d))) s).
Proof. intros Hd. unfold setitem. rewrite run_bind. simpl. now rewrite Hd. Qed.

(** X5. The common labels, with a chart name and a chart version that is a
    non-empty string: the labels are a fresh dict with [app], [heritage]
    and [chart]; the chart label is the name, a dash and the version with
    every plus sign replaced by an underscore, so that no plus sign of the
    version is left in it; [release] is there exactly when a release name
    is given. *)
Theorem common_labels_chart (s : state) (version : string) :
  truthy (get_config cfg "Chart.Name" VNone) = true ->
  get_config cfg "Chart.Version" VNone = VStr version -> version ≠ "" ->
  exists labels s',
    common_labels cfg s = Ok tt s' /\
    getattr "KubeSpawner" "common_labels" (c s') = Some (Val (VDict labels)) /\
    dict_get (KStr "heritage") labels = Some (VStr "jupyterhub") /\
    dict_get (KStr "app") labels
      = Some (get_config cfg "nameOverride" (get_config cfg "Chart.Name" (VStr "jupyterhub"))) /\
    dict_get (KStr "chart") labels
      = Some (VStr (str (get_config cfg "Chart.Name" VNone) +:+ "-"
                    +:+ replace_char "+"%char "_" version)) /\
    mem_char "+"%char (replace_char "+"%char "_" version) = false /\
    dict_get (KStr "release") labels
      = (if truthy (get_config cfg "Release.Name" VNone)
         then Some (get_config cfg "Release.Name" VNone) else None).
Proof.
  intros Hname Hversion Hne. unfold common_labels. cbv zeta.
  rewrite Hname, Hversion.
  assert (Ht : truthy (VStr version) = true).
  { simpl. apply negb_true_iff, String.eqb_neq. exact Hne. }
  rewrite Ht. simpl andb. unfold when.
  rewrite run_bind, run_assign. cbv beta iota.
  do 2 (rewrite run_bind; erewrite run_setitem by apply getattr_setattr; cbv beta iota).
  rewrite run_bind, run_bind, run_ret. cbv beta iota.
  erewrite run_setitem by apply getattr_setattr. cbv beta iota.
  rewrite run_bind.
  destruct (truthy (get_config cfg "Release.Name" VNone)) eqn:Hrelease;
    [erewrite run_setitem by apply getattr_setattr | rewrite run_ret];
    (eexists _, _; split; [reflexivity |]); simpl;
    unfold getattr, setattr; rewrite lookup_insert_ne, lookup_insert_eq by discriminate;
    (split; [reflexivity |]); simpl;
    repeat split; now apply replace_char_gone.
Qed.

End secrets_and_labels.

(* ===================================================================== *)
(** ** Volumes and mounts *)
(* ===================================================================== *)

Section volumes.
Import Py Traitlets Run World Script Stated Properties.

Variable P : platform.
Variable cfg : value.

Local Abbreviation volumes s := (getattr "KubeSpawner" "volumes" (c s)).
Local Abbreviation volume_mounts s := (getattr "KubeSpawner" "volume_mounts" (c s)).

Lemma run_extend (cls name : string) (l : list value) (s : state) :
  holds_list (getattr cls name (c s)) ->
  exists s', extend cls name (VList l) s = Ok tt s' /\
    items_of (getattr cls name (c s')) = items_of (getattr cls name (c s)) ++ l /\
    holds_list (getattr cls name (c s')) /\
    (forall k, k ≠ (cls, KStr name) -> c s' !! k = c s !! k) /\
    environ s' = environ s /\ log s' = log s.
Proof.
  unfold extend, entry, holds_list, getattr. intros Hl.
  rewrite run_bind.
  destruct (c s !! (cls, KStr name)) as [[v | l0] |] eqn:Hc.
  - destruct v; try contradiction.
    eexists. split; [reflexivity |]. simpl.
    rewrite lookup_insert_eq. repeat split; auto.
    intros k Hk. now apply lookup_insert_ne.
  - eexists. split; [reflexivity |]. simpl.
    rewrite lookup_insert_eq. repeat split; auto.
    intros k Hk. now apply lookup_insert_ne.
  - eexists. split; [reflexivity |]. simpl.
    rewrite lookup_insert_eq. repeat split; auto.
    intros k Hk. rewrite !lookup_insert_ne by congruence. reflexivity.
Qed.

Lemma map_res_Forall2 {A B} (f : A -> res B) (R : A -> B -> Prop) (l : list A) :
  Forall (fun x => exists y, f x = inr y /\ R x y) l ->
  exists ys, map_res f l = inr ys /\ Forall2 R l ys.
Proof.
  induction 1 as [|x l (y & Hy & HR) _ (ys & Hys & HRs)]; simpl.
  - exists []. split; [reflexivity | constructor].
  - rewrite Hy, Hys. exists (y :: ys). split; [reflexivity | now constructor].
Qed.

Lemma extra_file_item_run (file : key * value) :
  mounted_file file -> exists item, extra_file_item file = inr item /\ file_item file item.
Proof.
  intros (details & mount_path & Hd & _). destruct file as [k v]. simpl in Hd. subst v.
  unfold extra_file_item, file_item. simpl.
  destruct (dict_get (KStr "mode") details) as [mode |] eqn:Hmode.
  - rewrite bool_decide_eq_true_2 by eauto. simpl.
    eexists. split; [reflexivity |]. simpl. auto.
  - rewrite bool_decide_eq_false_2 by (intros [? ?]; discriminate). simpl.
    eexists. split; [reflexivity |]. simpl. auto.
Qed.

Lemma extra_file_mount_run (file : key * value) :
  mounted_file file -> exists mount, extra_file_mount file = inr mount /\ file_mount file mount.
Proof.
  intros (details & mount_path & Hd & Hpath). destruct file as [k v]. simpl in Hd. subst v.
  unfold extra_file_mount, file_mount. simpl. rewrite Hpath. simpl.
  eexists. split; [reflexivity |]. simpl. auto.
Qed.

(** The home volume and its mount. *)
Lemma storage_run (s : state) :
  let storage_type := get_config cfg "singleuser.storage.type" VNone in
  storage_type = VStr "dynamic" \/ storage_type = VStr "static" ->
  exists volume mount s',
    storage cfg s = Ok tt s' /\
    volumes s' = Some (Val (VList [volume])) /\
    volume_mounts s' = Some (Val (VList [mount])) /\
    subscript mount "name" = subscript volume "name" /\
    subscript volume "name"
      = inr (if eq_str storage_type "dynamic"
             then get_config cfg "singleuser.storage.dynamic.volumeNameTemplate" VNone
             else VStr "home") /\
    (claim ← subscript volume "persistentVolumeClaim"; subscript claim "claimName")
      = inr (if eq_str storage_type "dynamic"
             then get_config cfg "singleuser.storage.dynamic.pvcNameTemplate" VNone
             else get_config cfg "singleuser.storage.static.pvcName" VNone) /\
    subscript mount "mountPath" = inr (get_config cfg "singleuser.storage.homeMountPath" VNone) /\
    environ s' = environ s /\ log s' = log s.
Proof.
  cbv zeta. unfold storage. intros [Htype | Htype]; rewrite Htype.
  - change (eq_str (VStr "dynamic") "dynamic") with true. cbv iota zeta.
    repeat match goal with
           | |- context [get_config cfg ?k ?d] => generalize (get_config cfg k d); intro
           end.
    do 2 (rewrite run_bind, run_assign; cbv beta iota).
    rewrite run_bind.
    match goal with
    | |- context [set_config_if_not_none cfg "KubeSpawner" "storage_class" _ ?s0] =>
      destruct (set_config_if_not_none_getattr cfg "KubeSpawner" "storage_class"
                  "singleuser.storage.dynamic.storageClass" s0)
        as (s3 & Hrun3 & Henv3 & Hlog3 & _)
    end.
    destruct (set_config_if_not_none_getattr cfg "KubeSpawner" "storage_access_modes"
                "singleuser.storage.dynamic.storageAccessModes" s3)
      as (s4 & Hrun4 & Henv4 & Hlog4 & _).
    destruct (set_config_if_not_none_getattr cfg "KubeSpawner" "storage_capacity"
                "singleuser.storage.capacity" s4)
      as (s5 & Hrun5 & Henv5 & Hlog5 & _).
    unfold set_config_if_not_none.
    rewrite Hrun3, run_bind, Hrun4, run_bind, Hrun5.
    rewrite run_bind, run_assign; cbv beta iota. rewrite run_assign.
    eexists _, _, _. split; [reflexivity |].
    cbn [c environ log with_c]. unfold getattr, setattr.
    rewrite lookup_insert_ne, !lookup_insert_eq by discriminate.
    split; [reflexivity |]. split; [reflexivity |].
    split; [| split; [| split; [| split; [| split]]]]; try reflexivity.
    + now rewrite Henv5, Henv4, Henv3.
    + now rewrite Hlog5, Hlog4, Hlog3.
  - change (eq_str (VStr "static") "dynamic") with false.
    change (eq_str (VStr "static") "static") with true. cbv iota zeta.
    repeat match goal with
           | |- context [get_config cfg ?k ?d] => generalize (get_config cfg k d); intro
           end.
    rewrite run_bind, run_assign; cbv beta iota. rewrite run_assign.
    eexists _, _, _. split; [reflexivity |].
    cbn [c environ log with_c]. unfold getattr, setattr.
    rewrite lookup_insert_ne, !lookup_insert_eq by discriminate.
    repeat split; reflexivity.
Qed.

(** X6. The home volume. For the storage types [dynamic] and [static] the
    script sets [volumes] and [volume_mounts] to one entry each, whatever
    they held, and the mount names its volume: the volume name template or
    ["home"]; the claim is the PVC name template or the static PVC name.
    For any other type this part changes nothing. *)
Theorem storage_home_volume (s : state) :
  let storage_type := get_config cfg "singleuser.storage.type" VNone in
  (storage_type = VStr "dynamic" \/ storage_type = VStr "static" ->
   exists volume mount s',
     storage cfg s = Ok tt s' /\
     volumes s' = Some (Val (VList [volume])) /\
     volume_mounts s' = Some (Val (VList [mount])) /\
     subscript mount "name" = subscript volume "name" /\
     subscript volume "name"
       = inr (if eq_str storage_type "dynamic"
              then get_config cfg "singleuser.storage.dynamic.volumeNameTemplate" VNone
              else VStr "home") /\
     (claim ← subscript volume "persistentVolumeClaim"; subscript claim "claimName")
       = inr (if eq_str storage_type "dynamic"
              then get_config cfg "singleuser.storage.dynamic.pvcNameTemplate" VNone
              else get_config cfg "singleuser.storage.static.pvcName" VNone) /\
     subscript mount "mountPath"
       = inr (get_config cfg "singleuser.storage.homeMountPath" VNone)) /\
  (storage_type ≠ VStr "dynamic" -> storage_type ≠ VStr "static" -> storage cfg s = Ok tt s).
Proof.
  cbv zeta. split.
  - intros Htype.
    destruct (storage_run s Htype)
      as (volume & mount & s' & Hrun & Hv & Hm & Hname & Hvn & Hclaim & Hpath & _).
    exists volume, mount, s'. auto 10.
  - intros Hd Hs. unfold storage. now rewrite !eq_str_ne.
Qed.

(** The files volume and the mounts of the files. *)
Lemma extra_files_run (s : state) (files : dict) (name : string) :
  get_config cfg "singleuser.extraFiles" (VDict []) = VDict files -> files ≠ [] ->
  Forall mounted_file files ->
  get_name P "singleuser" = inr name ->
  holds_list (volumes s) -> holds_list (volume_mounts s) ->
  exists volume items mounts s',
    extra_files P cfg s = Ok tt s' /\
    items_of (volumes s') = items_of (volumes s) ++ [volume] /\
    items_of (volume_mounts s') = items_of (volume_mounts s) ++ mounts /\
    holds_list (volumes s') /\ holds_list (volume_mounts s') /\
    subscript volume "name" = inr (VStr "files") /\
    (secret ← subscript volume "secret"; subscript secret "secretName") = inr (VStr name) /\
    (secret ← subscript volume "secret"; subscript secret "items") = inr (VList items) /\
    Forall2 file_item files items /\
    Forall2 file_mount files mounts /\
    (forall k, k ≠ ("KubeSpawner", KStr "volumes") -> k ≠ ("KubeSpawner", KStr "volume_mounts") ->
               c s' !! k = c s !! k) /\
    environ s' = environ s /\ log s' = log s.
Proof.
  intros Hfiles Hne Hall Hname Hv Hm. unfold extra_files. cbv zeta. rewrite Hfiles.
  assert (Ht : truthy (VDict files) = true) by (destruct files; [contradiction | reflexivity]).
  rewrite Ht. unfold when. simpl items.
  destruct (map_res_Forall2 extra_file_item file_item files) as (items & Hitems & HRi).
  { eapply Forall_impl; [exact Hall |]. apply extra_file_item_run. }
  destruct (map_res_Forall2 extra_file_mount file_mount files) as (mounts & Hmounts & HRm).
  { eapply Forall_impl; [exact Hall |]. apply extra_file_mount_run. }
  rewrite run_bind. simpl try at 1. cbv beta iota.
  rewrite run_bind, Hitems. simpl try at 1. cbv beta iota.
  rewrite run_bind, Hname. simpl try at 1. cbv beta iota.
  match goal with
  | |- context [append "KubeSpawner" "volumes" ?v] =>
    destruct (run_append "KubeSpawner" "volumes" v s Hv)
      as (s1 & Hrun1 & Hitems1 & Hl1 & Hframe1 & Henv1 & Hlog1)
  end.
  rewrite run_bind, Hrun1. rewrite run_bind, Hmounts. simpl try at 1. cbv beta iota.
  assert (Hm1 : holds_list (volume_mounts s1)).
  { unfold getattr. now rewrite Hframe1 by discriminate. }
  destruct (run_extend "KubeSpawner" "volume_mounts" mounts s1 Hm1)
    as (s2 & Hrun2 & Hitems2 & Hl2 & Hframe2 & Henv2 & Hlog2).
  eexists _, items, mounts, s2. split; [exact Hrun2 |].
  split; [| split; [| split; [| split; [exact Hl2 |]]]].
  - unfold getattr. rewrite Hframe2 by discriminate. exact Hitems1.
  - rewrite Hitems2. unfold getattr. now rewrite Hframe1 by discriminate.
  - unfold getattr. rewrite Hframe2 by discriminate. exact Hl1.
  - repeat split; try assumption; try congruence.
    intros k Hk1 Hk2. now rewrite Hframe2, Hframe1.
Qed.

(** X7. The extra files. With [singleuser.extraFiles] a non-empty mapping
    whose entries each give a [mountPath]: one volume named [files] is added
    to [volumes], backed by the chart's secret, with one item per file in
    the mapping's order (key and path the file's key, the mode only when the
    entry gives one); and one mount per file is added to [volume_mounts], in
    the same order, each on the [files] volume with the file's key as
    sub-path and the entry's mount path. Nothing else changes. *)
Theorem extra_files_volume (s : state) (files : dict) (name : string) :
  get_config cfg "singleuser.extraFiles" (VDict []) = VDict files -> files ≠ [] ->
  Forall mounted_file files ->
  get_name P "singleuser" = inr name ->
  holds_list (volumes s) -> holds_list (volume_mounts s) ->
  exists volume items mounts s',
    extra_files P cfg s = Ok tt s' /\
    items_of (volumes s') = items_of (volumes s) ++ [volume] /\
    items_of (volume_mounts s') = items_of (volume_mounts s) ++ mounts /\
    subscript volume "name" = inr (VStr "files") /\
    (secret ← subscript volume "secret"; subscript secret "secretName") = inr (VStr name) /\
    (secret ← subscript volume "secret"; subscript secret "items") = inr (VList items) /\
    Forall2 file_item files items /\
    Forall2 file_mount files mounts /\
    (forall k, k ≠ ("KubeSpawner", KStr "volumes") -> k ≠ ("KubeSpawner", KStr "volume_mounts") ->
               c s' !! k = c s !! k) /\
    environ s' = environ s /\ log s' = log s.
Proof.
  intros Hfiles Hne Hall Hname Hv Hm.
  destruct (extra_files_run s files name Hfiles Hne Hall Hname Hv Hm)
    as (volume & items & mounts & s' & H1 & H2 & H3 & _ & _ & H4).
  exists volume, items, mounts, s'. auto.
Qed.

End volumes.

(* ===================================================================== *)
(** ** Services, and the authenticators with a list of traits *)
(* ===================================================================== *)

Section services.
Import Py Traitlets Run World Script Stated Properties.

Variable P : platform.
Variable cfg : value.

Lemma dict_get_app (k : key) (d1 d2 : dict) :
  dict_get k (d1 ++ d2) = match dict_get k d1 with
                          | Some v => Some v
                          | None => dict_get k d2
                          end.
Proof.
  induction d1 as [|[k1 v1] d1 IH]; [reflexivity |].
  simpl. destruct (decide (k = k1)); [reflexivity | exact IH].
Qed.

Lemma dict_get_set (k k' : key) (v : value) (d : dict) :
  dict_get k (dict_set k' v d) = if decide (k = k') then Some v else dict_get k d.
Proof.
  induction d as [|[k1 v1] d IH]; simpl.
  - destruct (decide (k = k')); reflexivity.
  - destruct (decide (k' = k1)) as [-> | Hne]; simpl.
    + destruct (decide (k = k1)); reflexivity.
    + destruct (decide (k = k1)) as [-> | Hne1].
      * destruct (decide (k1 = k')); [congruence | reflexivity].
      * exact IH.
Qed.

Lemma dict_get_pop (k k' : key) (d : dict) :
  dict_get k (dict_pop k' d) = if decide (k = k') then None else dict_get k d.
Proof.
  induction d as [|[k1 v1] d IH]; simpl.
  - destruct (decide (k = k')); reflexivity.
  - destruct (decide (k' = k1)) as [-> | Hne]; simpl.
    + rewrite IH. destruct (decide (k = k1)); reflexivity.
    + destruct (decide (k = k1)) as [-> | Hne1].
      * destruct (decide (k1 = k')); [congruence | reflexivity].
      * exact IH.
Qed.

Lemma dict_get_setdefault (k k' : key) (v : value) (d : dict) :
  dict_get k (dict_setdefault k' v d)
  = if decide (k = k') then Some (default v (dict_get k d)) else dict_get k d.
Proof.
  unfold dict_setdefault. destruct (dict_get k' d) as [v' |] eqn:Hd.
  - destruct (decide (k = k')) as [-> | Hne]; [now rewrite Hd | reflexivity].
  - rewrite dict_get_app. simpl.
    destruct (decide (k = k')) as [-> | Hne]; [now rewrite Hd |].
    now destruct (dict_get k d).
Qed.

(** What one round of the loop over [hub.services] registers. *)
Lemma service_registered (entry : key * value) (given : dict) (token : string) :
  snd entry = VDict given -> secret P (token_key entry) = Some token ->
  registered_service P entry
    (VDict (dict_set (KStr "api_token") (VStr token)
              (dict_pop (KStr "apiToken")
                 (dict_setdefault (KStr "name") (key_value (fst entry)) given)))).
Proof.
  intros Hgiven Htoken. exists given. eexists. exists token.
  split; [exact Hgiven |]. split; [reflexivity |]. split; [exact Htoken |].
  rewrite !dict_get_set, !dict_get_pop, !dict_get_setdefault.
  split; [reflexivity |]. split; [reflexivity |]. split; [reflexivity |].
  intros k Hk. rewrite !dict_get_set, !dict_get_pop, !dict_get_setdefault.
  rewrite !not_elem_of_cons in Hk. destruct Hk as (Hname & Htok & Hapi & _).
  repeat destruct (decide _); congruence.
Qed.

Lemma hub_services_loop (services : dict) (s : state) :
  Forall (fun entry => exists given, snd entry = VDict given) services ->
  Forall (fun entry => is_Some (secret P (token_key entry))) services ->
  holds_list (getattr "JupyterHub" "services" (c s)) ->
  exists registered s',
    for_each services (fun kv =>
      service ← try (items (snd kv));
      let service := dict_setdefault (KStr "name") (key_value (fst kv)) service in
      let service := dict_pop (KStr "apiToken") service in
      api_token ← get_secret_value P
                    ("hub.services." +:+ str (key_value (fst kv)) +:+ ".apiToken");
      let service := dict_set (KStr "api_token") (VStr api_token) service in
      append "JupyterHub" "services" (VDict service)) s = Ok tt s' /\
    items_of (getattr "JupyterHub" "services" (c s'))
    = items_of (getattr "JupyterHub" "services" (c s)) ++ registered /\
    Forall2 (registered_service P) services registered /\
    (forall k, k ≠ ("JupyterHub", KStr "services") -> c s' !! k = c s !! k) /\
    environ s' = environ s /\ log s' = log s.
Proof.
  intros Hdicts. revert s.
  induction Hdicts as [|entry services (given & Hgiven) _ IH]; intros s Htokens Hlist.
  - exists [], s. rewrite app_nil_r. repeat split; auto.
  - inversion Htokens as [|? ? [token Htoken] Htokens']; subst.
    rewrite run_for_each_cons. rewrite run_bind, Hgiven. simpl items. simpl try.
    cbv beta iota zeta. rewrite run_bind.
    unfold get_secret_value, Z2jh.get_secret_value.
    change ("hub.services." +:+ str (key_value (fst entry)) +:+ ".apiToken")
      with (token_key entry).
    rewrite Htoken, run_ret. cbv beta iota.
    match goal with
    | |- context [append "JupyterHub" "services" ?v s] =>
      destruct (run_append "JupyterHub" "services" v s Hlist)
        as (s1 & Hrun1 & Hitems1 & Hlist1 & Hframe1 & Henv1 & Hlog1)
    end.
    rewrite Hrun1.
    destruct (IH s1 Htokens' Hlist1) as (registered & s' & Hrun & Hitems & Hall & Hframe & Henv & Hlog).
    eexists (_ :: registered), s'. split; [exact Hrun |].
    split; [rewrite Hitems, Hitems1, <- app_assoc; reflexivity |].
    split; [constructor; [now apply service_registered | exact Hall] |].
    split; [intros k Hk; now rewrite Hframe, Hframe1 |].
    split; congruence.
Qed.

(** X8. The services of [hub.services], each a mapping with its API token
    mounted as a secret: the loop ends normally and adds one descriptor per
    entry to [JupyterHub.services], in the mapping's order, behind what the
    list held. Each descriptor has its [api_token] from the mounted secret
    and no [apiToken], whatever the values say; its name is the one the
    entry gives, and the entry's key where it gives none; every other field
    is the entry's. Nothing else changes. *)
Theorem hub_services_tokens (s : state) (services : dict) :
  get_config cfg "hub.services" (VDict []) = VDict services ->
  Forall (fun entry => exists given, snd entry = VDict given) services ->
  Forall (fun entry => is_Some (secret P (token_key entry))) services ->
  holds_list (getattr "JupyterHub" "services" (c s)) ->
  exists registered s',
    hub_services P cfg s = Ok tt s' /\
    items_of (getattr "JupyterHub" "services" (c s'))
    = items_of (getattr "JupyterHub" "services" (c s)) ++ registered /\
    Forall2 (registered_service P) services registered /\
    (forall k, k ≠ ("JupyterHub", KStr "services") -> c s' !! k = c s !! k) /\
    environ s' = environ s /\ log s' = log s.
Proof.
  intros Hservices Hdicts Htokens Hlist. unfold hub_services.
  rewrite run_bind, Hservices. simpl items. simpl try. cbv beta iota.
  now apply hub_services_loop.
Qed.

End services.

(* ===================================================================== *)
(** ** The hook's environment, and profiles it cannot use *)
(* ===================================================================== *)

Ltac variable_lookup :=
  repeat (rewrite lookup_insert_ne by discriminate);
  rewrite ?lookup_insert_eq; reflexivity.

Section hook_environment.
Import Py Hook Properties.

Variable A : directory_authenticator.
Variable spawner_git_server : value.

(** The hook as a chain of steps on the spawner it works with, once the
    authentication state is settled. *)
Lemma spawner_config_steps (spawner spawner' : spawner_state) :
  spawner_config A spawner_git_server spawner = inr spawner' ->
  exists (working : spawner_state) (sudo : bool) (g membership u : value) (built members : string),
    environment working = environment spawner /\
    name (spawner_user working) = name (spawner_user spawner) /\
    admin (spawner_user working) = admin (spawner_user spawner) /\
    auth_state (spawner_user spawner') = auth_state (spawner_user working) /\
    profile_field (auth_state (spawner_user working)) "gid" = inr g /\
    (if admin (spawner_user working) then sudo = true
     else exists profile advanced,
         subscript (auth_state (spawner_user working)) "profile" = inr profile /\
         Py.get profile "advanced" (VBool false) = inr advanced /\
         sudo = truthy advanced) /\
    environment spawner'
    = <["GROUP_MEMBER" := VStr members]>
        (<["GROUP_BUILD" := VStr built]>
           (<["NOTEBOOK_DIR" := VStr ("/home/" +:+ name (spawner_user working) +:+ "/jupyter")]>
              (<["GIT_SSH_HOST" := spawner_git_server]>
                 ((if sudo then <["GRANT_SUDO" := VStr "1"]> else id)
                    (<["NB_GID" := VStr (str g)]>
                       (<["NB_UID" := VStr (str u)]>
                          (<["NB_USER" := VStr (name (spawner_user working))]>
                             (environment working)))))))).
Proof.
  unfold spawner_config. intros H.
  apply res_bind_inr in H as (missing & Hmissing & H).
  apply res_bind_inr in H as (working & Hworking & H). cbv zeta in H.
  apply res_bind_inr in H as (g & Hg & H). cbv zeta in H.
  apply res_bind_inr in H as (membership & Hm & H). cbv zeta in H.
  apply res_bind_inr in H as (u & Hu & H). cbv zeta in H.
  apply res_bind_inr in H as (g' & Hg' & H). cbv zeta in H.
  apply res_bind_inr in H as (sudo & Hsudo & H). cbv zeta in H.
  apply res_bind_inr in H as (group_map & _ & H).
  apply res_bind_inr in H as (groups & _ & H).
  apply res_bind_inr in H as (built & _ & H). cbv zeta in H.
  apply res_bind_inr in H as (membership' & _ & H).
  apply res_bind_inr in H as (members & _ & H). cbv zeta in H.
  injection H as <-.
  simpl in Hg, Hg', Hsudo. rewrite Hg in Hg'. injection Hg' as <-.
  exists working, sudo, g, membership, u, (join " " built), (join " " (List.map str members)).
  assert (Hsame : environment working = environment spawner /\
                  name (spawner_user working) = name (spawner_user spawner) /\
                  admin (spawner_user working) = admin (spawner_user spawner)).
  { destruct missing.
    - apply res_bind_inr in Hworking as (dn & _ & Hworking).
      apply res_bind_inr in Hworking as (answer & _ & Hworking).
      apply res_bind_inr in Hworking as (state & _ & Hworking).
      injection Hworking as <-. repeat split.
    - injection Hworking as <-. repeat split. }
  destruct Hsame as (Henv & Hname & Hadmin).
  split; [exact Henv |]. split; [exact Hname |]. split; [exact Hadmin |].
  split; [destruct sudo; reflexivity |]. split; [exact Hg |]. split.
  - destruct (admin (spawner_user working)).
    + now injection Hsudo as <-.
    + apply res_bind_inr in Hsudo as (profile & Hp & Hsudo).
      apply res_bind_inr in Hsudo as (advanced & Hadv & Hsudo).
      injection Hsudo as <-. now exists profile, advanced.
  - destruct sudo; reflexivity.
Qed.

(** X9. Whenever the hook completes: [GRANT_SUDO] is "1" if the user is an
    admin or the profile's [advanced] (false when the profile has none) is
    true, and otherwise what it was before the hook, which never removes
    it. *)
Theorem grant_sudo_rule (spawner spawner' : spawner_state) :
  spawner_config A spawner_git_server spawner = inr spawner' ->
  exists profile advanced,
    subscript (auth_state (spawner_user spawner')) "profile" = inr profile /\
    Py.get profile "advanced" (VBool false) = inr advanced /\
    environment spawner' !! "GRANT_SUDO"
    = (if admin (spawner_user spawner) || truthy advanced then Some (VStr "1")
       else environment spawner !! "GRANT_SUDO").
Proof.
  intros H.
  destruct (spawner_config_steps _ _ H)
    as (working & sudo & g & membership & u & built & members
        & Henv & Hname & Hadmin & Hstate & Hg & Hsudo & Hresult).
  rewrite Hresult, Hstate, <- Hadmin, <- Henv.
  apply res_bind_inr in Hg as (profile & Hp & Hgid).
  assert (Hget : exists advanced, Py.get profile "advanced" (VBool false) = inr advanced).
  { destruct profile as [| | | | |d|]; try discriminate. simpl.
    destruct (dict_get (KStr "advanced") d); eauto. }
  destruct Hget as (advanced & Hget). exists profile, advanced.
  split; [exact Hp |]. split; [exact Hget |].
  destruct (admin (spawner_user working)).
  - subst sudo. simpl. variable_lookup.
  - destruct Hsudo as (profile' & advanced' & Hp' & Hget' & ->).
    rewrite Hp in Hp'. injection Hp' as <-. rewrite Hget in Hget'. injection Hget' as <-.
    simpl. destruct (truthy advanced); simpl; variable_lookup.
Qed.


(** X11. A cached profile that lacks one of the fields the hook reads
    without a default makes the hook raise [KeyError] with the name of the
    first such field, in the order gid, group_membership, uid, group_map. *)
Theorem malformed_profile (spawner : spawner_state) (profile : dict) (field : string) :
  subscript (auth_state (spawner_user spawner)) "profile" = inr (VDict profile) ->
  first_missing profile = Some field ->
  spawner_config A spawner_git_server spawner = inl (KeyError field).
Proof.
  intros Hp Hmissing. unfold spawner_config.
  rewrite (has_profile _ _ Hp), res_bind_l. cbv beta iota.
  rewrite res_mret_l. cbv beta zeta.
  unfold profile_field. rewrite Hp.
  cbn [admin spawner_user setenv set_supplemental_gids set_fs_gid set_gid set_uid].
  rewrite ?Hp.
  revert Hmissing. unfold first_missing, profile_fields. simpl.
  destruct (dict_get (KStr "gid") profile) as [g |]; simpl;
    [| intros Hf; injection Hf as <-; reflexivity].
  destruct (dict_get (KStr "group_membership") profile) as [m |]; simpl;
    [| intros Hf; injection Hf as <-; reflexivity].
  destruct (dict_get (KStr "uid") profile) as [u |]; simpl;
    [| intros Hf; injection Hf as <-; reflexivity].
  destruct (dict_get (KStr "group_map") profile) as [gm |]; simpl; [discriminate |].
  intros Hf; injection Hf as <-.
  destruct (admin (spawner_user spawner)); simpl; [reflexivity |].
  destruct (dict_get (KStr "advanced") profile); reflexivity.
Qed.

End hook_environment.

Section hook_directory.
Import Py Hook Properties.

(** X12. With a cached profile the hook never consults the directory: it
    does the same whatever the authenticator's directory answers. *)
Theorem cached_profile_needs_no_directory
    (A A' : directory_authenticator) (spawner_git_server cached : value)
    (spawner : spawner_state) :
  subscript (auth_state (spawner_user spawner)) "profile" = inr cached ->
  spawner_config A spawner_git_server spawner = spawner_config A' spawner_git_server spawner.
Proof.
  intros Hp. unfold spawner_config. now rewrite (has_profile _ _ Hp), !res_bind_l.
Qed.

End hook_directory.

(* ===================================================================== *)
(** ** The directory and the custom authenticator; the hooks *)
(* ===================================================================== *)

Section other_authenticators.
Import Py Traitlets Run World Script Stated Properties.

Variable P : platform.
Variable cfg : value.

Ltac known_type :=
  rewrite !eq_str_VStr;
  repeat match goal with
         | |- context [String.eqb ?a ?b] =>
           let r := eval vm_compute in (String.eqb a b) in
           change (String.eqb a b) with r
         end;
  cbv iota.

Lemma ldap_traits_distinct : NoDup (ldap_traits.*1).
Proof. apply (bool_decide_unpack _). vm_compute. exact I. Qed.

(** The loop of the [ldap] branch is the loop over a table whose rows all
    give their key. *)
Lemma ldap_loop_as_table (rows : list (string * string)) (s : state) :
  for_each rows (fun row => set_config_if_not_none cfg "LDAPAuthenticator" (fst row) (snd row)) s
  = set_traits cfg "LDAPAuthenticator" ""
      (List.map (fun row => (fst row, Some (snd row))) rows) s.
Proof.
  revert s. induction rows as [|row rows IH]; intros s; [reflexivity |].
  simpl List.map. unfold set_traits. rewrite !run_for_each_cons.
  change ("" +:+ source_key (fst row, Some (snd row))) with (snd row).
  change (fst (fst row, Some (snd row))) with (fst row).
  destruct (set_config_if_not_none cfg "LDAPAuthenticator" (fst row) (snd row) s);
    [apply IH | reflexivity].
Qed.

(** X13. The [ldap] branch always ends normally. It names the class, it
    assigns [server_address] whatever the tree holds, null when the key is
    absent, and each of the thirteen other traits holds the configured value
    when its key is present and not null and what it held otherwise. *)
Theorem ldap_traits_applied (s : state) :
  auth_type cfg = VStr "ldap" ->
  exists s',
    authenticator P cfg s = Ok tt s' /\
    getattr "JupyterHub" "authenticator_class" (c s')
    = Some (Val (VStr "ldapauthenticator.LDAPAuthenticator")) /\
    getattr "LDAPAuthenticator" "server_address" (c s')
    = Some (Val (get_config cfg "auth.ldap.server.address" VNone)) /\
    (forall row, row ∈ ldap_traits ->
       getattr "LDAPAuthenticator" (fst row) (c s')
       = handled cfg (getattr "LDAPAuthenticator" (fst row) (c s)) (snd row)) /\
    environ s' = environ s /\ log s' = log s.
Proof.
  intros Hauth. unfold authenticator. rewrite Hauth. known_type.
  generalize (get_config cfg "auth.ldap.server.address" VNone). intros address.
  do 2 (rewrite run_bind, run_assign; cbv beta iota).
  rewrite ldap_loop_as_table.
  match goal with
  | |- context [set_traits cfg ?cls ?prefix ?table ?s1] =>
    assert (Hnd : NoDup (table.*1))
      by (apply (bool_decide_unpack _); vm_compute; exact I);
    destruct (set_traits_rows cfg cls prefix table Hnd s1)
      as (s' & Hrun & Henv & Hlog & Hrows & Hframe)
  end.
  exists s'. split; [exact Hrun |].
  unfold getattr. rewrite !Hframe.
  - cbn [c with_c]. unfold setattr.
    rewrite lookup_insert_ne, !lookup_insert_eq by discriminate.
    split; [reflexivity |]. split; [reflexivity |]. split; [| auto].
    intros row Hin.
    assert (Hother : fst row ≠ "server_address").
    { clear -Hin.
      repeat (apply elem_of_cons in Hin as [-> | Hin]; [simpl; discriminate |]).
      inversion Hin. }
    assert (Hin' : (fst row, Some (snd row))
                   ∈ List.map (fun r : string * string => (fst r, Some (snd r))) ldap_traits).
    { apply list_elem_of_fmap. now exists row. }
    etransitivity; [exact (Hrows _ Hin') |].
    cbn [fst snd source_key c with_c]. unfold getattr.
    change ("" +:+ snd row) with (snd row). unfold setattr.
    rewrite !lookup_insert_ne by congruence. reflexivity.
  - intros row Hin Heq.
    apply list_elem_of_fmap in Hin as (r & -> & Hin). injection Heq as Hrow.
    clear -Hin Hrow.
    repeat (apply elem_of_cons in Hin as [-> | Hin]; [discriminate Hrow |]).
    inversion Hin.
  - intros row Hin Heq. discriminate.
Qed.

(** X14. The [custom] branch. With a class name and settings that are a
    mapping with distinct keys (or none): the section that gets the
    settings is named by what follows the last dot of the class name, which
    has no dot in it; the branch ends normally when that name does not
    start with an underscore, every setting is then in that section, and
    [authenticator_class] is the full class name unless the settings are for
    the [JupyterHub] section itself. *)
Theorem custom_authenticator_section (s : state) (class_name : string) (settings : dict) :
  auth_type cfg = VStr "custom" ->
  get_config cfg "auth.custom.className" VNone = VStr class_name ->
  given_dict (get_config cfg "auth.custom.config" VNone) settings ->
  NoDup (settings.*1) ->
  starts_with_underscore (List.last (split "."%char class_name) "") = false ->
  mem_char "."%char (List.last (split "."%char class_name) "") = false /\
  (class_name = List.last (split "."%char class_name) "" \/
   exists package,
     class_name = package +:+ "." +:+ List.last (split "."%char class_name) "") /\
  exists s',
    authenticator P cfg s = Ok tt s' /\
    (forall k v, (k, v) ∈ settings ->
       c s' !! (List.last (split "."%char class_name) "", k) = Some (Val v)) /\
    (List.last (split "."%char class_name) "" ≠ "JupyterHub" ->
     getattr "JupyterHub" "authenticator_class" (c s') = Some (Val (VStr class_name))) /\
    environ s' = environ s /\ log s' = log s.
Proof.
  intros Hauth Hclass Hsettings Hnd Hsection.
  destruct (last_split "."%char class_name) as [Hdot Hlast].
  split; [exact Hdot |]. split; [exact Hlast |].
  unfold authenticator. rewrite Hauth. known_type. cbv zeta. rewrite Hclass.
  rewrite run_bind, run_assign. cbv beta iota. rewrite run_bind, run_ret. cbv beta iota.
  assert (Hupdate : (if truthy (get_config cfg "auth.custom.config" VNone)
                     then get_config cfg "auth.custom.config" VNone
                     else VDict []) = VDict settings).
  { destruct Hsettings as [-> | [-> ->]]; [| reflexivity].
    now destruct settings. }
  rewrite Hupdate. rewrite run_update_section by exact Hsection.
  eexists. split; [reflexivity |]. cbn [c environ log with_c].
  split; [| split; [| split; reflexivity]].
  - intros k v Hin. now apply updated_entry.
  - intros Hne. unfold getattr. rewrite updated_other by (left; simpl; congruence).
    apply lookup_insert_eq.
Qed.

(** Running to the end: a statement followed by others ends normally only
    if it does, and the rest then runs in the state it left. *)
Lemma ok_bind_final {X Y} (m : M X) (f : X -> M Y) (s : state) :
  ok ((m ≫= f) s) = true ->
  exists a s1, m s = Ok a s1 /\ (m ≫= f) s = f a s1.
Proof.
  rewrite run_bind. destruct (m s) as [a s1 | e s1]; [eauto | discriminate].
Qed.


End other_authenticators.
(* ===================================================================== *)
(** ** The further properties at concrete inputs *)
(* ===================================================================== *)

Section further_properties_at_concrete_inputs.
Import Py Traitlets Run World Script Hook Stated Properties Examples Inputs.

(** X1 at a run that completes: the dummy authenticator in a fresh
    process. *)
Lemma script_needs_witness :
  ok (jupyterhub_config plain_platform dummy_values fresh) = true /\
  is_Some (environ fresh !! "HUB_SERVICE_HOST") /\
  is_Some (environ fresh !! "HUB_SERVICE_PORT") /\
  (exists d, get_config dummy_values "singleuser.cloudMetadata" VNone = VDict d) /\
  is_Some (secret plain_platform "hub.config.JupyterHub.cookie_secret") /\
  is_Some (secret plain_platform "hub.config.CryptKeeper.keys") /\
  exists t, auth_type dummy_values = VStr t /\ t ∈ working_auth_types.
Proof.
  assert (Hok : ok (jupyterhub_config plain_platform dummy_values fresh) = true)
    by (vm_compute; reflexivity).
  split; [exact Hok |].
  exact (script_needs plain_platform dummy_values fresh Hok).
Defined.

(** X3 at the two seeded secrets of the plain surroundings. *)
Lemma crypt_keeper_keys_witness :
  exists ks s',
    seeded_secrets plain_platform fresh = Ok tt s' /\
    getattr "JupyterHub" "cookie_secret" (c s') = Some (Val (VStr "c00c1e")) /\
    getattr "CryptKeeper" "keys" (c s') = Some (Val (strs ks)) /\
    join ";" ks = "k1;k2" /\ ks ≠ [] /\ Forall (fun k => mem_char ";"%char k = false) ks.
Proof.
  apply (crypt_keeper_keys plain_platform fresh "c00c1e" "k1;k2"); reflexivity.
Defined.

(** X5 at a chart version with build metadata. *)
Lemma common_labels_chart_witness :
  exists labels s',
    common_labels chart_values fresh = Ok tt s' /\
    getattr "KubeSpawner" "common_labels" (c s') = Some (Val (VDict labels)) /\
    dict_get (KStr "chart") labels = Some (VStr "jupyterhub-1.2.0_n012.h34") /\
    dict_get (KStr "release") labels = Some (VStr "jhub").
Proof.
  destruct (common_labels_chart chart_values fresh "1.2.0+n012.h34")
    as (labels & s' & Hrun & Hlabels & _ & _ & Hchart & _ & Hrelease);
    [reflexivity | reflexivity | discriminate |].
  exists labels, s'. auto.
Defined.

(** X7 at two files, in a fresh process. *)
Lemma extra_files_volume_witness :
  exists volume items mounts s',
    extra_files plain_platform files_values fresh = Ok tt s' /\
    items_of (getattr "KubeSpawner" "volumes" (c s')) = [volume] /\
    items_of (getattr "KubeSpawner" "volume_mounts" (c s')) = mounts /\
    (secret ← subscript volume "secret"; subscript secret "items") = inr (VList items) /\
    Forall2 file_item [(KStr "motd", motd_file); (KStr "notice", notice_file)] items /\
    Forall2 file_mount [(KStr "motd", motd_file); (KStr "notice", notice_file)] mounts.
Proof.
  destruct (extra_files_volume plain_platform files_values fresh
              [(KStr "motd", motd_file); (KStr "notice", notice_file)] "singleuser")
    as (volume & items & mounts & s' & Hrun & Hv & Hm & _ & _ & Hitems & Hfiles & Hmounts & _).
  - reflexivity.
  - discriminate.
  - repeat constructor; eexists _, _; (split; reflexivity).
  - reflexivity.
  - exact I.
  - exact I.
  - exists volume, items, mounts, s'. auto 10.
Defined.

(** X8 at one service whose values carry a token of their own: the mounted
    token is the one registered. *)
Lemma hub_services_tokens_witness :
  exists registered s',
    hub_services services_platform services_values services_ready = Ok tt s' /\
    items_of (getattr "JupyterHub" "services" (c s')) = registered /\
    Forall2 (registered_service services_platform) [(KStr "grader", grader_service)] registered.
Proof.
  destruct (hub_services_tokens services_platform services_values services_ready
              [(KStr "grader", grader_service)])
    as (registered & s' & Hrun & Hitems & Hall & _).
  - reflexivity.
  - repeat constructor. eexists. reflexivity.
  - repeat constructor. eexists. reflexivity.
  - exact I.
  - exists registered, s'. auto.
Defined.

(** X9 at the worked example, whose user is no admin and has no advanced
    access: a [GRANT_SUDO] that was there stays. *)
Lemma grant_sudo_rule_witness :
  exists spawner',
    spawner_config no_directory VNone sudo_spawner = inr spawner' /\
    environment spawner' !! "GRANT_SUDO" = Some (VStr "yes").
Proof.
  destruct (spawner_config no_directory VNone sudo_spawner) as [e | spawner'] eqn:Hrun;
    [vm_compute in Hrun; discriminate |].
  destruct (grant_sudo_rule no_directory VNone sudo_spawner spawner' Hrun)
    as (profile & advanced & Hp & Hadvanced & Hsudo).
  exists spawner'. split; [reflexivity |].
  assert (Hstate : auth_state (spawner_user spawner') = auth_state example_user).
  { vm_compute in Hrun. injection Hrun as <-. reflexivity. }
  rewrite Hstate in Hp. injection Hp as <-. injection Hadvanced as <-.
  exact Hsudo.
Defined.


(** X11 at a cached profile without [uid]. *)
Lemma malformed_profile_witness :
  spawner_config no_directory VNone incomplete_spawner = inl (KeyError "uid").
Proof.
  apply (malformed_profile no_directory VNone incomplete_spawner incomplete_profile "uid");
    reflexivity.
Defined.

(** X12 at the worked example: a directory that cannot be reached and one
    that answers. *)
Lemma cached_profile_needs_no_directory_witness :
  spawner_config no_directory VNone example_spawner
  = spawner_config bob_directory VNone example_spawner.
Proof.
  apply (cached_profile_needs_no_directory no_directory bob_directory VNone example_profile
           example_spawner).
  reflexivity.
Defined.

(** X13 at a directory server with its port and nothing else. *)
Lemma ldap_traits_applied_witness :
  exists s',
    authenticator plain_platform ldap_values fresh = Ok tt s' /\
    getattr "LDAPAuthenticator" "server_address" (c s') = Some (Val (VStr "ldap.example.org")) /\
    getattr "LDAPAuthenticator" "server_port" (c s') = Some (Val (VInt 636)) /\
    getattr "LDAPAuthenticator" "use_ssl" (c s') = None.
Proof.
  destruct (ldap_traits_applied plain_platform ldap_values fresh) as (s' & Hrun & _ & Haddress & Hrows & _);
    [reflexivity |].
  exists s'. split; [exact Hrun |]. split; [exact Haddress |]. split.
  - apply (Hrows ("server_port", "auth.ldap.server.port")).
    apply (bool_decide_unpack _). vm_compute. exact I.
  - apply (Hrows ("use_ssl", "auth.ldap.server.ssl")).
    apply (bool_decide_unpack _). vm_compute. exact I.
Defined.

(** X14 at a class in a package of two levels. *)
Lemma custom_authenticator_section_witness :
  exists s',
    authenticator plain_platform custom_values fresh = Ok tt s' /\
    c s' !! ("MyAuthenticator", KStr "greeting") = Some (Val (VStr "hello")) /\
    getattr "JupyterHub" "authenticator_class" (c s')
    = Some (Val (VStr "myauth.pam.MyAuthenticator")).
Proof.
  destruct (custom_authenticator_section plain_platform custom_values fresh
              "myauth.pam.MyAuthenticator"
              [(KStr "greeting", VStr "hello"); (KStr "retries", VInt 3)])
    as (_ & _ & s' & Hrun & Hsettings & Hclass & _).
  - reflexivity.
  - reflexivity.
  - left. reflexivity.
  - apply (bool_decide_unpack _). vm_compute. exact I.
  - reflexivity.
  - exists s'. split; [exact Hrun |]. split.
    + apply (Hsettings (KStr "greeting") (VStr "hello")). constructor.
    + apply Hclass. discriminate.
Defined.


End further_properties_at_concrete_inputs.
